(** * Natours: the authentication controller, embedded and verified

    A shallow embedding of [controllers/authController.js] and of the user
    schema of the repository.  Express handlers become functions from a
    request and a world (the [users] collection, the mail outbox) to an
    outcome and a new world.  A rejected promise or a thrown exception is the
    [Raise] result of a small state-and-exception monad; [catchAsync] turns
    it into a call of [next].  [userSchema] is the table of the schema's
    paths with their options; [validateSync], [applySetters] and
    [duplicateKey] read it as the object-document mapper does.

    Libraries that the code requires ([jsonwebtoken], [crypto], [validator],
    the string primitives of the runtime) are the fields of a record [Libs].
    The instance methods and save middleware that the controller calls on a
    user document, and that no schema of the repository declares, are the
    fields of the class [UserModel]; the handlers are generic in both.
    The schema of the repository declares no middleware ([NoMiddleware]);
    [specModel] is the user model that the specification describes. *)

From Stdlib Require Import ZArith List String Ascii Bool Lia DecimalString
  DecimalZ.
Import ListNotations.
Local Open Scope string_scope.
Local Open Scope Z_scope.

(** ** Strings as JavaScript sees them *)

Module JS.

(** Truthiness of a value that is a string or [undefined]: [!v] holds for
    [undefined] and for the empty string. *)
Definition truthy (v : option string) : bool :=
  match v with
  | None => false
  | Some s => negb (String.eqb s "")
  end.

(** [s.startsWith(p)]. *)
Definition startsWith (s p : string) : bool := String.prefix p s.

(** [s.split(sep)] for a separator of one character: the pieces between
    the occurrences of [sep], empty pieces included. *)
Fixpoint split (sep : ascii) (s : string) : list string :=
  match s with
  | EmptyString => [EmptyString]
  | String c rest =>
      if Ascii.eqb c sep then EmptyString :: split sep rest
      else match split sep rest with
           | [] => [String c EmptyString]
           | piece :: pieces => String c piece :: pieces
           end
  end.

(** [a[i]]: [undefined] past the end of the array. *)
Definition index {A : Type} (a : list A) (i : nat) : option A := nth_error a i.

(** Interpolation of a value that may be [undefined] in a template literal. *)
Definition interpolate (v : option string) : string :=
  match v with
  | Some s => s
  | None => "undefined"
  end.

Definition space : ascii := " "%char.

(** The line break of a template literal that spans two lines, and the
    escape [\n]. *)
Definition newline : string := String (ascii_of_nat 10) EmptyString.

(** No occurrence of the character [c] in [s]. *)
Fixpoint lacks (c : ascii) (s : string) : bool :=
  match s with
  | EmptyString => true
  | String d rest => negb (Ascii.eqb d c) && lacks c rest
  end.

End JS.

(** ** Documents of the [users] collection *)

(** The paths of a user document: the five that the schema declares
    ([name], [email], [photo], [password], [passwordConfirm]) and the four
    that the controller reads or writes besides. *)
Inductive Path : Type :=
  | PName | PEmail | PPhoto | PPassword | PPasswordConfirm
  | PPasswordChangedAt | PRole | PPasswordResetToken | PPasswordResetExpires.

Definition Path_eqb (p q : Path) : bool :=
  match p, q with
  | PName, PName | PEmail, PEmail | PPhoto, PPhoto
  | PPassword, PPassword | PPasswordConfirm, PPasswordConfirm
  | PPasswordChangedAt, PPasswordChangedAt | PRole, PRole
  | PPasswordResetToken, PPasswordResetToken
  | PPasswordResetExpires, PPasswordResetExpires => true
  | _, _ => false
  end.

Definition Path_name (p : Path) : string :=
  match p with
  | PName => "name"
  | PEmail => "email"
  | PPhoto => "photo"
  | PPassword => "password"
  | PPasswordConfirm => "passwordConfirm"
  | PPasswordChangedAt => "passwordChangedAt"
  | PRole => "role"
  | PPasswordResetToken => "passwordResetToken"
  | PPasswordResetExpires => "passwordResetExpires"
  end.

(** A user document.  A path that is [undefined] is [None]; dates are
    milliseconds since the epoch, as [Date.now()] gives them. *)
Record User : Type := mkUser {
  _id : Z;
  name : option string;
  email : option string;
  photo : option string;
  password : option string;
  passwordConfirm : option string;
  passwordChangedAt : option Z;
  role : option string;
  passwordResetToken : option string;
  passwordResetExpires : option Z
}.

Definition set_id (v : Z) (u : User) : User :=
  mkUser v (name u) (email u) (photo u) (password u) (passwordConfirm u)
         (passwordChangedAt u) (role u) (passwordResetToken u)
         (passwordResetExpires u).

Definition set_name (v : option string) (u : User) : User :=
  mkUser (_id u) v (email u) (photo u) (password u) (passwordConfirm u)
         (passwordChangedAt u) (role u) (passwordResetToken u)
         (passwordResetExpires u).

Definition set_photo (v : option string) (u : User) : User :=
  mkUser (_id u) (name u) (email u) v (password u) (passwordConfirm u)
         (passwordChangedAt u) (role u) (passwordResetToken u)
         (passwordResetExpires u).

Definition set_email (v : option string) (u : User) : User :=
  mkUser (_id u) (name u) v (photo u) (password u) (passwordConfirm u)
         (passwordChangedAt u) (role u) (passwordResetToken u)
         (passwordResetExpires u).

Definition set_password (v : option string) (u : User) : User :=
  mkUser (_id u) (name u) (email u) (photo u) v (passwordConfirm u)
         (passwordChangedAt u) (role u) (passwordResetToken u)
         (passwordResetExpires u).

Definition set_passwordConfirm (v : option string) (u : User) : User :=
  mkUser (_id u) (name u) (email u) (photo u) (password u) v
         (passwordChangedAt u) (role u) (passwordResetToken u)
         (passwordResetExpires u).

Definition set_passwordChangedAt (v : option Z) (u : User) : User :=
  mkUser (_id u) (name u) (email u) (photo u) (password u)
         (passwordConfirm u) v (role u) (passwordResetToken u)
         (passwordResetExpires u).

Definition set_passwordResetToken (v : option string) (u : User) : User :=
  mkUser (_id u) (name u) (email u) (photo u) (password u)
         (passwordConfirm u) (passwordChangedAt u) (role u) v
         (passwordResetExpires u).

Definition set_passwordResetExpires (v : option Z) (u : User) : User :=
  mkUser (_id u) (name u) (email u) (photo u) (password u)
         (passwordConfirm u) (passwordChangedAt u) (role u)
         (passwordResetToken u) v.

(** A document in memory: its values, whether it was never saved, and the
    paths assigned since it was loaded. *)
Record Doc : Type := mkDoc {
  fields : User;
  isNew : bool;
  modified : list Path
}.

Definition isModified (p : Path) (d : Doc) : bool :=
  existsb (Path_eqb p) (modified d).

(** [doc.path = v]: the value changes and the path is marked. *)
Definition assign (p : Path) (f : User -> User) (d : Doc) : Doc :=
  mkDoc (f (fields d)) (isNew d) (p :: modified d).

(** A document as a query returns it. *)
Definition loaded (u : User) : Doc := mkDoc u false [].

(** ** JSON of a document *)

Inductive JValue : Type :=
  | JString (s : string)
  | JNumber (n : Z).

Definition member {A : Type} (key : string) (wrap : A -> JValue)
    (v : option A) : list (string * JValue) :=
  match v with
  | Some x => [(key, wrap x)]
  | None => []
  end.

(** [JSON.stringify] of a document: a path that is [undefined] has no
    member. *)
Definition toJSON (u : User) : list (string * JValue) :=
  [("_id", JNumber (_id u))]
  ++ member "name" JString (name u)
  ++ member "email" JString (email u)
  ++ member "photo" JString (photo u)
  ++ member "password" JString (password u)
  ++ member "passwordConfirm" JString (passwordConfirm u)
  ++ member "passwordChangedAt" JNumber (passwordChangedAt u)
  ++ member "role" JString (role u)
  ++ member "passwordResetToken" JString (passwordResetToken u)
  ++ member "passwordResetExpires" JNumber (passwordResetExpires u).

Definition keys (o : list (string * JValue)) : list string := map fst o.

Definition hasKey (key : string) (o : list (string * JValue)) : bool :=
  existsb (String.eqb key) (keys o).

(** ** Errors *)

(** One failed validator of the schema: [required] and custom validators
    carry the message the schema gives them, [minlength] the bound. *)
Inductive Failure : Type :=
  | FRequired (p : Path) (message : string)
  | FValidator (p : Path) (message : string)
  | FMinlength (p : Path) (bound : nat).

(** Modelled from the spec: [AppError], the class of [utils/appError], of
    which the repository holds the calls only: an error value that
    carries a message and a numeric status code; the code is [None] when
    the constructor is given the message alone.

    The other constructors are what the libraries throw, and with
    [AppError] what a handler throws or hands to [next]: a failed schema
    validation, a violated unique index, a token that does not verify, a
    call on a value that has no such method, a failed mail transport. *)
Inductive Error : Type :=
  | AppError (message : string) (statusCode : option Z)
  | ValidationError (failures : list Failure)
  | DuplicateKeyError (p : Path)
  | JsonWebTokenError
  | TypeError (message : string)
  | DeliveryError.

(** ** The environment of a request *)

(** [process.env], as the controller reads it. *)
Record Config : Type := mkConfig {
  JWT_SECRET : string;
  JWT_EXPIRES_IN : string;
  JWT_COOKIE_EXPIRES_IN : Z;
  NODE_ENV : string
}.

(** The payload of a verified session token. *)
Record Payload : Type := mkPayload {
  id : Z;
  iat : Z
}.

(** The libraries the code calls: [String.prototype.toLowerCase] (the
    schema's [lowercase] setter), [validator.isEmail], [jwt.sign] (payload
    identifier, secret, [expiresIn], the clock), [jwt.verify] (token,
    secret, the clock; [None] when it throws) and the SHA-256 hex digest of
    [crypto]. *)
Record Libs : Type := mkLibs {
  toLowerCase : string -> string;
  isEmail : string -> bool;
  jwt_sign : Z -> string -> string -> Z -> string;
  jwt_verify : string -> string -> Z -> option Payload;
  sha256hex : string -> string
}.

(** A message handed to [sendEmail]. *)
Record Email : Type := mkEmail {
  to : option string;
  subject : string;
  message : string
}.

(** What a request finds around it: the clock ([Date.now()]), the random
    bytes the reset token is drawn from, whether the mail transport
    delivers a given message, and the configuration. *)
Record Env : Type := mkEnv {
  now : Z;
  randomBytes : string;
  delivers : Email -> bool;
  config : Config
}.

(** The instance methods and the save middleware of the user model.  The
    controller calls them; the schema of the repository declares none, so
    the handlers take them as an interface.

    - [correctPassword candidate stored]: the hash comparison of [login]
      and [updatePassword];
    - [passwordChangedAfter u iat]: the test of [protect];
    - [createPasswordResetToken random now d]: the plain token it returns
      and the document it leaves;
    - [preSave now d]: the values the [pre('save')] middleware leaves in
      the document, which are the values written to the collection. *)
Class UserModel : Type := mkUserModel {
  correctPassword : option string -> option string -> bool;
  passwordChangedAfter : User -> Z -> bool;
  createPasswordResetToken : string -> Z -> Doc -> string * Doc;
  preSave : Z -> Doc -> User
}.

(** ** The world and the monad of a handler *)

Record World : Type := mkWorld {
  users : list User;
  outbox : list Email;
  nextId : Z
}.

Inductive Result (A : Type) : Type :=
  | Return (a : A)
  | Raise (e : Error).

Arguments Return {A} a.
Arguments Raise {A} e.

(** An asynchronous computation: it changes the world and either returns
    or throws. *)
Definition Action (A : Type) : Type := World -> Result A * World.

Definition ret {A : Type} (a : A) : Action A := fun w => (Return a, w).

Definition raise {A : Type} (e : Error) : Action A := fun w => (Raise e, w).

Definition bind {A B : Type} (c : Action A) (k : A -> Action B) : Action B :=
  fun w =>
    match c w with
    | (Return a, w') => k a w'
    | (Raise e, w') => (Raise e, w')
    end.

(** [try { c } catch (err) { handler }]. *)
Definition tryCatch {A : Type} (c : Action A) (handler : Error -> Action A)
    : Action A :=
  fun w =>
    match c w with
    | (Return a, w') => (Return a, w')
    | (Raise e, w') => handler e w'
    end.

Declare Scope action_scope.
Delimit Scope action_scope with action.
Notation "x <- c ;; k" := (bind c (fun x => k))
  (at level 61, c at next level, right associativity) : action_scope.
Notation "c ;;; k" := (bind c (fun _ => k))
  (at level 61, right associativity) : action_scope.

Local Open Scope action_scope.

(** ** The user schema and the collection *)

Section Store.

Variable L : Libs.
Context {M : UserModel}.
Variable env : Env.

(** One path of a schema: how a document is read and written at it, and
    the options that [userSchema] sets ([required] and [validate] with
    their messages). *)
Record SchemaType : Type := mkSchemaType {
  path : Path;
  get : User -> option string;
  set : option string -> User -> User;
  required : option string;
  unique : bool;
  lowercase : bool;
  validate : option ((string -> bool) * string);
  minlength : option nat
}.

(** The five paths of [userSchema].  No path has a validator that
    compares it with another one. *)
Definition namePath : SchemaType :=
  mkSchemaType PName name set_name
    (Some "A user must have a name") false false None None.

Definition emailPath : SchemaType :=
  mkSchemaType PEmail email set_email
    (Some "A user must have an email") true true
    (Some (isEmail L, "Please enter a valid email")) None.

Definition photoPath : SchemaType :=
  mkSchemaType PPhoto photo set_photo None false false None None.

Definition passwordPath : SchemaType :=
  mkSchemaType PPassword password set_password
    (Some "please enter a password") false false None (Some 8%nat).

Definition passwordConfirmPath : SchemaType :=
  mkSchemaType PPasswordConfirm passwordConfirm set_passwordConfirm
    (Some "please confirm your password") false false None None.

(** [userSchema], in the order of its paths. *)
Definition userSchema : list SchemaType :=
  [namePath; emailPath; photoPath; passwordPath; passwordConfirmPath].

(** The [required] validator of a string path: [undefined] and the empty
    string fail. *)
Definition missing (v : option string) : bool := negb (JS.truthy v).

(** The validators of one path, [required] first, then [validate] and
    [minlength], which skip a value that is [undefined]; the path reports
    its first failure. *)
Definition checkMinlength (t : SchemaType) (v : string) : list Failure :=
  match minlength t with
  | Some bound =>
      if (String.length v <? bound)%nat then [FMinlength (path t) bound]
      else []
  | None => []
  end.

Definition checkValue (t : SchemaType) (v : option string)
    : list Failure :=
  match v with
  | Some v =>
      match validate t with
      | Some (valid, message) =>
          if valid v then checkMinlength t v
          else [FValidator (path t) message]
      | None => checkMinlength t v
      end
  | None => []
  end.

Definition validatePath (t : SchemaType) (u : User) : list Failure :=
  match required t with
  | Some message =>
      if missing (get t u) then [FRequired (path t) message]
      else checkValue t (get t u)
  | None => checkValue t (get t u)
  end.

(** [doc.validateSync()]: the failures of all paths of the schema. *)
Definition validateSync (u : User) : list Failure :=
  flat_map (fun t => validatePath t u) userSchema.

(** The setters of the schema: [lowercase] folds the case of a path. *)
Definition applySetters (u : User) : User :=
  fold_left
    (fun u t =>
       if lowercase t then set t (option_map (toLowerCase L) (get t u)) u
       else u)
    userSchema u.

(** The unique indexes: the first [unique] path among those written at
    which a stored document other than [self] holds the value of [u]. *)
Definition sameValue (a b : option string) : bool :=
  match a, b with
  | Some x, Some y => String.eqb x y
  | None, None => true
  | _, _ => false
  end.

Definition taken (self : option Z) (t : SchemaType) (u : User)
    (us : list User) : bool :=
  existsb (fun v =>
             match self with
             | Some i => negb (_id v =? i)
             | None => true
             end
             && sameValue (get t v) (get t u)) us.

Definition duplicateKey (self : option Z) (written : Path -> bool)
    (u : User) (us : list User) : option Path :=
  option_map path
    (find (fun t => unique t && written (path t) && taken self t u us)
          userSchema).

(** An email that a stored document holds already. *)
Definition emailTaken (e : option string) (us : list User) : bool :=
  existsb (fun v => sameValue (email v) e) us.

(** The update of [save]: the document stored under the identifier is
    replaced. *)
Definition replace (i : Z) (u : User) (us : list User) : list User :=
  map (fun v => if _id v =? i then u else v) us.

(** [doc.save({ validateBeforeSave })]: the validators run unless they are
    switched off, then the save middleware; a new document is inserted, a
    loaded one is updated; a unique index is checked when its path is
    written.  The document in memory holds what was written. *)
Definition save (validateBeforeSave : bool) (d : Doc) : Action Doc :=
  fun w =>
    match (if validateBeforeSave then validateSync (fields d) else []) with
    | f :: fs => (Raise (ValidationError (f :: fs)), w)
    | [] =>
        let u := preSave (now env) d in
        if isNew d then
          match duplicateKey None (fun _ => true) u (users w) with
          | Some p => (Raise (DuplicateKeyError p), w)
          | None =>
              (Return (loaded u),
               mkWorld (users w ++ [u]) (outbox w) (nextId w))
          end
        else
          match duplicateKey (Some (_id (fields d)))
                             (fun p => isModified p d) u (users w) with
          | Some p => (Raise (DuplicateKeyError p), w)
          | None =>
              (Return (loaded u),
               mkWorld (replace (_id (fields d)) u (users w))
                       (outbox w) (nextId w))
          end
    end.

(** The paths of an object handed to [User.create] that hold a value. *)
Definition given {A : Type} (p : Path) (v : option A) : list Path :=
  match v with
  | Some _ => [p]
  | None => []
  end.

Definition givenPaths (u : User) : list Path :=
  given PName (name u) ++ given PEmail (email u) ++ given PPhoto (photo u)
  ++ given PPassword (password u)
  ++ given PPasswordConfirm (passwordConfirm u)
  ++ given PPasswordChangedAt (passwordChangedAt u)
  ++ given PRole (role u)
  ++ given PPasswordResetToken (passwordResetToken u)
  ++ given PPasswordResetExpires (passwordResetExpires u).

(** The schema is strict (the default of the mapper): the constructor of
    the model keeps the paths of an object that [userSchema] declares and
    drops the others. *)
Definition declared (p : Path) : bool :=
  existsb (fun t => Path_eqb (path t) p) userSchema.

Definition keep {A : Type} (p : Path) (v : option A) : option A :=
  if declared p then v else None.

Definition strict (obj : User) : User :=
  mkUser (_id obj)
         (keep PName (name obj)) (keep PEmail (email obj))
         (keep PPhoto (photo obj)) (keep PPassword (password obj))
         (keep PPasswordConfirm (passwordConfirm obj))
         (keep PPasswordChangedAt (passwordChangedAt obj))
         (keep PRole (role obj))
         (keep PPasswordResetToken (passwordResetToken obj))
         (keep PPasswordResetExpires (passwordResetExpires obj)).

(** The document that [User.create(obj)] builds: a fresh identifier, the
    declared paths of the object, the setters of the schema applied, every
    path that was kept marked. *)
Definition newDocument (i : Z) (obj : User) : Doc :=
  mkDoc (applySetters (set_id i (strict obj))) true
        (givenPaths (strict obj)).

(** [User.create(obj)]: the new document, saved with validation. *)
Definition create (obj : User) : Action Doc :=
  fun w =>
    save true (newDocument (nextId w) obj)
         (mkWorld (users w) (outbox w) (nextId w + 1)).

(** The query filters of the controller. *)
Inductive Filter : Type :=
  | ByEmail (e : option string)
  | ByResetToken (hashed : string) (after : Z).

Definition matches (f : Filter) (u : User) : bool :=
  match f with
  | ByEmail e => sameValue (email u) e
  | ByResetToken hashed after =>
      match passwordResetToken u, passwordResetExpires u with
      | Some h, Some expires => String.eqb h hashed && (after <? expires)
      | _, _ => false
      end
  end.

(** [User.findOne(filter)]: the first document that matches, or [null].
    The filter is compared as it is given: the setters of the schema are
    applied to a document, not to a filter here, so an email is looked up
    in the spelling of the request. *)
Definition findOne (f : Filter) : Action (option Doc) :=
  fun w => (Return (option_map loaded (find (matches f) (users w))), w).

(** [User.findById(id)]. *)
Definition findById (i : Z) : Action (option Doc) :=
  fun w =>
    (Return (option_map loaded (find (fun v => _id v =? i) (users w))), w).

(** Modelled from the spec: [sendEmail(options)] of [utils/email], of
    which the repository holds the call only, by the email delivery
    contract: it either succeeds or fails with a delivery error. *)
Definition sendEmail (m : Email) : Action unit :=
  fun w =>
    if delivers env m
    then (Return tt, mkWorld (users w) (m :: outbox w) (nextId w))
    else (Raise DeliveryError, w).

End Store.

(** ** Requests, responses and what a handler does with them *)

Module Req.

(** [req.body], with the members the controller reads. *)
Record Body : Type := mkBody {
  name : option string;
  email : option string;
  password : option string;
  passwordConfirm : option string;
  passwordCurrent : option string;
  passwordChangedAt : option Z;
  role : option string
}.

(** The parts of [req] the controller reads: the body, [req.params.token],
    [req.headers.authorization], [req.protocol], [req.get("host")] and
    [req.user], which [protect] assigns. *)
Record Request : Type := mkRequest {
  body : Body;
  token : string;
  authorization : option string;
  protocol : string;
  host : option string;
  user : option Doc
}.

End Req.

(** A cookie of the response: [res.cookie(name, value, options)]. *)
Record Cookie : Type := mkCookie {
  cookieName : string;
  cookieValue : string;
  expires : Z;
  httpOnly : bool;
  secure : bool
}.

(** The two JSON bodies the controller sends: the session envelope, whose
    [data.user] is the serialized document, and a plain message. *)
Inductive ResBody : Type :=
  | SessionBody (status : string) (token : string)
                (user : list (string * JValue))
  | MessageBody (status : string) (message : string).

Record Response : Type := mkResponse {
  statusCode : Z;
  cookies : list Cookie;
  json : ResBody
}.

(** How a handler ends: it sends a response, calls [next()] (with the
    [req.user] it leaves), or calls [next] with an error and perhaps a
    second argument. *)
Inductive Outcome : Type :=
  | Sent (r : Response)
  | Next (reqUser : option Doc)
  | NextError (e : Error) (second : option Z).

Definition Handler : Type := Req.Request -> World -> Outcome * World.

(** Modelled from the spec: [catchAsync(fn)] of [utils/catchAsync], of
    which the repository holds the calls only: every operation surfaces
    its errors to the one error boundary, so a rejection of [fn] is
    handed to [next]. *)
Definition catchAsync (fn : Req.Request -> Action Outcome) : Handler :=
  fun req w =>
    match fn req w with
    | (Return out, w') => (out, w')
    | (Raise e, w') => (NextError e None, w')
    end.

(** Modelled from the spec: the error boundary of the application, which
    the repository does not hold.  An error is rendered with its numeric
    status code as the HTTP status; an [AppError] that carries none
    defaults to 500; the errors of the libraries follow the taxonomy
    (validation 400, authentication 401, delivery 500, anything else 500).
    [next] reads its first argument only. *)
Definition errorStatus (e : Error) : Z :=
  match e with
  | AppError _ (Some code) => code
  | AppError _ None => 500
  | ValidationError _ => 400
  | DuplicateKeyError _ => 400
  | JsonWebTokenError => 401
  | TypeError _ => 500
  | DeliveryError => 500
  end.

(** Modelled from the spec: the HTTP status of what a handler did, if it
    answers: the status of the response it sent, or the status the error
    boundary gives the error it forwarded. *)
Definition httpStatus (out : Outcome) : option Z :=
  match out with
  | Sent r => Some (statusCode r)
  | Next _ => None
  | NextError e _ => Some (errorStatus e)
  end.

(** ** The controller *)

Section Controller.

Variable L : Libs.
Context {M : UserModel}.
Variable env : Env.

(** [signToken(id)]. *)
Definition signToken (i : Z) : string :=
  jwt_sign L i (JWT_SECRET (config env)) (JWT_EXPIRES_IN (config env))
           (now env).

(** [createAndSendToken(user, statusCode, res)]. *)
Definition createAndSendToken (user : Doc) (code : Z) : Outcome :=
  let token := signToken (_id (fields user)) in
  let cookieOptions :=
    mkCookie "jwt" token
             (now env
              + JWT_COOKIE_EXPIRES_IN (config env) * 24 * 60 * 60 * 1000)
             true
             (String.eqb (NODE_ENV (config env)) "production") in
  let user := assign PPassword (set_password None) user in
  Sent (mkResponse code [cookieOptions]
          (SessionBody "success" token (toJSON (fields user)))).

(** The object that [signup] builds from [req.body] for [User.create];
    the identifier is given by [create]. *)
Definition signupObject (b : Req.Body) : User :=
  mkUser 0 (Req.name b) (Req.email b) None (Req.password b)
         (Req.passwordConfirm b) (Req.passwordChangedAt b) (Req.role b)
         None None.

(** [exports.signup]. *)
Definition signup : Handler :=
  catchAsync (fun req =>
    newUser <- create L env (signupObject (Req.body req)) ;;
    ret (createAndSendToken newUser 201)).

(** [exports.login].  [theEmail] and [thePassword] are the [email] and
    [password] that the handler destructures from [req.body]. *)
Definition login : Handler :=
  catchAsync (fun req =>
    let theEmail := Req.email (Req.body req) in
    let thePassword := Req.password (Req.body req) in
    if negb (JS.truthy theEmail) || negb (JS.truthy thePassword) then
      ret (NextError (AppError "Please provide email and password!"
                               (Some 400)) None)
    else
      user <- findOne (ByEmail theEmail) ;;
      match user with
      | None =>
          ret (NextError (AppError "Incorrect email or password!"
                                   (Some 401)) None)
      | Some user =>
          if negb (correctPassword thePassword (password (fields user)))
          then ret (NextError (AppError "Incorrect email or password!"
                                        (Some 401)) None)
          else ret (createAndSendToken user 200)
      end).

(** The bearer token of [protect]: the second piece of the
    [Authorization] header when the header starts with [Bearer]. *)
Definition bearerToken (req : Req.Request) : option string :=
  match Req.authorization req with
  | Some header =>
      if JS.truthy (Some header) && JS.startsWith header "Bearer"
      then JS.index (JS.split JS.space header) 1
      else None
  | None => None
  end.

(** [jwt.verify(token, secret)], promisified: it rejects when the token
    does not verify. *)
Definition verify (token : string) : Action Payload :=
  match jwt_verify L token (JWT_SECRET (config env)) (now env) with
  | Some decoded => ret decoded
  | None => raise JsonWebTokenError
  end.

(** [exports.protect]. *)
Definition protect : Handler :=
  catchAsync (fun req =>
    let token := bearerToken req in
    match token with
    | Some token =>
        if negb (JS.truthy (Some token)) then
          ret (NextError
                 (AppError
                    "You are not logged in!, please login to get access."
                    (Some 401)) None)
        else
          decoded <- verify token ;;
          currentUser <- findById (id decoded) ;;
          match currentUser with
          | None =>
              ret (NextError
                     (AppError
                        "The user belonging to this token does no longer exsist."
                        (Some 401)) None)
          | Some currentUser =>
              if passwordChangedAfter (fields currentUser) (iat decoded)
              then ret (NextError
                          (AppError
                             "The user recently changed their password! Please login again."
                             (Some 401)) None)
              else ret (Next (Some currentUser))
          end
    | None =>
        ret (NextError
               (AppError
                  "You are not logged in!, please login to get access."
                  (Some 401)) None)
    end).

(** [exports.restrictTo(...roles)].  The middleware is not wrapped in
    [catchAsync]: reading [req.user.role] of a request that [protect] did
    not pass throws, and the framework hands the error on. *)
Definition restrictTo (roles : list string) : Handler :=
  fun req w =>
    match Req.user req with
    | None =>
        (NextError (TypeError "Cannot read property 'role' of undefined")
                   None, w)
    | Some user =>
        match role (fields user) with
        | Some r =>
            if existsb (String.eqb r) roles then (Next (Some user), w)
            else (NextError
                    (AppError
                       "You do not have permission to perform this action"
                       (Some 403)) None, w)
        | None =>
            (NextError
               (AppError "You do not have permission to perform this action"
                         (Some 403)) None, w)
        end
    end.

(** The mail of [forgotPassword]. *)
Definition resetURL (req : Req.Request) (resetToken : string) : string :=
  Req.protocol req ++ "//" ++ JS.interpolate (Req.host req)
  ++ "/api/v1/users/resetPassword/" ++ resetToken.

Definition resetMessage (url : string) : string :=
  "Forgot your password submit a PATCH request  with your new password and password confirm"
  ++ JS.newline ++ "   to " ++ url ++ "." ++ JS.newline
  ++ " If you didn't forget your password, Please ignore this email. ".

(** [exports.forgotPassword]. *)
Definition forgotPassword : Handler :=
  catchAsync (fun req =>
    user <- findOne (ByEmail (Req.email (Req.body req))) ;;
    match user with
    | None =>
        ret (NextError (AppError "There is no user with that email" None)
                       (Some 404))
    | Some user =>
        let (resetToken, user) :=
          createPasswordResetToken (randomBytes env) (now env) user in
        user <- save L env false user ;;
        let message := resetMessage (resetURL req resetToken) in
        tryCatch
          (sendEmail env
             (mkEmail (email (fields user))
                      "Your password resetToken (valid for 10 minutes)"
                      message) ;;;
           ret (Sent (mkResponse 200 []
                        (MessageBody "success" "Token sent to email!"))))
          (fun err =>
             let user :=
               assign PPasswordResetToken (set_passwordResetToken None)
                      user in
             let user :=
               assign PPasswordResetExpires (set_passwordResetExpires None)
                      user in
             save L env false user ;;;
             ret (NextError
                    (AppError
                       "There was an error sending the email. Try again later "
                       None)
                    (Some 500)))
    end).

(** [exports.resetPassword]. *)
Definition resetPassword : Handler :=
  catchAsync (fun req =>
    let hashedToken := sha256hex L (Req.token req) in
    user <- findOne (ByResetToken hashedToken (now env)) ;;
    match user with
    | None =>
        ret (NextError (AppError "token is invalid or has expired" None)
                       (Some 400))
    | Some user =>
        let user :=
          assign PPassword (set_password (Req.password (Req.body req)))
                 user in
        let user :=
          assign PPasswordConfirm
                 (set_passwordConfirm (Req.passwordConfirm (Req.body req)))
                 user in
        let user :=
          assign PPasswordResetToken (set_passwordResetToken None) user in
        let user :=
          assign PPasswordResetExpires (set_passwordResetExpires None)
                 user in
        user <- save L env true user ;;
        ret (createAndSendToken user 200)
    end).

(** [exports.updatePassword].  [req.user.id] of a request without
    [req.user], and [user.correctPassword] of a [null] user, throw. *)
Definition updatePassword : Handler :=
  catchAsync (fun req =>
    match Req.user req with
    | None => raise (TypeError "Cannot read property 'id' of undefined")
    | Some reqUser =>
        user <- findById (_id (fields reqUser)) ;;
        match user with
        | None =>
            raise (TypeError
                     "Cannot read property 'correctPassword' of null")
        | Some user =>
            if negb (correctPassword
                       (Req.passwordCurrent (Req.body req))
                       (password (fields user)))
            then ret (NextError (AppError "Your current password is wrong"
                                          None)
                                (Some 401))
            else
              let user :=
                assign PPassword
                       (set_password (Req.password (Req.body req))) user in
              let user :=
                assign PPasswordConfirm
                       (set_passwordConfirm
                          (Req.passwordConfirm (Req.body req)))
                       user in
              user <- save L env true user ;;
              ret (createAndSendToken user 200)
        end
    end).

(** The token a sent session carries; the documents that [resetPassword]
    and [updatePassword] save for a stored user; the plain token and
    pending document of a reset request for a stored user, with the mail
    that [forgotPassword] sends for it. *)
Definition issuedToken (out : Outcome) : option string :=
  match out with
  | Sent r =>
      match json r with
      | SessionBody _ token _ => Some token
      | MessageBody _ _ => None
      end
  | _ => None
  end.

Definition resetDocument (req : Req.Request) (u : User) : Doc :=
  assign PPasswordResetExpires (set_passwordResetExpires None)
    (assign PPasswordResetToken (set_passwordResetToken None)
       (assign PPasswordConfirm
          (set_passwordConfirm (Req.passwordConfirm (Req.body req)))
          (assign PPassword (set_password (Req.password (Req.body req)))
                  (loaded u)))).

Definition updateDocument (req : Req.Request) (u : User) : Doc :=
  assign PPasswordConfirm
    (set_passwordConfirm (Req.passwordConfirm (Req.body req)))
    (assign PPassword (set_password (Req.password (Req.body req)))
            (loaded u)).

Definition pendingReset (u : User) : string * Doc :=
  createPasswordResetToken (randomBytes env) (now env) (loaded u).

Definition resetMail (req : Req.Request) (u : User) : Email :=
  mkEmail (email (preSave (now env) (snd (pendingReset u))))
          "Your password resetToken (valid for 10 minutes)"
          (resetMessage (resetURL req (fst (pendingReset u)))).

End Controller.

(** The four endpoints that answer with a session. *)
Inductive Endpoint : Type :=
  | Signup | Login | ResetPassword | UpdatePassword.

Definition endpoint (L : Libs) {M : UserModel} (env : Env) (e : Endpoint)
    : Handler :=
  match e with
  | Signup => signup L env
  | Login => login L env
  | ResetPassword => resetPassword L env
  | UpdatePassword => updatePassword L env
  end.

(** What the handlers rely on of a user model, whatever it hashes or
    stamps: the save middleware leaves the identifier, the email and the
    two reset paths as it finds them, and [createPasswordResetToken] leaves the
    identifier, does not write [email] and does not make the document a
    new one. *)
Record Lawful (M : UserModel) : Prop := mkLawful {
  preSave_id :
    forall clock d, _id (preSave clock d) = _id (fields d);
  preSave_email :
    forall clock d, email (preSave clock d) = email (fields d);
  preSave_resetToken :
    forall clock d,
      passwordResetToken (preSave clock d) = passwordResetToken (fields d);
  preSave_resetExpires :
    forall clock d,
      passwordResetExpires (preSave clock d)
      = passwordResetExpires (fields d);
  reset_id :
    forall random clock d,
      _id (fields (snd (createPasswordResetToken random clock d)))
      = _id (fields d);
  reset_email :
    forall random clock d,
      isModified PEmail (snd (createPasswordResetToken random clock d))
      = isModified PEmail d;
  reset_isNew :
    forall random clock d,
      isNew (snd (createPasswordResetToken random clock d)) = isNew d
}.

(** The save middleware stores the hash of a password that was assigned:
    the contract of the middleware towards a hash function [hash]. *)
Definition HashesPassword (M : UserModel) (hash : string -> string)
    : Prop :=
  forall clock d p,
    isModified PPassword d = true ->
    password (fields d) = Some p ->
    password (preSave clock d) = Some (hash p).

(** The user schema of the repository ([src/unnamed/part_000]) declares
    no [pre('save')] middleware: with the schema as that file has it, a
    save writes the values of the document as they are. *)
Definition NoMiddleware (M : UserModel) : Prop :=
  forall clock d, preSave clock d = fields d.

(** The user model with the save middleware of the schema file, which is
    none; the methods that the controller calls are those of [M]. *)
Definition withoutMiddleware (M : UserModel) : UserModel :=
  mkUserModel (@correctPassword M) (@passwordChangedAfter M)
              (@createPasswordResetToken M) (fun _ d => fields d).

(** The contract of the token codec ([jsonwebtoken]) under the
    configuration [c]: a token that [jwt.sign] made at the time [issued]
    for an identifier verifies under the same secret at the time [clock],
    as long as its lifetime [JWT_EXPIRES_IN] has not run out
    ([unexpired issued clock]), to that identifier and to the second of
    [issued] -- [iat] is [Math.floor(Date.now() / 1000)].  A token is not
    empty and holds no space. *)
Record Codec (L : Libs) (c : Config) (unexpired : Z -> Z -> Prop)
    : Prop := mkCodec {
  verifies :
    forall i issued clock,
      unexpired issued clock ->
      jwt_verify L (jwt_sign L i (JWT_SECRET c) (JWT_EXPIRES_IN c) issued)
                 (JWT_SECRET c) clock
      = Some (mkPayload i (issued / 1000));
  compact :
    forall i issued,
      jwt_sign L i (JWT_SECRET c) (JWT_EXPIRES_IN c) issued <> ""
      /\ JS.lacks JS.space
           (jwt_sign L i (JWT_SECRET c) (JWT_EXPIRES_IN c) issued) = true
}.

(** ** The user model of the specification *)

Section SpecModel.

Variable L : Libs.

(** The one-way password hash and its comparison, the primitives the
    specification leaves to a library. *)
Variable hash : string -> string.
Variable compare : string -> string -> bool.

(** Modelled from the spec: the hash comparison of login, which fails when
    the lookup gave no password hash or the request no password. *)
Definition spec_correctPassword (candidate stored : option string) : bool :=
  match candidate, stored with
  | Some c, Some h => compare c h
  | _, _ => false
  end.

(** Modelled from the spec: a session is stale when
    [identity.passwordChangedAt > token.issuedAt]; an identity whose
    password never changed has no [passwordChangedAt].  The two instants
    are compared on the scale of the clock: [passwordChangedAt] is a date,
    in milliseconds, and the [iat] that [protect] hands over is in
    seconds. *)
Definition spec_passwordChangedAfter (u : User) (iat : Z) : bool :=
  match passwordChangedAt u with
  | Some changedAt => iat * 1000 <? changedAt
  | None => false
  end.

(** Modelled from the spec: the fixed window of a reset token, ten
    minutes. *)
Definition resetWindow : Z := 10 * 60 * 1000.

(** Modelled from the spec: a reset request draws a random token, stores
    only its hash and an expiry timestamp on the identity, and hands out
    the plain token. *)
Definition spec_createPasswordResetToken (random : string) (clock : Z)
    (d : Doc) : string * Doc :=
  let d := assign PPasswordResetToken
                  (set_passwordResetToken (Some (sha256hex L random))) d in
  let d := assign PPasswordResetExpires
                  (set_passwordResetExpires (Some (clock + resetWindow)))
                  d in
  (random, d).

(** Modelled from the spec: an identity is persisted with a hashed
    password and without the confirmation, which is no field of an
    identity; a password change or reset of an existing identity also
    stamps [passwordChangedAt]. *)
Definition spec_preSave (clock : Z) (d : Doc) : User :=
  let u := set_passwordConfirm None (fields d) in
  if isModified PPassword d then
    let u := set_password (option_map hash (password u)) u in
    if isNew d then u else set_passwordChangedAt (Some clock) u
  else u.

(** Modelled from the spec: the user model, assembled from the four
    definitions above. *)
#[local] Instance specModel : UserModel :=
  mkUserModel spec_correctPassword spec_passwordChangedAfter
              spec_createPasswordResetToken spec_preSave.

End SpecModel.

(** ** The whole controller, and the collection it should keep *)

(** Every handler that the controller exports. *)
Inductive Route : Type :=
  | RSignup
  | RLogin
  | RProtect
  | RRestrictTo (roles : list string)
  | RForgotPassword
  | RResetPassword
  | RUpdatePassword.

Definition route (L : Libs) {M : UserModel} (env : Env) (r : Route)
    : Handler :=
  match r with
  | RSignup => signup L env
  | RLogin => login L env
  | RProtect => protect L env
  | RRestrictTo roles => restrictTo roles
  | RForgotPassword => forgotPassword L env
  | RResetPassword => resetPassword L env
  | RUpdatePassword => updatePassword L env
  end.

(** Whether a route is the one that signs a user up. *)
Definition signsUp (r : Route) : bool :=
  match r with
  | RSignup => true
  | _ => false
  end.

(** The request as the next middleware finds it after
    [req.user = currentUser]. *)
Definition withUser (u : option Doc) (req : Req.Request) : Req.Request :=
  Req.mkRequest (Req.body req) (Req.token req) (Req.authorization req)
                (Req.protocol req) (Req.host req) u.

(** [protect] and then [restrictTo(...roles)] on one request: the second
    middleware runs when the first calls [next()], on the request the
    first left; an error or a response of the first ends the chain. *)
Definition protectThenRestrictTo (L : Libs) {M : UserModel} (env : Env)
    (roles : list string) : Handler :=
  fun req w =>
    match protect L env req w with
    | (Next currentUser, w') =>
        restrictTo roles (withUser currentUser req) w'
    | (out, w') => (out, w')
    end.

(** A collection as the indexes of the store keep it: no two documents
    share an identifier or an email, and every identifier was given out
    already. *)
Record Consistent (w : World) : Prop := mkConsistent {
  distinct_ids : NoDup (map _id (users w));
  distinct_emails : NoDup (map email (users w));
  ids_given : forall i, In i (map _id (users w)) -> i < nextId w
}.

(** Two worlds with the same keys: the identifiers and the emails of the
    collection, in its order, and the identifier counter. *)
Definition sameKeys (w w' : World) : Prop :=
  map _id (users w') = map _id (users w)
  /\ map email (users w') = map email (users w)
  /\ nextId w' = nextId w.

(** Further contracts of a user model, each the hypothesis of the
    properties that name it: [createPasswordResetToken] leaves the email;
    it stores the SHA-256 digest of the token it returns; the hash
    comparison accepts the password that the save middleware stored. *)
Definition ResetKeepsEmail (M : UserModel) : Prop :=
  forall random clock d,
    email (fields (snd (createPasswordResetToken random clock d)))
    = email (fields d).

Definition StoresDigest (L : Libs) (M : UserModel) : Prop :=
  forall random clock d,
    passwordResetToken
      (fields (snd (createPasswordResetToken random clock d)))
    = Some (sha256hex L (fst (createPasswordResetToken random clock d))).

Definition AcceptsStored (M : UserModel) : Prop :=
  forall clock d p,
    isModified PPassword d = true ->
    password (fields d) = Some p ->
    correctPassword (Some p) (password (preSave clock d)) = true.

(** ** A small installation to run the handlers on

    Executable stand-ins for the libraries: a token is the identifier and
    the second of the clock in decimal, followed by the secret; digests
    and hashes tag their argument. *)

Module Demo.

Definition showZ (z : Z) : string := NilZero.string_of_int (Z.to_int z).

Definition readZ (s : string) : option Z :=
  option_map Z.of_int (NilZero.int_of_string s).

Definition lowerChar (c : ascii) : ascii :=
  let n := nat_of_ascii c in
  if ((65 <=? n) && (n <=? 90))%nat then ascii_of_nat (n + 32) else c.

Fixpoint lower (s : string) : string :=
  match s with
  | EmptyString => EmptyString
  | String c rest => String (lowerChar c) (lower rest)
  end.

Definition hasAt (s : string) : bool := negb (JS.lacks "@"%char s).

Definition sign (i : Z) (secret expiresIn : string) (clock : Z) : string :=
  showZ i ++ "." ++ showZ (clock / 1000) ++ "." ++ secret.

Definition verify (token secret : string) (clock : Z) : option Payload :=
  match JS.split "."%char token with
  | [i; t; s] =>
      if String.eqb s secret then
        match readZ i, readZ t with
        | Some i, Some t => Some (mkPayload i t)
        | _, _ => None
        end
      else None
  | _ => None
  end.

Definition digest (s : string) : string := "sha256:" ++ s.

Definition libs : Libs := mkLibs lower hasAt sign verify digest.

Definition hash (s : string) : string := "bcrypt:" ++ s.

Definition compare (candidate hashed : string) : bool :=
  String.eqb hashed (hash candidate).

Definition model : UserModel := specModel libs hash compare.

Definition cfg : Config := mkConfig "secret" "90d" 90 "development".

(** The clock reads [clock]; the mail transport is up or down. *)
Definition envAt (clock : Z) (up : bool) : Env :=
  mkEnv clock "r4nd0m" (fun _ => up) cfg.

Definition emptyWorld : World := mkWorld [] [] 1.

Definition bodyOf (name email password passwordConfirm : option string)
    : Req.Body :=
  Req.mkBody name email password passwordConfirm None None None.

Definition request (b : Req.Body) : Req.Request :=
  Req.mkRequest b "" None "http" (Some "localhost") None.

Definition amyBody : Req.Body :=
  bodyOf (Some "Amy") (Some "amy@x.com") (Some "password1")
         (Some "password1").

(** Amy signs up at time 1000. *)
Definition afterSignup : Outcome * World :=
  signup libs (M := model) (envAt 1000 true) (request amyBody) emptyWorld.

Definition amyWorld : World := snd afterSignup.

(** The document of Amy in the collection. *)
Definition amy : User :=
  mkUser 1 (Some "Amy") (Some "amy@x.com") None (Some "bcrypt:password1")
         None None None None None.

Definition loginRequest (email password : option string) : Req.Request :=
  request (bodyOf None email password None).

Definition bearerRequest (token : string) : Req.Request :=
  Req.mkRequest (bodyOf None None None None) ""
                (Some ("Bearer " ++ token)) "http" (Some "localhost") None.

(** What Amy's signup answers. *)
Definition amySession : Response :=
  mkResponse 201 [mkCookie "jwt" "1.1.secret" 7776001000 true false]
    (SessionBody "success" "1.1.secret"
       [("_id", JNumber 1); ("name", JString "Amy");
        ("email", JString "amy@x.com")]).

(** A signup whose confirmation differs from the password, and one that
    asks for the role of an administrator and a password change date. *)
Definition mismatchBody : Req.Body :=
  bodyOf (Some "Amy") (Some "amy@x.com") (Some "password1")
         (Some "password2").

Definition adminBody : Req.Body :=
  Req.mkBody (Some "Eve") (Some "eve@x.com") (Some "password1")
             (Some "password1") None (Some 0) (Some "admin").

(** The response an outcome sent, if it sent one. *)
Definition sent (out : Outcome) : Response :=
  match out with
  | Sent r => r
  | _ => mkResponse 0 [] (MessageBody "" "")
  end.

(** Amy asks for a reset at time 3000, and the mail goes out or not. *)
Definition forgotRequest : Req.Request :=
  loginRequest (Some "amy@x.com") None.

Definition afterForgot (up : bool) : Outcome * World :=
  forgotPassword libs (M := model) (envAt 3000 up) forgotRequest amyWorld.

(** Amy's document while the reset is pending. *)
Definition amyPending : User :=
  mkUser 1 (Some "Amy") (Some "amy@x.com") None (Some "bcrypt:password1")
         None None None (Some "sha256:r4nd0m") (Some 603000).

(** She presents the token at time 4000 with a new password. *)
Definition resetRequest : Req.Request :=
  Req.mkRequest (bodyOf None None (Some "newpassword")
                        (Some "newpassword"))
                "r4nd0m" None "http" (Some "localhost") None.

Definition afterReset : Outcome * World :=
  resetPassword libs (M := model) (envAt 4000 true) resetRequest
                (snd (afterForgot true)).

Definition amyReset : User :=
  mkUser 1 (Some "Amy") (Some "amy@x.com") None
         (Some "bcrypt:newpassword") None (Some 4000) None None None.

(** Amy, authenticated, changes her password at time 6000. *)
Definition updateRequest : Req.Request :=
  Req.mkRequest
    (Req.mkBody None None (Some "password2") (Some "password2")
                (Some "password1") None None)
    "" None "http" (Some "localhost") (Some (loaded amy)).

Definition afterUpdate : Outcome * World :=
  updatePassword libs (M := model) (envAt 6000 true) updateRequest
                 amyWorld.

Definition amyUpdated : User :=
  mkUser 1 (Some "Amy") (Some "amy@x.com") None (Some "bcrypt:password2")
         None (Some 6000) None None None.

(** A signup with a password of five characters. *)
Definition shortBody : Req.Body :=
  bodyOf (Some "Amy") (Some "amy@x.com") (Some "short") (Some "short").

(** Amy, authenticated, on a route for guides and administrators, and
    with a wrong current password on [updatePassword]. *)
Definition guardedRequest : Req.Request :=
  Req.mkRequest (bodyOf None None None None) "" None "http"
                (Some "localhost") (Some (loaded amy)).

Definition wrongCurrentRequest : Req.Request :=
  Req.mkRequest
    (Req.mkBody None None (Some "password2") (Some "password2")
                (Some "guess") None None)
    "" None "http" (Some "localhost") (Some (loaded amy)).

(** A request with any [Authorization] header; Amy's login at time 2000;
    a signup that spells its email in capitals; Amy's reset token with a
    password of five characters; a request in the name of a user that
    the collection does not hold. *)
Definition headerRequest (header : string) : Req.Request :=
  Req.mkRequest (bodyOf None None None None) "" (Some header) "http"
                (Some "localhost") None.

Definition afterLogin : Outcome * World :=
  login libs (M := model) (envAt 2000 true)
        (loginRequest (Some "amy@x.com") (Some "password1")) amyWorld.

Definition capitalsBody : Req.Body :=
  bodyOf (Some "Amy") (Some "Amy@X.COM") (Some "password1")
         (Some "password1").

Definition afterCapitalsSignup : Outcome * World :=
  signup libs (M := model) (envAt 1000 true) (request capitalsBody)
         emptyWorld.

Definition shortResetRequest : Req.Request :=
  Req.mkRequest (bodyOf None None (Some "short") (Some "short"))
                "r4nd0m" None "http" (Some "localhost") None.

Definition ghost : User :=
  mkUser 9 (Some "Bob") (Some "bob@x.com") None (Some "bcrypt:password1")
         None None None None None.

Definition ghostRequest : Req.Request :=
  Req.mkRequest
    (Req.mkBody None None (Some "password2") (Some "password2")
                (Some "password1") None None)
    "" None "http" (Some "localhost") (Some (loaded ghost)).

(** The user model with the schema of the repository as it is, without
    middleware; what the signups of Amy and of Eve store with it. *)
Definition plain : UserModel := withoutMiddleware model.

Definition afterPlainSignup : Outcome * World :=
  signup libs (M := plain) (envAt 1000 true) (request amyBody) emptyWorld.

Definition plainAmy : User :=
  mkUser 1 (Some "Amy") (Some "amy@x.com") None (Some "password1")
         (Some "password1") None None None None.

Definition afterPlainAdminSignup : Outcome * World :=
  signup libs (M := plain) (envAt 1000 true) (request adminBody)
         emptyWorld.

Definition plainEve : User :=
  mkUser 1 (Some "Eve") (Some "eve@x.com") None (Some "password1")
         (Some "password1") None None None None.

(** Amy changes her password at time 6500, within a second. *)
Definition afterLateUpdate : Outcome * World :=
  updatePassword libs (M := model) (envAt 6500 true) updateRequest
                 amyWorld.

Definition amyLate : User :=
  mkUser 1 (Some "Amy") (Some "amy@x.com") None (Some "bcrypt:password2")
         None (Some 6500) None None None.

(** A reset with a token that nobody was sent. *)
Definition strayRequest : Req.Request :=
  Req.mkRequest (bodyOf None None (Some "newpassword")
                        (Some "newpassword"))
                "guess" None "http" (Some "localhost") None.

End Demo.

(** * Properties *)

(** ** Strings and the collection *)

Lemma split_lacks (sep : ascii) (s : string) :
  JS.lacks sep s = true -> JS.split sep s = [s].
Proof.
  induction s as [|c rest IH]; simpl; intros H.
  - reflexivity.
  - apply andb_true_iff in H as [Hc Hrest].
    apply negb_true_iff in Hc. rewrite Hc, (IH Hrest). reflexivity.
Qed.

Lemma split_bearer (token : string) :
  JS.lacks JS.space token = true ->
  JS.split JS.space ("Bearer " ++ token) = ["Bearer"; token].
Proof.
  intros H. cbn. rewrite (split_lacks _ _ H). reflexivity.
Qed.

Lemma split_piece (sep : ascii) (a b : string) :
  JS.lacks sep a = true ->
  JS.split sep (a ++ String sep b) = a :: JS.split sep b.
Proof.
  induction a as [|c a IH]; simpl; intros H.
  - rewrite Ascii.eqb_refl. reflexivity.
  - apply andb_true_iff in H as [Hc Ha].
    apply negb_true_iff in Hc. rewrite Hc, (IH Ha). reflexivity.
Qed.

Lemma append_empty (s : string) : s ++ "" = s.
Proof.
  induction s as [|c s IH]; simpl; [reflexivity | now rewrite IH].
Qed.

Lemma append_associative (a b c : string) : a ++ b ++ c = (a ++ b) ++ c.
Proof.
  induction a as [|d a IH]; simpl; [reflexivity | now rewrite IH].
Qed.

Lemma lacks_append (c : ascii) (a b : string) :
  JS.lacks c a = true -> JS.lacks c b = true ->
  JS.lacks c (a ++ b) = true.
Proof.
  induction a as [|d a IH]; simpl; intros Ha Hb; [exact Hb|].
  apply andb_true_iff in Ha as [Hd Ha]. rewrite Hd. simpl.
  exact (IH Ha Hb).
Qed.

Lemma startsWith_append (p s : string) : JS.startsWith (p ++ s) p = true.
Proof.
  unfold JS.startsWith. induction p as [|c p IH]; simpl.
  - destruct s; reflexivity.
  - destruct (ascii_dec c c) as [_|Hc]; [exact IH | congruence].
Qed.

Lemma truthy_nonempty (s : string) : s <> "" -> JS.truthy (Some s) = true.
Proof.
  intros H. unfold JS.truthy. apply negb_true_iff.
  destruct (String.eqb_spec s ""); congruence.
Qed.

Lemma truthy_some (v : option string) :
  JS.truthy v = true -> exists s, v = Some s /\ s <> "".
Proof.
  destruct v as [s|]; simpl; [|discriminate].
  intros H. exists s. split; [reflexivity|].
  destruct (String.eqb_spec s ""); [discriminate | assumption].
Qed.

Lemma find_id (i : Z) (us : list User) (u : User) :
  find (fun v => _id v =? i) us = Some u -> In u us /\ _id u = i.
Proof.
  intros H. apply find_some in H as [Hin Hid].
  split; [exact Hin | now apply Z.eqb_eq].
Qed.

Lemma find_id_exists (u : User) (us : list User) :
  In u us -> exists x, find (fun v => _id v =? _id u) us = Some x.
Proof.
  intros Hin.
  destruct (find (fun v => _id v =? _id u) us) as [x|] eqn:E; [eauto|].
  pose proof (find_none _ _ E u Hin) as H. simpl in H.
  rewrite Z.eqb_refl in H. discriminate.
Qed.

Lemma find_replace (i : Z) (u' : User) (us : list User) (u : User) :
  find (fun v => _id v =? i) us = Some u ->
  _id u' = i ->
  find (fun v => _id v =? i) (replace i u' us) = Some u'.
Proof.
  intros Hfind Hid. induction us as [|v us IH]; simpl in *.
  - discriminate.
  - destruct (_id v =? i) eqn:E.
    + simpl. rewrite Hid, Z.eqb_refl. reflexivity.
    + simpl. rewrite E. apply IH, Hfind.
Qed.

Lemma in_replace (i : Z) (u' : User) (us : list User) (v : User) :
  In v (replace i u' us) -> v = u' \/ (In v us /\ _id v <> i).
Proof.
  unfold replace. intros H. apply in_map_iff in H as [x [Hx Hin]].
  destruct (_id x =? i) eqn:E.
  - left. congruence.
  - right. subst v. split; [exact Hin | now apply Z.eqb_neq].
Qed.

(** ** The schema *)

Lemma flat_map_nil (A B : Type) (f : A -> list B) (l : list A) :
  flat_map f l = [] -> forall x, In x l -> f x = [].
Proof.
  induction l as [|a l IH]; simpl; intros H x Hin.
  - contradiction.
  - apply app_eq_nil in H as [Ha Hl].
    destruct Hin as [<-|Hin]; [exact Ha | exact (IH Hl x Hin)].
Qed.

Section SchemaFacts.

Variable L : Libs.

(** One failing path fails the document. *)
Lemma validateSync_fails (t : SchemaType) (u : User) (f : Failure) :
  In t (userSchema L) -> In f (validatePath t u) ->
  exists g gs, validateSync L u = g :: gs.
Proof.
  intros Ht Hf.
  assert (Hin : In f (validateSync L u)).
  { unfold validateSync. apply in_flat_map. exists t. now split. }
  destruct (validateSync L u) as [|g gs]; [contradiction | eauto].
Qed.

(** What the schema lets through: its validators look at each path on
    its own. *)
Lemma validateSync_nil (u : User) (n e p c : string) :
  name u = Some n -> n <> "" ->
  email u = Some e -> e <> "" -> isEmail L e = true ->
  password u = Some p -> (8 <= String.length p)%nat ->
  passwordConfirm u = Some c -> c <> "" ->
  validateSync L u = [].
Proof.
  intros Hn Hn' He He' Hmail Hp Hlen Hc Hc'.
  assert (Hp' : p <> "") by (intros ->; simpl in Hlen; lia).
  unfold validateSync, userSchema, validatePath, checkValue,
    checkMinlength, missing, namePath, emailPath, photoPath,
    passwordPath, passwordConfirmPath.
  simpl. rewrite Hn, He, Hp, Hc, !truthy_nonempty by assumption.
  simpl. rewrite Hmail.
  destruct (Nat.ltb_spec (String.length p) 8); [lia|].
  destruct (photo u); reflexivity.
Qed.

Lemma validateSync_short_password (u : User) (p : string) :
  password u = Some p -> (String.length p < 8)%nat ->
  exists f fs, validateSync L u = f :: fs.
Proof.
  intros Hp Hlen.
  assert (H : exists f, In f (validatePath passwordPath u)).
  { unfold validatePath, checkValue, checkMinlength. simpl. rewrite Hp.
    destruct (missing (Some p)); [eexists; now left|].
    destruct (Nat.ltb_spec (String.length p) 8); [|lia].
    eexists. now left. }
  destruct H as [f Hf].
  apply (validateSync_fails passwordPath u f); [|exact Hf].
  unfold userSchema. simpl. tauto.
Qed.

Lemma validateSync_malformed_email (u : User) (e : string) :
  email u = Some e -> isEmail L e = false ->
  exists f fs, validateSync L u = f :: fs.
Proof.
  intros He Hmail.
  assert (H : exists f, In f (validatePath (emailPath L) u)).
  { unfold validatePath, checkValue. simpl. rewrite He, Hmail.
    destruct (missing (Some e)); eexists; now left. }
  destruct H as [f Hf].
  apply (validateSync_fails (emailPath L) u f); [|exact Hf].
  unfold userSchema. simpl. tauto.
Qed.

(** A document that passes has a password of eight characters or
    more. *)
Lemma validateSync_nil_password (u : User) :
  validateSync L u = [] ->
  exists p, password u = Some p /\ p <> ""
            /\ (8 <= String.length p)%nat.
Proof.
  intros H.
  pose proof (flat_map_nil _ _ _ _ H passwordPath) as Hpw.
  assert (Hin : In passwordPath (userSchema L))
    by (unfold userSchema; simpl; tauto).
  specialize (Hpw Hin). clear Hin H.
  unfold validatePath, checkValue, checkMinlength, missing, JS.truthy
    in Hpw.
  simpl in Hpw.
  destruct (password u) as [p|]; [|discriminate].
  destruct (String.eqb_spec p ""); simpl in Hpw; [discriminate|].
  destruct (Nat.ltb_spec (String.length p) 8); [discriminate|].
  exists p. auto.
Qed.

(** The unique index of the schema is the one on [email]. *)
Lemma duplicateKey_new (u : User) (us : list User) :
  duplicateKey L None (fun _ => true) u us
  = if emailTaken (email u) us then Some PEmail else None.
Proof.
  unfold duplicateKey, userSchema, taken, emailTaken. simpl.
  destruct (existsb (fun v => sameValue (email v) (email u)) us);
    reflexivity.
Qed.

Lemma duplicateKey_unwritten (i : Z) (d : Doc) (u : User)
    (us : list User) :
  isModified PEmail d = false ->
  duplicateKey L (Some i) (fun p => isModified p d) u us = None.
Proof.
  intros H. unfold duplicateKey, userSchema. simpl. rewrite H.
  reflexivity.
Qed.

(** The new document of [User.create]: the email is folded, the other
    declared paths are the given ones, and the paths that the schema does
    not declare are dropped. *)
Lemma newDocument_fields (i : Z) (obj : User) :
  fields (newDocument L i obj)
  = mkUser i (name obj) (option_map (toLowerCase L) (email obj))
           (photo obj) (password obj) (passwordConfirm obj)
           None None None None.
Proof. reflexivity. Qed.

End SchemaFacts.

Lemma givenPaths_password (obj : User) (p : string) :
  password obj = Some p ->
  existsb (Path_eqb PPassword) (givenPaths obj) = true.
Proof.
  intros Hp. unfold givenPaths. rewrite Hp.
  destruct (name obj), (email obj), (photo obj); reflexivity.
Qed.

(** ** The user model of the specification is a lawful one *)

Section SpecModelFacts.

Variable L : Libs.
Variable hash : string -> string.
Variable compare : string -> string -> bool.

Lemma spec_preSave_id (clock : Z) (d : Doc) :
  _id (spec_preSave hash clock d) = _id (fields d).
Proof.
  unfold spec_preSave.
  destruct (isModified PPassword d), (isNew d); reflexivity.
Qed.

Lemma spec_preSave_email (clock : Z) (d : Doc) :
  email (spec_preSave hash clock d) = email (fields d).
Proof.
  unfold spec_preSave.
  destruct (isModified PPassword d), (isNew d); reflexivity.
Qed.

Lemma spec_preSave_reset (clock : Z) (d : Doc) :
  passwordResetToken (spec_preSave hash clock d)
  = passwordResetToken (fields d)
  /\ passwordResetExpires (spec_preSave hash clock d)
     = passwordResetExpires (fields d).
Proof.
  unfold spec_preSave.
  destruct (isModified PPassword d), (isNew d); split; reflexivity.
Qed.

Lemma spec_preSave_password (clock : Z) (d : Doc) (p : string) :
  isModified PPassword d = true ->
  password (fields d) = Some p ->
  password (spec_preSave hash clock d) = Some (hash p).
Proof.
  intros Hmod Hp. unfold spec_preSave. rewrite Hmod.
  destruct (isNew d); simpl; rewrite Hp; reflexivity.
Qed.

Lemma spec_preSave_changedAt (clock : Z) (d : Doc) :
  isModified PPassword d = true -> isNew d = false ->
  passwordChangedAt (spec_preSave hash clock d) = Some clock.
Proof.
  intros Hmod Hnew. unfold spec_preSave. rewrite Hmod, Hnew.
  reflexivity.
Qed.

Lemma specModel_lawful : Lawful (specModel L hash compare).
Proof.
  constructor; intros; simpl.
  - apply spec_preSave_id.
  - apply spec_preSave_email.
  - apply spec_preSave_reset.
  - apply spec_preSave_reset.
  - reflexivity.
  - reflexivity.
  - reflexivity.
Qed.

Lemma specModel_hashes : HashesPassword (specModel L hash compare) hash.
Proof.
  intros clock d p Hmod Hp. simpl. now apply spec_preSave_password.
Qed.

End SpecModelFacts.

(** ** What leaves in a response *)

Lemma keys_member (A : Type) (key : string) (wrap : A -> JValue)
    (v : option A) (k : string) :
  In k (keys (member key wrap v)) -> k = key.
Proof.
  destruct v; simpl; intros H.
  - destruct H as [H|[]]. now symmetry.
  - contradiction.
Qed.

(** A document whose [password] is [undefined] serializes without a
    [password] member. *)
Lemma toJSON_hides_password (u : User) :
  hasKey "password" (toJSON (set_password None u)) = false.
Proof.
  unfold hasKey. apply not_true_is_false. intros H.
  apply existsb_exists in H as [k [Hin Heq]].
  apply String.eqb_eq in Heq. subst k.
  unfold toJSON, keys in Hin. rewrite !map_app in Hin.
  repeat (apply in_app_or in Hin; destruct Hin as [Hin|Hin]);
    try (apply keys_member in Hin; discriminate).
  - destruct Hin as [Hin|[]]. discriminate.
  - simpl in Hin. contradiction.
Qed.

(** ** Running the handlers *)

(** Take a handler's run apart, one test at a time, innermost first. *)
Ltac split_run H :=
  repeat match type of H with
         | context [match ?x with _ => _ end] =>
             lazymatch x with
             | context [match _ with _ => _ end] => fail
             | _ => destruct x eqn:?
             end
         end;
  try discriminate.

Section Runs.

Variable L : Libs.
Context {M : UserModel}.
Variable env : Env.

Lemma bearerToken_header (req : Req.Request) (token : string) :
  Req.authorization req = Some ("Bearer " ++ token) ->
  JS.lacks JS.space token = true ->
  bearerToken req = Some token.
Proof.
  intros Hauth Hlacks. unfold bearerToken. rewrite Hauth.
  replace (JS.truthy (Some ("Bearer " ++ token))) with true by reflexivity.
  replace (JS.startsWith ("Bearer " ++ token) "Bearer") with true
    by reflexivity.
  rewrite (split_bearer _ Hlacks). reflexivity.
Qed.

(** A request whose token verifies and names a stored user is decided by
    [passwordChangedAfter] alone. *)
Lemma protect_verified (req : Req.Request) (w : World) (token : string)
    (decoded : Payload) (u : User) :
  bearerToken req = Some token ->
  JS.truthy (Some token) = true ->
  jwt_verify L token (JWT_SECRET (config env)) (now env) = Some decoded ->
  find (fun v => _id v =? id decoded) (users w) = Some u ->
  protect L env req w =
  (if passwordChangedAfter u (iat decoded)
   then NextError
          (AppError
             "The user recently changed their password! Please login again."
             (Some 401)) None
   else Next (Some (loaded u)), w).
Proof.
  intros Htoken Htruthy Hverify Hfind.
  unfold protect, catchAsync. rewrite Htoken, Htruthy. simpl.
  unfold bind, verify. rewrite Hverify. unfold ret, findById. simpl.
  rewrite Hfind. simpl.
  destruct (passwordChangedAfter u (iat decoded)); reflexivity.
Qed.

Lemma createAndSendToken_sent (d : Doc) (code : Z) :
  createAndSendToken L env d code
  = Sent (mkResponse code
            [mkCookie "jwt" (signToken L env (_id (fields d)))
                      (now env
                       + JWT_COOKIE_EXPIRES_IN (config env)
                         * 24 * 60 * 60 * 1000)
                      true
                      (String.eqb (NODE_ENV (config env)) "production")]
            (SessionBody "success" (signToken L env (_id (fields d)))
                         (toJSON (set_password None (fields d))))).
Proof. reflexivity. Qed.

Lemma create_invalid (obj : User) (w : World) (f : Failure)
    (fs : list Failure) :
  validateSync L (fields (newDocument L (nextId w) obj)) = f :: fs ->
  create L env obj w
  = (Raise (ValidationError (f :: fs)),
     mkWorld (users w) (outbox w) (nextId w + 1)).
Proof.
  intros H. unfold create, save. cbv iota. rewrite H. reflexivity.
Qed.

Lemma create_valid (obj : User) (w : World) :
  validateSync L (fields (newDocument L (nextId w) obj)) = [] ->
  create L env obj w
  = let u := preSave (now env) (newDocument L (nextId w) obj) in
    if emailTaken (email u) (users w)
    then (Raise (DuplicateKeyError PEmail),
          mkWorld (users w) (outbox w) (nextId w + 1))
    else (Return (loaded u),
          mkWorld (users w ++ [u]) (outbox w) (nextId w + 1)).
Proof.
  intros H. unfold create, save. cbv iota. rewrite H. cbv zeta.
  change (isNew (newDocument L (nextId w) obj)) with true. cbv iota.
  rewrite duplicateKey_new. cbn [users outbox nextId].
  destruct (emailTaken
              (email (preSave (now env) (newDocument L (nextId w) obj)))
              (users w)); reflexivity.
Qed.

Lemma signup_run (req : Req.Request) (w : World) :
  signup L env req w
  = match create L env (signupObject (Req.body req)) w with
    | (Return newUser, w') => (createAndSendToken L env newUser 201, w')
    | (Raise e, w') => (NextError e None, w')
    end.
Proof.
  unfold signup, catchAsync, bind, ret.
  destruct (create L env (signupObject (Req.body req)) w) as [[d|e] w'];
    reflexivity.
Qed.

(** A signup that answers went through the validators and the unique
    index, and stored what the save middleware made of the new
    document. *)
Lemma signup_sent (req : Req.Request) (w w' : World) (r : Response) :
  signup L env req w = (Sent r, w') ->
  let d := newDocument L (nextId w) (signupObject (Req.body req)) in
  validateSync L (fields d) = []
  /\ emailTaken (email (preSave (now env) d)) (users w) = false
  /\ users w' = (users w ++ [preSave (now env) d])%list
  /\ Sent r = createAndSendToken L env (loaded (preSave (now env) d)) 201.
Proof.
  intros H d. rewrite signup_run in H.
  destruct (validateSync L (fields d)) as [|f fs] eqn:Hv.
  - rewrite (create_valid _ _ Hv) in H; cbv zeta in H; fold d in H.
    destruct (emailTaken (email (preSave (now env) d)) (users w)).
    + discriminate.
    + inversion H; subst. repeat split; reflexivity.
  - rewrite (create_invalid _ _ _ _ Hv) in H. discriminate.
Qed.

(** The save of a loaded document whose [email] was not written. *)
Lemma save_loaded (validateBeforeSave : bool) (d : Doc) (w : World) :
  isNew d = false -> isModified PEmail d = false ->
  save L env validateBeforeSave d w
  = match (if validateBeforeSave then validateSync L (fields d)
           else []) with
    | f :: fs => (Raise (ValidationError (f :: fs)), w)
    | [] =>
        (Return (loaded (preSave (now env) d)),
         mkWorld (replace (_id (fields d)) (preSave (now env) d)
                          (users w))
                 (outbox w) (nextId w))
    end.
Proof.
  intros Hnew Hmail. unfold save.
  destruct (if validateBeforeSave then validateSync L (fields d) else [])
    as [|f fs]; [|reflexivity].
  cbv zeta. rewrite Hnew, (duplicateKey_unwritten L _ d _ _ Hmail).
  reflexivity.
Qed.

(** The document of [resetPassword] when it is saved. *)
Lemma resetPassword_found (req : Req.Request) (w : World) (u : User) :
  find (matches (ByResetToken (sha256hex L (Req.token req)) (now env)))
       (users w) = Some u ->
  let d := resetDocument req u in
  resetPassword L env req w
  = match validateSync L (fields d) with
    | f :: fs => (NextError (ValidationError (f :: fs)) None, w)
    | [] =>
        (createAndSendToken L env (loaded (preSave (now env) d)) 200,
         mkWorld (replace (_id u) (preSave (now env) d) (users w))
                 (outbox w) (nextId w))
    end.
Proof.
  intros Hfind d.
  unfold resetPassword, catchAsync, bind, findOne. rewrite Hfind.
  cbn [option_map]. cbv beta iota zeta.
  match goal with
  | |- context [save L env true ?doc w] => change doc with d
  end.
  rewrite (save_loaded true d w eq_refl eq_refl). cbv iota.
  destruct (validateSync L (fields d)) as [|f fs]; reflexivity.
Qed.

(** An [updatePassword] that answers found the user of the request,
    matched the current password, passed the validators and stored what
    the save middleware made of the document. *)
Lemma updatePassword_sent (req : Req.Request) (w w' : World)
    (r : Response) :
  updatePassword L env req w = (Sent r, w') ->
  exists reqUser u,
    Req.user req = Some reqUser
    /\ find (fun v => _id v =? _id (fields reqUser)) (users w) = Some u
    /\ correctPassword (Req.passwordCurrent (Req.body req)) (password u)
       = true
    /\ let d := updateDocument req u in
       validateSync L (fields d) = []
       /\ users w' = replace (_id u) (preSave (now env) d) (users w)
       /\ Sent r
          = createAndSendToken L env (loaded (preSave (now env) d)) 200.
Proof.
  intros Hrun.
  unfold updatePassword, catchAsync, bind, findById, raise in Hrun.
  destruct (Req.user req) as [reqUser|]; [|discriminate].
  cbv beta iota in Hrun.
  destruct (find (fun v => _id v =? _id (fields reqUser)) (users w))
    as [u|] eqn:Hfind; [|discriminate].
  cbn [option_map] in Hrun. cbv beta iota in Hrun.
  destruct (correctPassword (Req.passwordCurrent (Req.body req))
                            (password (fields (loaded u)))) eqn:Hcorrect;
    [|discriminate].
  cbn [negb] in Hrun. cbv beta iota zeta in Hrun.
  change (password (fields (loaded u))) with (password u) in Hcorrect.
  set (d := updateDocument req u).
  match type of Hrun with
  | context [save L env true ?doc w] => change doc with d in Hrun
  end.
  rewrite (save_loaded true d w eq_refl eq_refl) in Hrun.
  cbv iota in Hrun.
  exists reqUser, u. split; [reflexivity|]. split; [exact Hfind|].
  split; [exact Hcorrect|]. cbv zeta. fold d.
  destruct (validateSync L (fields d)) as [|f fs]; [|discriminate].
  inversion Hrun. repeat split.
Qed.

Lemma createAndSendToken_hides (d : Doc) (code : Z) (r : Response) :
  createAndSendToken L env d code = Sent r ->
  exists status token user,
    json r = SessionBody status token user
    /\ hasKey "password" user = false.
Proof.
  rewrite createAndSendToken_sent. intros H. inversion H; subst. simpl.
  do 3 eexists. split; [reflexivity | apply toJSON_hides_password].
Qed.

(** Every response of the four session endpoints is the one that
    [createAndSendToken] builds. *)
Lemma endpoint_sent (e : Endpoint) (req : Req.Request) (w w' : World)
    (r : Response) :
  endpoint L env e req w = (Sent r, w') ->
  exists d code, createAndSendToken L env d code = Sent r.
Proof.
  destruct e; simpl; intros H.
  - rewrite signup_run in H. split_run H.
    inversion H; subst. do 2 eexists; reflexivity.
  - unfold login, catchAsync, bind, findOne, ret in H. split_run H.
    inversion H; subst. do 2 eexists; reflexivity.
  - unfold resetPassword, catchAsync, bind, findOne, ret in H.
    split_run H. inversion H; subst. do 2 eexists; reflexivity.
  - unfold updatePassword, catchAsync, bind, findById, ret, raise in H.
    split_run H. inversion H; subst. do 2 eexists; reflexivity.
Qed.

End Runs.

(** ** Tokens that the controller issued *)

Section Issued.

Variable L : Libs.
Context {M : UserModel}.
Variable c : Config.
Variable unexpired : Z -> Z -> Prop.
Hypothesis codec : Codec L c unexpired.

Lemma signToken_jwt (env0 : Env) (i : Z) :
  config env0 = c ->
  signToken L env0 i
  = jwt_sign L i (JWT_SECRET c) (JWT_EXPIRES_IN c) (now env0).
Proof. intros H. unfold signToken. rewrite H. reflexivity. Qed.

(** The token that [signToken] made at the time of [env0] for a stored
    user, presented as a bearer token before it expires: [protect] has
    the user's [passwordChangedAfter] decide, at the second of the
    issuance. *)
Lemma protect_issued (env0 env : Env) (req : Req.Request) (w : World)
    (u : User) :
  config env0 = c -> config env = c ->
  unexpired (now env0) (now env) ->
  Req.authorization req = Some ("Bearer " ++ signToken L env0 (_id u)) ->
  find (fun v => _id v =? _id u) (users w) = Some u ->
  protect L env req w
  = (if passwordChangedAfter u (now env0 / 1000)
     then NextError
            (AppError
               "The user recently changed their password! Please login again."
               (Some 401)) None
     else Next (Some (loaded u)), w).
Proof.
  intros H0 H1 Hfresh Hauth Hfind.
  rewrite (signToken_jwt env0 (_id u) H0) in Hauth.
  destruct (compact L c unexpired codec (_id u) (now env0))
    as [Hne Hlacks].
  pose proof (verifies L c unexpired codec (_id u) (now env0) (now env)
                Hfresh) as Hverify.
  rewrite <- H1 in Hverify at 3.
  exact (protect_verified L env req w _
           (mkPayload (_id u) (now env0 / 1000)) u
           (bearerToken_header req _ Hauth Hlacks)
           (truthy_nonempty _ Hne) Hverify Hfind).
Qed.

End Issued.

(** ** The stand-in codec keeps the contract of the codec *)

Lemma digits_lack (c : ascii) (d : Decimal.uint) :
  c = "."%char \/ c = JS.space ->
  JS.lacks c (NilEmpty.string_of_uint d) = true.
Proof.
  intros [-> | ->]; induction d; simpl; auto.
Qed.

Lemma showZ_lacks (c : ascii) (z : Z) :
  c = "."%char \/ c = JS.space -> JS.lacks c (Demo.showZ z) = true.
Proof.
  intros Hc. unfold Demo.showZ.
  assert (Huint : forall d, JS.lacks c (NilZero.string_of_uint d) = true).
  { intros d. destruct d; try exact (digits_lack c _ Hc).
    destruct Hc as [-> | ->]; reflexivity. }
  destruct (Z.to_int z) as [d|d]; simpl; [apply Huint|].
  rewrite Huint. destruct Hc as [-> | ->]; reflexivity.
Qed.

Lemma readZ_showZ (z : Z) : Demo.readZ (Demo.showZ z) = Some z.
Proof.
  unfold Demo.readZ, Demo.showZ.
  assert (H : exists d',
             NilZero.int_of_string (NilZero.string_of_int (Z.to_int z))
             = Some d'
             /\ Z.of_int d' = Z.of_int (Z.to_int z)).
  { destruct (Z.to_int z) as [d|d]; destruct d;
      try (eexists; split; [apply NilZero.isi; discriminate | reflexivity]).
    - exists (Decimal.Pos Decimal.zero). split; reflexivity.
    - exists (Decimal.Neg (Decimal.D0 Decimal.Nil)). split; reflexivity. }
  destruct H as (d' & -> & Hd'). simpl. rewrite Hd'.
  rewrite DecimalZ.of_to. reflexivity.
Qed.

Lemma demo_codec : Codec Demo.libs Demo.cfg (fun _ _ => True).
Proof.
  constructor.
  - intros i issued clock _. simpl. unfold Demo.verify, Demo.sign.
    change (Demo.showZ i ++ "." ++ Demo.showZ (issued / 1000) ++ "."
            ++ "secret")
      with (Demo.showZ i
            ++ String "."%char
                 (Demo.showZ (issued / 1000)
                  ++ String "."%char "secret")).
    rewrite (split_piece "."%char (Demo.showZ i) _
               (showZ_lacks "."%char i (or_introl eq_refl))).
    rewrite (split_piece "."%char (Demo.showZ (issued / 1000)) "secret"
               (showZ_lacks "."%char (issued / 1000) (or_introl eq_refl))).
    rewrite (split_lacks "."%char "secret" eq_refl).
    rewrite !readZ_showZ. reflexivity.
  - intros i issued. simpl. unfold Demo.sign. split.
    + destruct (Demo.showZ i); discriminate.
    + apply lacks_append;
        [apply showZ_lacks; now right|].
      apply (lacks_append JS.space ".");
        [reflexivity|].
      apply lacks_append;
        [apply showZ_lacks; now right | reflexivity].
Qed.

(** * The claims *)

(** ** C1: a password change and the sessions issued around it *)

Section PasswordChange.

Variable L : Libs.
Variable hash : string -> string.
Variable compare : string -> string -> bool.
Variable c : Config.
Variable unexpired : Z -> Z -> Prop.
Hypothesis codec : Codec L c unexpired.


End PasswordChange.



(** ** C2 and C3: the errors that the handlers forward *)

Section Failures.

Variable L : Libs.
Context {M : UserModel}.
Variable env : Env.

(** C2.  [forgotPassword] for an email that no stored user has, and
    [resetPassword] for a token that no stored user holds unexpired,
    build the error from the message alone and pass 404 and 400 as the
    second argument of [next]: the error object carries no status code,
    the collection is untouched, and the error boundary answers 500. *)
Theorem reset_errors_default_to_500 (req : Req.Request) (w : World) :
  (find (matches (ByEmail (Req.email (Req.body req)))) (users w) = None ->
   forgotPassword L env req w
   = (NextError (AppError "There is no user with that email" None)
                (Some 404), w)
   /\ httpStatus (fst (forgotPassword L env req w)) = Some 500)
  /\ (find (matches (ByResetToken (sha256hex L (Req.token req))
                                  (now env))) (users w) = None ->
      resetPassword L env req w
      = (NextError (AppError "token is invalid or has expired" None)
                   (Some 400), w)
      /\ httpStatus (fst (resetPassword L env req w)) = Some 500).
Proof.
  split; intros Hnone.
  - assert (Hrun : forgotPassword L env req w
                   = (NextError
                        (AppError "There is no user with that email" None)
                        (Some 404), w)).
    { unfold forgotPassword, catchAsync, bind, findOne.
      rewrite Hnone. reflexivity. }
    split; [exact Hrun | rewrite Hrun; reflexivity].
  - assert (Hrun : resetPassword L env req w
                   = (NextError
                        (AppError "token is invalid or has expired" None)
                        (Some 400), w)).
    { unfold resetPassword, catchAsync, bind, findOne.
      rewrite Hnone. reflexivity. }
    split; [exact Hrun | rewrite Hrun; reflexivity].
Qed.

(** C3, as the code has it.  A login that gives an email and a password
    and matches no stored identity -- the email is unknown, or the hash
    comparison fails -- is refused with the one error
    [AppError "Incorrect email or password!" 401] and leaves the world
    as it was.  A login that lacks the email or the password is refused
    before any lookup with [AppError "Please provide email and password!"
    400], whatever the collection holds. *)
Theorem login_failures_are_indistinguishable (req : Req.Request)
    (w : World) :
  (JS.truthy (Req.email (Req.body req)) = true ->
   JS.truthy (Req.password (Req.body req)) = true ->
   match find (matches (ByEmail (Req.email (Req.body req)))) (users w) with
   | None => True
   | Some u =>
       correctPassword (Req.password (Req.body req)) (password u) = false
   end ->
   login L env req w
   = (NextError (AppError "Incorrect email or password!" (Some 401)) None,
      w))
  /\ (JS.truthy (Req.email (Req.body req)) = false
      \/ JS.truthy (Req.password (Req.body req)) = false ->
      login L env req w
      = (NextError (AppError "Please provide email and password!"
                             (Some 400)) None, w)).
Proof.
  split.
  - intros He Hp Hmatch.
    unfold login, catchAsync, bind, findOne. rewrite He, Hp. simpl.
    destruct (find (matches (ByEmail (Req.email (Req.body req))))
                   (users w)) as [u|]; simpl.
    + rewrite Hmatch. reflexivity.
    + reflexivity.
  - intros Hmissing. unfold login, catchAsync.
    destruct Hmissing as [H|H]; rewrite H; simpl.
    + reflexivity.
    + rewrite orb_true_r. reflexivity.
Qed.

End Failures.

(** Bob, who has no account, asks for a reset and presents a token. *)
Lemma reset_errors_default_to_500_witness :
  (forgotPassword Demo.libs (M := Demo.model) (Demo.envAt 3000 true)
     (Demo.loginRequest (Some "bob@x.com") None) Demo.amyWorld
   = (NextError (AppError "There is no user with that email" None)
                (Some 404), Demo.amyWorld)
   /\ httpStatus
        (fst (forgotPassword Demo.libs (M := Demo.model)
                (Demo.envAt 3000 true)
                (Demo.loginRequest (Some "bob@x.com") None) Demo.amyWorld))
      = Some 500)
  /\ (resetPassword Demo.libs (M := Demo.model) (Demo.envAt 3000 true)
        (Demo.loginRequest (Some "bob@x.com") None) Demo.amyWorld
      = (NextError (AppError "token is invalid or has expired" None)
                   (Some 400), Demo.amyWorld)
      /\ httpStatus
           (fst (resetPassword Demo.libs (M := Demo.model)
                   (Demo.envAt 3000 true)
                   (Demo.loginRequest (Some "bob@x.com") None)
                   Demo.amyWorld))
         = Some 500).
Proof.
  destruct (@reset_errors_default_to_500 Demo.libs Demo.model
              (Demo.envAt 3000 true)
              (Demo.loginRequest (Some "bob@x.com") None) Demo.amyWorld)
    as [Hforgot Hreset].
  split; [apply Hforgot | apply Hreset]; reflexivity.
Defined.

(** The login of Amy with an empty password: the attempt matches no
    stored identity, for the stored hash is not the hash of the empty
    password, and the answer is the 400 of the presence test, not
    the 401. *)
Lemma login_without_password_is_400 :
  find (matches (ByEmail (Some "amy@x.com"))) (users Demo.amyWorld)
  = Some Demo.amy
  /\ correctPassword (UserModel := Demo.model) (Some "")
                     (password Demo.amy) = false
  /\ login Demo.libs (M := Demo.model) (Demo.envAt 2000 true)
           (Demo.loginRequest (Some "amy@x.com") (Some "")) Demo.amyWorld
     = (NextError (AppError "Please provide email and password!"
                            (Some 400)) None, Demo.amyWorld)
  /\ login Demo.libs (M := Demo.model) (Demo.envAt 2000 true)
           (Demo.loginRequest (Some "amy@x.com") (Some "")) Demo.amyWorld
     <> (NextError (AppError "Incorrect email or password!" (Some 401))
                   None, Demo.amyWorld).
Proof.
  repeat split; try reflexivity.
  vm_compute. discriminate.
Qed.

(** Amy's email with a wrong password, and an unknown email, get the
    same answer. *)
Lemma login_failures_are_indistinguishable_witness :
  login Demo.libs (M := Demo.model) (Demo.envAt 2000 true)
        (Demo.loginRequest (Some "amy@x.com") (Some "wrong"))
        Demo.amyWorld
  = (NextError (AppError "Incorrect email or password!" (Some 401)) None,
     Demo.amyWorld)
  /\ login Demo.libs (M := Demo.model) (Demo.envAt 2000 true)
           (Demo.loginRequest (Some "bob@x.com") (Some "wrong"))
           Demo.amyWorld
     = (NextError (AppError "Incorrect email or password!" (Some 401))
                  None, Demo.amyWorld).
Proof.
  split.
  - apply (@login_failures_are_indistinguishable Demo.libs Demo.model
             (Demo.envAt 2000 true)
             (Demo.loginRequest (Some "amy@x.com") (Some "wrong"))
             Demo.amyWorld); reflexivity.
  - apply (@login_failures_are_indistinguishable Demo.libs Demo.model
             (Demo.envAt 2000 true)
             (Demo.loginRequest (Some "bob@x.com") (Some "wrong"))
             Demo.amyWorld); [reflexivity | reflexivity | exact I].
Defined.

(** ** C4 and C5: the password reset flow *)

Section ResetFlow.

Variable L : Libs.
Context {M : UserModel}.
Variable env : Env.
Hypothesis lawful : Lawful M.

(** C4, as the code has it.  [resetPassword] hashes the presented token.
    When no stored identity holds that hash with an expiry after the
    clock, it hands on the error "token is invalid or has expired" with
    the code 400 beside it -- not a 401 error -- and changes nothing.
    When it answers, a stored identity held the hash with an expiry
    strictly after the clock; the new password and confirmation were
    assigned to it and both reset paths cleared, it passed the schema,
    and what the save middleware made of it is stored in its place:
    with both reset paths [undefined], and with the hash of the new
    password for a middleware that hashes an assigned password.  The
    answer is 200 with the session token that [jwt.sign] makes for the
    identity at the clock.  And it does answer when such an identity is
    found and the document with the new password passes the
    validators. *)
Theorem resetPassword_consumes_token (req : Req.Request) (w : World) :
  let hashed := sha256hex L (Req.token req) in
  ((forall u, In u (users w) ->
              matches (ByResetToken hashed (now env)) u = false) ->
   resetPassword L env req w
   = (NextError (AppError "token is invalid or has expired" None)
                (Some 400), w))
  /\ (forall r w',
        resetPassword L env req w = (Sent r, w') ->
        exists u expiry p,
          In u (users w)
          /\ passwordResetToken u = Some hashed
          /\ passwordResetExpires u = Some expiry
          /\ now env < expiry
          /\ Req.password (Req.body req) = Some p
          /\ (8 <= String.length p)%nat
          /\ password (fields (resetDocument req u)) = Some p
          /\ isModified PPassword (resetDocument req u) = true
          /\ validateSync L (fields (resetDocument req u)) = []
          /\ let u' := preSave (now env) (resetDocument req u) in
             users w' = replace (_id u) u' (users w)
             /\ _id u' = _id u
             /\ passwordResetToken u' = None
             /\ passwordResetExpires u' = None
             /\ (forall hash,
                   HashesPassword M hash -> password u' = Some (hash p))
             /\ statusCode r = 200
             /\ issuedToken (Sent r)
                = Some (jwt_sign L (_id u) (JWT_SECRET (config env))
                                 (JWT_EXPIRES_IN (config env)) (now env)))
  /\ (forall u,
        find (matches (ByResetToken hashed (now env))) (users w)
        = Some u ->
        validateSync L (fields (resetDocument req u)) = [] ->
        exists r w',
          resetPassword L env req w = (Sent r, w') /\ statusCode r = 200).
Proof.
  intros hashed. split; [|split].
  - intros Hnone.
    assert (Hfind : find (matches (ByResetToken hashed (now env)))
                         (users w) = None).
    { destruct (find (matches (ByResetToken hashed (now env))) (users w))
        as [u|] eqn:E; [|reflexivity].
      apply find_some in E as [Hin Hm]. rewrite (Hnone u Hin) in Hm.
      discriminate. }
    unfold resetPassword, catchAsync, bind, findOne. fold hashed.
    rewrite Hfind. reflexivity.
  - intros r w' Hrun.
    destruct (find (matches (ByResetToken hashed (now env))) (users w))
      as [u|] eqn:Hfind.
    + rewrite (resetPassword_found L env req w u Hfind) in Hrun.
      cbv zeta in Hrun.
      set (d := resetDocument req u) in *.
      destruct (validateSync L (fields d)) as [|f fs] eqn:Hvalid;
        [|discriminate].
      destruct (validateSync_nil_password L _ Hvalid)
        as (p & Hp & _ & Hlen).
      apply find_some in Hfind as [Hin Hm]. simpl in Hm.
      destruct (passwordResetToken u) as [h|] eqn:Htoken;
        [|discriminate].
      destruct (passwordResetExpires u) as [expiry|] eqn:Hexpiry;
        [|discriminate].
      apply andb_true_iff in Hm as [Hh Hlt].
      apply String.eqb_eq in Hh. apply Z.ltb_lt in Hlt. subst h.
      rewrite createAndSendToken_sent in Hrun.
      inversion Hrun; subst r w'; clear Hrun.
      assert (Hid : _id (preSave (now env) d) = _id u)
        by (rewrite (preSave_id M lawful); reflexivity).
      exists u, expiry, p. cbv zeta.
      split; [exact Hin|]. split; [exact Htoken|]. split; [exact Hexpiry|].
      split; [exact Hlt|]. split; [exact Hp|]. split; [exact Hlen|].
      split; [exact Hp|]. split; [reflexivity|]. split; [exact Hvalid|].
      split; [reflexivity|]. split; [exact Hid|].
      split; [rewrite (preSave_resetToken M lawful); reflexivity|].
      split; [rewrite (preSave_resetExpires M lawful); reflexivity|].
      split; [intros hash Hhashes; apply Hhashes;
              [reflexivity | exact Hp]|].
      split; [reflexivity|].
      simpl. unfold signToken. fold d. rewrite Hid. reflexivity.
    + unfold resetPassword, catchAsync, bind, findOne in Hrun.
      fold hashed in Hrun. rewrite Hfind in Hrun. discriminate.
  - intros u Hfind Hvalid.
    rewrite (resetPassword_found L env req w u Hfind). cbv zeta.
    rewrite Hvalid, createAndSendToken_sent.
    do 2 eexists. split; reflexivity.
Qed.

(** C5.  When [forgotPassword] finds the user and the delivery of the
    reset mail fails, the handler stores the user again with
    [passwordResetToken] and [passwordResetExpires] [undefined] and then
    forwards the error "There was an error sending the email. Try again
    later ", which carries no status code and so is answered with 500:
    no stored document of that identifier keeps a pending reset, and no
    mail went out. *)
Theorem forgotPassword_rolls_back (req : Req.Request) (w : World)
    (u : User) :
  find (matches (ByEmail (Req.email (Req.body req)))) (users w) = Some u ->
  delivers env (resetMail env req u) = false ->
  exists w' u',
    forgotPassword L env req w
    = (NextError
         (AppError "There was an error sending the email. Try again later "
                   None)
         (Some 500), w')
    /\ httpStatus (fst (forgotPassword L env req w)) = Some 500
    /\ find (fun v => _id v =? _id u) (users w') = Some u'
    /\ (forall v, In v (users w') -> _id v = _id u ->
                  passwordResetToken v = None
                  /\ passwordResetExpires v = None)
    /\ outbox w' = outbox w.
Proof.
  intros Hfind Hfail.
  unfold resetMail, pendingReset in Hfail.
  pose proof (reset_id M lawful (randomBytes env) (now env) (loaded u))
    as Hid1.
  pose proof (reset_email M lawful (randomBytes env) (now env) (loaded u))
    as Hmail1.
  pose proof (reset_isNew M lawful (randomBytes env) (now env) (loaded u))
    as Hnew1.
  destruct (createPasswordResetToken (randomBytes env) (now env)
                                     (loaded u)) as [resetToken d1] eqn:E.
  simpl in Hfail, Hid1, Hmail1, Hnew1.
  set (u1 := preSave (now env) d1) in *.
  set (d3 := assign PPasswordResetExpires (set_passwordResetExpires None)
               (assign PPasswordResetToken (set_passwordResetToken None)
                  (loaded u1))).
  set (u3 := preSave (now env) d3).
  assert (Hid_u1 : _id u1 = _id u)
    by (unfold u1; rewrite (preSave_id M lawful); exact Hid1).
  assert (Hid_u3 : _id u3 = _id u)
    by (unfold u3; rewrite (preSave_id M lawful); exact Hid_u1).
  assert (Hrun :
    forgotPassword L env req w
    = (NextError
         (AppError "There was an error sending the email. Try again later "
                   None)
         (Some 500),
       mkWorld (replace (_id u) u3 (replace (_id u) u1 (users w)))
               (outbox w) (nextId w))).
  { unfold forgotPassword, catchAsync, bind, findOne. rewrite Hfind.
    cbn [option_map]. cbv beta iota. rewrite E.
    rewrite (save_loaded L env false d1 w Hnew1 Hmail1).
    cbv beta iota. fold u1.
    unfold tryCatch, bind, sendEmail.
    cbn [fields loaded users outbox nextId].
    rewrite Hfail. cbv beta iota zeta. fold d3.
    rewrite (save_loaded L env false d3 _ eq_refl eq_refl).
    cbv beta iota. fold u3. cbn [users outbox nextId].
    unfold ret. replace (_id (fields d3)) with (_id u1) by reflexivity.
    rewrite Hid1, Hid_u1. reflexivity. }
  exists (mkWorld (replace (_id u) u3 (replace (_id u) u1 (users w)))
                  (outbox w) (nextId w)), u3.
  split; [exact Hrun|]. split; [rewrite Hrun; reflexivity|].
  simpl. split; [|split; [|reflexivity]].
  - apply find_some in Hfind as [Hin _].
    destruct (find_id_exists u (users w) Hin) as [x Hx].
    apply find_replace with (u := u1); [|exact Hid_u3].
    apply find_replace with (u := x); [exact Hx | exact Hid_u1].
  - intros v Hv Hidv.
    apply in_replace in Hv as [->|[_ Hne]]; [|contradiction].
    unfold u3.
    rewrite (preSave_resetToken M lawful), (preSave_resetExpires M lawful).
    split; reflexivity.
Qed.

End ResetFlow.

(** A reset with a token that nobody was sent, while Amy's reset is
    pending: the error that [resetPassword] hands on carries no 401, and
    the error boundary answers it with 500. *)
Lemma resetPassword_stray_token_is_not_401 :
  resetPassword Demo.libs (M := Demo.model) (Demo.envAt 4000 true)
                Demo.strayRequest (snd (Demo.afterForgot true))
  = (NextError (AppError "token is invalid or has expired" None)
               (Some 400), snd (Demo.afterForgot true))
  /\ httpStatus
       (fst (resetPassword Demo.libs (M := Demo.model)
               (Demo.envAt 4000 true) Demo.strayRequest
               (snd (Demo.afterForgot true))))
     = Some 500
  /\ httpStatus
       (fst (resetPassword Demo.libs (M := Demo.model)
               (Demo.envAt 4000 true) Demo.strayRequest
               (snd (Demo.afterForgot true))))
     <> Some 401.
Proof.
  assert (Hrun :
    resetPassword Demo.libs (M := Demo.model) (Demo.envAt 4000 true)
                  Demo.strayRequest (snd (Demo.afterForgot true))
    = (NextError (AppError "token is invalid or has expired" None)
                 (Some 400), snd (Demo.afterForgot true)))
    by (vm_compute; reflexivity).
  split; [exact Hrun|]. rewrite Hrun. split; [reflexivity | discriminate].
Qed.

(** Amy presents the token of her pending reset at time 4000. *)
Lemma resetPassword_consumes_token_witness :
  exists u expiry p,
    In u (users (snd (Demo.afterForgot true)))
    /\ passwordResetToken u = Some (Demo.digest "r4nd0m")
    /\ passwordResetExpires u = Some expiry
    /\ 4000 < expiry
    /\ Req.password (Req.body Demo.resetRequest) = Some p
    /\ (8 <= String.length p)%nat
    /\ password (fields (resetDocument Demo.resetRequest u)) = Some p
    /\ isModified PPassword (resetDocument Demo.resetRequest u) = true
    /\ validateSync Demo.libs (fields (resetDocument Demo.resetRequest u))
       = []
    /\ let u' := preSave (UserModel := Demo.model) 4000
                   (resetDocument Demo.resetRequest u) in
       users (snd Demo.afterReset)
       = replace (_id u) u' (users (snd (Demo.afterForgot true)))
       /\ _id u' = _id u
       /\ passwordResetToken u' = None
       /\ passwordResetExpires u' = None
       /\ (forall hash,
             HashesPassword Demo.model hash -> password u' = Some (hash p))
       /\ statusCode (Demo.sent (fst Demo.afterReset)) = 200
       /\ issuedToken (Sent (Demo.sent (fst Demo.afterReset)))
          = Some (Demo.sign (_id u) "secret" "90d" 4000).
Proof.
  assert (Hrun :
    resetPassword Demo.libs (M := Demo.model) (Demo.envAt 4000 true)
                  Demo.resetRequest (snd (Demo.afterForgot true))
    = (Sent (Demo.sent (fst Demo.afterReset)), snd Demo.afterReset))
    by (vm_compute; reflexivity).
  exact (proj1
           (proj2
              (@resetPassword_consumes_token Demo.libs Demo.model
                 (Demo.envAt 4000 true)
                 (specModel_lawful Demo.libs Demo.hash Demo.compare)
                 Demo.resetRequest (snd (Demo.afterForgot true))))
           (Demo.sent (fst Demo.afterReset)) (snd Demo.afterReset)
           Hrun).
Defined.

(** Amy asks for a reset at time 3000 while the mail transport is
    down. *)
Lemma forgotPassword_rolls_back_witness :
  exists w' u',
    forgotPassword Demo.libs (M := Demo.model) (Demo.envAt 3000 false)
                   Demo.forgotRequest Demo.amyWorld
    = (NextError
         (AppError "There was an error sending the email. Try again later "
                   None)
         (Some 500), w')
    /\ httpStatus
         (fst (forgotPassword Demo.libs (M := Demo.model)
                 (Demo.envAt 3000 false) Demo.forgotRequest
                 Demo.amyWorld))
       = Some 500
    /\ find (fun v => _id v =? _id Demo.amy) (users w') = Some u'
    /\ (forall v, In v (users w') -> _id v = _id Demo.amy ->
                  passwordResetToken v = None
                  /\ passwordResetExpires v = None)
    /\ outbox w' = outbox Demo.amyWorld.
Proof.
  apply (@forgotPassword_rolls_back Demo.libs Demo.model
           (Demo.envAt 3000 false)
           (specModel_lawful Demo.libs Demo.hash Demo.compare)
           Demo.forgotRequest Demo.amyWorld Demo.amy).
  - reflexivity.
  - reflexivity.
Defined.

(** ** C6: what signup stores of the password *)

Section SignupPassword.

Variable L : Libs.
Context {M : UserModel}.
Variable env : Env.

(** C6, as the code has it.  Every signup that answers was given a
    password of eight characters or more, assigned it to the new document
    as it came, and stored what the save middleware made of that
    document.  The schema of the repository declares no middleware:
    with it the stored password is the submitted one.  (A middleware
    that hashes an assigned password stores the hash.)  The answer is
    201 with the session token that [jwt.sign] makes for the stored
    identity at the clock, in the body and in the [jwt] cookie. *)
Theorem signup_stores_password (req : Req.Request) (w w' : World)
    (r : Response) :
  signup L env req w = (Sent r, w') ->
  exists p,
    Req.password (Req.body req) = Some p
    /\ (8 <= String.length p)%nat
    /\ let d := newDocument L (nextId w) (signupObject (Req.body req)) in
       let u := preSave (now env) d in
       password (fields d) = Some p
       /\ isModified PPassword d = true
       /\ users w' = (users w ++ [u])%list
       /\ (NoMiddleware M -> password u = Some p)
       /\ (forall hash,
             HashesPassword M hash -> password u = Some (hash p))
       /\ statusCode r = 201
       /\ issuedToken (Sent r)
          = Some (jwt_sign L (_id u) (JWT_SECRET (config env))
                           (JWT_EXPIRES_IN (config env)) (now env))
       /\ map cookieValue (cookies r)
          = [jwt_sign L (_id u) (JWT_SECRET (config env))
                      (JWT_EXPIRES_IN (config env)) (now env)].
Proof.
  intros Hrun.
  destruct (signup_sent L env req w w' r Hrun)
    as (Hvalid & _ & Hstored & Hsent).
  set (d := newDocument L (nextId w) (signupObject (Req.body req))) in *.
  destruct (validateSync_nil_password L _ Hvalid) as (p & Hp & _ & Hlen).
  assert (Hmod : isModified PPassword d = true).
  { unfold isModified, d, newDocument. cbn [modified].
    apply (givenPaths_password _ p). exact Hp. }
  exists p. cbv zeta. fold d.
  split; [exact Hp|]. split; [exact Hlen|]. split; [exact Hp|].
  split; [exact Hmod|]. split; [exact Hstored|].
  split; [intros Hnone; rewrite Hnone; exact Hp|].
  split; [intros hash Hhashes; exact (Hhashes (now env) d p Hmod Hp)|].
  rewrite createAndSendToken_sent in Hsent. inversion Hsent; subst r.
  repeat split.
Qed.

End SignupPassword.

(** Amy signs up with "password1" on the schema of the repository as it
    is: the collection holds her password as she typed it. *)
Lemma signup_stores_plaintext :
  NoMiddleware Demo.plain
  /\ signup Demo.libs (M := Demo.plain) (Demo.envAt 1000 true)
            (Demo.request Demo.amyBody) Demo.emptyWorld
     = (Sent (Demo.sent (fst Demo.afterPlainSignup)),
        snd Demo.afterPlainSignup)
  /\ statusCode (Demo.sent (fst Demo.afterPlainSignup)) = 201
  /\ users (snd Demo.afterPlainSignup) = [Demo.plainAmy]
  /\ Req.password Demo.amyBody = Some "password1"
  /\ password Demo.plainAmy = Req.password Demo.amyBody.
Proof.
  split; [intros clock d; reflexivity|].
  split; [vm_compute; reflexivity|].
  split; [vm_compute; reflexivity|].
  split; [vm_compute; reflexivity|].
  split; reflexivity.
Qed.

Lemma signup_stores_password_witness :
  exists p,
    Req.password (Req.body (Demo.request Demo.amyBody)) = Some p
    /\ (8 <= String.length p)%nat
    /\ let d := newDocument Demo.libs (nextId Demo.emptyWorld)
                  (signupObject (Req.body (Demo.request Demo.amyBody))) in
       let u := preSave (UserModel := Demo.plain) 1000 d in
       password (fields d) = Some p
       /\ isModified PPassword d = true
       /\ users (snd Demo.afterPlainSignup)
          = (users Demo.emptyWorld ++ [u])%list
       /\ (NoMiddleware Demo.plain -> password u = Some p)
       /\ (forall hash,
             HashesPassword Demo.plain hash -> password u = Some (hash p))
       /\ statusCode (Demo.sent (fst Demo.afterPlainSignup)) = 201
       /\ issuedToken (Sent (Demo.sent (fst Demo.afterPlainSignup)))
          = Some (Demo.sign (_id u) "secret" "90d" 1000)
       /\ map cookieValue (cookies (Demo.sent (fst Demo.afterPlainSignup)))
          = [Demo.sign (_id u) "secret" "90d" 1000].
Proof.
  assert (Hrun :
    signup Demo.libs (M := Demo.plain) (Demo.envAt 1000 true)
           (Demo.request Demo.amyBody) Demo.emptyWorld
    = (Sent (Demo.sent (fst Demo.afterPlainSignup)),
       snd Demo.afterPlainSignup))
    by (vm_compute; reflexivity).
  exact (@signup_stores_password Demo.libs Demo.plain
           (Demo.envAt 1000 true) (Demo.request Demo.amyBody)
           Demo.emptyWorld (snd Demo.afterPlainSignup)
           (Demo.sent (fst Demo.afterPlainSignup)) Hrun).
Defined.

(** ** C7: no password in a response *)

Section Responses.

Variable L : Libs.
Context {M : UserModel}.
Variable env : Env.

(** C7.  Every response that signup, login, resetPassword and
    updatePassword send carries the session envelope, and the serialized
    identity in it has no [password] member. *)
Theorem session_responses_hide_password (e : Endpoint)
    (req : Req.Request) (w w' : World) (r : Response) :
  endpoint L env e req w = (Sent r, w') ->
  exists status token user,
    json r = SessionBody status token user
    /\ hasKey "password" user = false.
Proof.
  intros H. destruct (endpoint_sent L env e req w w' r H) as [d [code Hd]].
  exact (createAndSendToken_hides L env d code r Hd).
Qed.

End Responses.

Lemma session_responses_hide_password_witness :
  exists status token user,
    json Demo.amySession = SessionBody status token user
    /\ hasKey "password" user = false.
Proof.
  exact (@session_responses_hide_password Demo.libs Demo.model
           (Demo.envAt 1000 true) Signup (Demo.request Demo.amyBody)
           Demo.emptyWorld Demo.amyWorld Demo.amySession eq_refl).
Defined.

(** ** C8: what signup rejects *)

Section SignupRejects.

Variable L : Libs.
Context {M : UserModel}.
Variable env : Env.

(** Signup of a password shorter than eight characters fails with the
    validation error, and nothing is stored. *)
Lemma signup_rejects_short_password (req : Req.Request) (w : World)
    (p : string) :
  Req.password (Req.body req) = Some p -> (String.length p < 8)%nat ->
  exists fs w',
    signup L env req w = (NextError (ValidationError fs) None, w')
    /\ fs <> [] /\ users w' = users w.
Proof.
  intros Hp Hlen. rewrite signup_run.
  destruct (validateSync_short_password L
              (fields (newDocument L (nextId w)
                         (signupObject (Req.body req)))) p Hp Hlen)
    as [f [fs Hv]].
  rewrite (create_invalid L env _ _ _ _ Hv).
  eexists; eexists; repeat split. discriminate.
Qed.

(** Signup of an email that [isEmail] refuses fails with the validation
    error, and nothing is stored. *)
Lemma signup_rejects_malformed_email (req : Req.Request) (w : World)
    (e : string) :
  Req.email (Req.body req) = Some e ->
  isEmail L (toLowerCase L e) = false ->
  exists fs w',
    signup L env req w = (NextError (ValidationError fs) None, w')
    /\ fs <> [] /\ users w' = users w.
Proof.
  intros He Hmail. rewrite signup_run.
  destruct (validateSync_malformed_email L
              (fields (newDocument L (nextId w)
                         (signupObject (Req.body req))))
              (toLowerCase L e))
    as [f [fs Hv]].
  - rewrite newDocument_fields. simpl. rewrite He. reflexivity.
  - exact Hmail.
  - rewrite (create_invalid L env _ _ _ _ Hv).
    eexists; eexists; repeat split. discriminate.
Qed.

(** Signup of an email that a stored document holds already fails, by the
    validators or by the unique index, and nothing is stored. *)
Lemma signup_rejects_duplicate_email (req : Req.Request) (w : World) :
  emailTaken
    (email (preSave (now env)
              (newDocument L (nextId w) (signupObject (Req.body req)))))
    (users w) = true ->
  exists e w',
    signup L env req w = (NextError e None, w')
    /\ (e = DuplicateKeyError PEmail \/ exists fs, e = ValidationError fs)
    /\ users w' = users w.
Proof.
  intros Htaken. rewrite signup_run.
  destruct (validateSync L (fields (newDocument L (nextId w)
                                      (signupObject (Req.body req)))))
    as [|f fs] eqn:Hv.
  - rewrite (create_valid L env _ _ Hv). cbv zeta. rewrite Htaken.
    eexists; eexists; repeat split. now left.
  - rewrite (create_invalid L env _ _ _ _ Hv).
    eexists; eexists; repeat split. right. eauto.
Qed.

(** The schema requires [passwordConfirm] and never compares it with
    [password]: a signup with a well-formed name, email and password of
    eight characters or more, a free email and any non-empty confirmation
    that differs from the password is answered with 201 and stored. *)
Theorem signup_accepts_mismatched_confirmation (req : Req.Request)
    (w : World) (n e p c : string) :
  Req.name (Req.body req) = Some n -> n <> "" ->
  Req.email (Req.body req) = Some e ->
  toLowerCase L e <> "" -> isEmail L (toLowerCase L e) = true ->
  Req.password (Req.body req) = Some p -> (8 <= String.length p)%nat ->
  Req.passwordConfirm (Req.body req) = Some c -> c <> "" ->
  c <> p ->
  let u := preSave (now env)
             (newDocument L (nextId w) (signupObject (Req.body req))) in
  emailTaken (email u) (users w) = false ->
  signup L env req w
  = (createAndSendToken L env (loaded u) 201,
     mkWorld (users w ++ [u]) (outbox w) (nextId w + 1))
  /\ httpStatus (fst (signup L env req w)) = Some 201.
Proof.
  intros Hn Hn' He He' Hmail Hp Hlen Hc Hc' Hdiff u Hfree.
  assert (Hrun : signup L env req w
                 = (createAndSendToken L env (loaded u) 201,
                    mkWorld (users w ++ [u]) (outbox w) (nextId w + 1))).
  { rewrite signup_run, create_valid.
    - cbv zeta. fold u. rewrite Hfree. reflexivity.
    - rewrite newDocument_fields.
      apply validateSync_nil with (n := n) (e := toLowerCase L e)
                                  (p := p) (c := c);
        simpl; try assumption.
      rewrite He. reflexivity. }
  split; [exact Hrun | rewrite Hrun; reflexivity].
Qed.

Hypothesis lawful : Lawful M.

(** C8, as the code has it.  Signup fails with the validation error, and
    stores nothing, whenever the submitted email is malformed or the
    submitted password is shorter than eight characters.  It fails, and
    stores nothing, whenever the case-folded email is the email of a
    stored identity: with the duplicate-key error of the unique index,
    or with the validation error when a validator fails first.  (The
    schema has no validator that compares [passwordConfirm] with
    [password].) *)
Theorem signup_rejects_invalid (req : Req.Request) (w : World) :
  ((exists e, Req.email (Req.body req) = Some e
              /\ isEmail L (toLowerCase L e) = false)
   \/ (exists p, Req.password (Req.body req) = Some p
                 /\ (String.length p < 8)%nat) ->
   exists fs w',
     signup L env req w = (NextError (ValidationError fs) None, w')
     /\ fs <> [] /\ users w' = users w)
  /\ (emailTaken (option_map (toLowerCase L) (Req.email (Req.body req)))
                 (users w) = true ->
      exists e w',
        signup L env req w = (NextError e None, w')
        /\ (e = DuplicateKeyError PEmail
            \/ exists fs, e = ValidationError fs)
        /\ users w' = users w).
Proof.
  split.
  - intros [[e [He Hmail]] | [p [Hp Hlen]]].
    + exact (signup_rejects_malformed_email req w e He Hmail).
    + exact (signup_rejects_short_password req w p Hp Hlen).
  - intros Htaken.
    apply (signup_rejects_duplicate_email req w).
    rewrite (preSave_email M lawful). exact Htaken.
Qed.

End SignupRejects.

(** The signup of Amy with the confirmation "password2" for the
    password "password1" is answered with 201, and Amy is stored. *)
Lemma signup_stores_mismatched_confirmation :
  Req.password Demo.mismatchBody = Some "password1"
  /\ Req.passwordConfirm Demo.mismatchBody = Some "password2"
  /\ Req.password Demo.mismatchBody
     <> Req.passwordConfirm Demo.mismatchBody
  /\ signup Demo.libs (M := Demo.model) (Demo.envAt 1000 true)
            (Demo.request Demo.mismatchBody) Demo.emptyWorld
     = (Sent Demo.amySession, Demo.amyWorld)
  /\ statusCode Demo.amySession = 201
  /\ users Demo.amyWorld = [Demo.amy].
Proof.
  repeat split; try (vm_compute; reflexivity).
  vm_compute. discriminate.
Qed.

(** A signup with the password "short". *)
Lemma signup_rejects_invalid_witness :
  exists fs w',
    signup Demo.libs (M := Demo.model) (Demo.envAt 1000 true)
           (Demo.request Demo.shortBody) Demo.emptyWorld
    = (NextError (ValidationError fs) None, w')
    /\ fs <> [] /\ users w' = users Demo.emptyWorld.
Proof.
  apply (proj1 (@signup_rejects_invalid Demo.libs Demo.model
                  (Demo.envAt 1000 true)
                  (specModel_lawful Demo.libs Demo.hash Demo.compare)
                  (Demo.request Demo.shortBody) Demo.emptyWorld)).
  right. exists "short". split; [reflexivity | simpl; lia].
Defined.

Lemma signup_accepts_mismatched_confirmation_witness :
  signup Demo.libs (M := Demo.model) (Demo.envAt 1000 true)
         (Demo.request Demo.mismatchBody) Demo.emptyWorld
  = (Sent Demo.amySession, Demo.amyWorld)
  /\ httpStatus
       (fst (signup Demo.libs (M := Demo.model) (Demo.envAt 1000 true)
                    (Demo.request Demo.mismatchBody) Demo.emptyWorld))
     = Some 201.
Proof.
  apply (@signup_accepts_mismatched_confirmation Demo.libs Demo.model
           (Demo.envAt 1000 true) (Demo.request Demo.mismatchBody)
           Demo.emptyWorld "Amy" "amy@x.com" "password1" "password2").
  - reflexivity.
  - discriminate.
  - reflexivity.
  - discriminate.
  - reflexivity.
  - reflexivity.
  - simpl. lia.
  - reflexivity.
  - discriminate.
  - discriminate.
  - reflexivity.
Defined.

(** ** C9: the round trip of a session token *)

Section Sessions.

Variable L : Libs.
Context {M : UserModel}.
Variable c : Config.
Variable unexpired : Z -> Z -> Prop.
Hypothesis codec : Codec L c unexpired.


End Sessions.


(** ** C10: the role and the change date of a new account *)

Section SignupRole.

Variable L : Libs.
Context {M : UserModel}.
Variable env : Env.


End SignupRole.



(** * Further properties of the controller *)

(** [restrictTo(...roles)] passes an authenticated request on exactly
    when the role of [req.user] is one of [roles], and forwards the 403
    error otherwise; it changes nothing. *)
Theorem restrictTo_authorizes (roles : list string) (req : Req.Request)
    (w : World) (u : Doc) :
  Req.user req = Some u ->
  ((exists r, role (fields u) = Some r /\ In r roles) ->
   restrictTo roles req w = (Next (Some u), w))
  /\ (~ (exists r, role (fields u) = Some r /\ In r roles) ->
      restrictTo roles req w
      = (NextError
           (AppError "You do not have permission to perform this action"
                     (Some 403)) None, w)).
Proof.
  intros Huser. unfold restrictTo. rewrite Huser.
  destruct (role (fields u)) as [r|].
  - destruct (existsb (String.eqb r) roles) eqn:E.
    + split; [reflexivity|]. intros Hnot. exfalso. apply Hnot.
      apply existsb_exists in E as [x [Hin Heq]].
      apply String.eqb_eq in Heq. subst x. eauto.
    + split; [|reflexivity]. intros [r' [Hr Hin]].
      inversion Hr; subst r'.
      assert (existsb (String.eqb r) roles = true) as Htrue.
      { apply existsb_exists. exists r. split; [exact Hin|].
        apply String.eqb_refl. }
      congruence.
  - split; [|reflexivity]. intros [r [Hr _]]. discriminate.
Qed.

Lemma restrictTo_authorizes_witness :
  restrictTo ["admin"; "lead-guide"] Demo.guardedRequest Demo.amyWorld
  = (NextError
       (AppError "You do not have permission to perform this action"
                 (Some 403)) None, Demo.amyWorld).
Proof.
  apply (proj2 (restrictTo_authorizes ["admin"; "lead-guide"]
                  Demo.guardedRequest Demo.amyWorld (loaded Demo.amy)
                  eq_refl)).
  intros [r [Hr _]]. discriminate.
Defined.

Section MoreFailures.

Variable L : Libs.
Context {M : UserModel}.
Variable env : Env.


(** [updatePassword] with a current password that fails the hash
    comparison builds its error from the message alone and passes 401
    as the second argument of [next], as the two paths of C2 do: the
    error carries no status code, nothing is stored, and the error
    boundary answers 500. *)
Theorem updatePassword_wrong_current_password (req : Req.Request)
    (w : World) (reqUser : Doc) (u : User) :
  Req.user req = Some reqUser ->
  find (fun v => _id v =? _id (fields reqUser)) (users w) = Some u ->
  correctPassword (Req.passwordCurrent (Req.body req)) (password u)
  = false ->
  updatePassword L env req w
  = (NextError (AppError "Your current password is wrong" None)
               (Some 401), w)
  /\ httpStatus (fst (updatePassword L env req w)) = Some 500.
Proof.
  intros Huser Hfind Hwrong.
  assert (Hrun : updatePassword L env req w
                 = (NextError (AppError "Your current password is wrong"
                                        None) (Some 401), w)).
  { unfold updatePassword, catchAsync, bind, findById.
    rewrite Huser. simpl. rewrite Hfind. simpl. rewrite Hwrong.
    reflexivity. }
  split; [exact Hrun | rewrite Hrun; reflexivity].
Qed.

End MoreFailures.


Lemma updatePassword_wrong_current_password_witness :
  updatePassword Demo.libs (M := Demo.model) (Demo.envAt 6000 true)
                 Demo.wrongCurrentRequest Demo.amyWorld
  = (NextError (AppError "Your current password is wrong" None)
               (Some 401), Demo.amyWorld)
  /\ httpStatus
       (fst (updatePassword Demo.libs (M := Demo.model)
               (Demo.envAt 6000 true) Demo.wrongCurrentRequest
               Demo.amyWorld))
     = Some 500.
Proof.
  apply (@updatePassword_wrong_current_password Demo.libs Demo.model
           (Demo.envAt 6000 true) Demo.wrongCurrentRequest Demo.amyWorld
           (loaded Demo.amy) Demo.amy); reflexivity.
Defined.

(** * More of the controller *)

(** ** The user model of the specification keeps the further contracts *)

Section SpecModelContracts.

Variable L : Libs.
Variable hash : string -> string.
Variable compare : string -> string -> bool.

Lemma specModel_keeps_email : ResetKeepsEmail (specModel L hash compare).
Proof. intros random clock d. reflexivity. Qed.

Lemma specModel_stores_digest : StoresDigest L (specModel L hash compare).
Proof. intros random clock d. reflexivity. Qed.

Lemma specModel_accepts :
  (forall p, compare p (hash p) = true) ->
  AcceptsStored (specModel L hash compare).
Proof.
  intros Hcompare clock d p Hmod Hp. simpl.
  rewrite (spec_preSave_password hash clock d p Hmod Hp).
  apply Hcompare.
Qed.

End SpecModelContracts.

(** ** [protect]: whom it lets through, and whom not *)

Section Protect.

Variable L : Libs.
Context {M : UserModel}.
Variable env : Env.

(** [protect] reads nothing of the request but the bearer token. *)
Lemma protect_reads_bearerToken (req req' : Req.Request) (w : World) :
  bearerToken req = bearerToken req' ->
  protect L env req w = protect L env req' w.
Proof.
  intros H. unfold protect, catchAsync. rewrite H. reflexivity.
Qed.

(** What [protect] found when it calls [next()]. *)
Lemma protect_next (req : Req.Request) (w w' : World)
    (currentUser : option Doc) :
  protect L env req w = (Next currentUser, w') ->
  w' = w
  /\ exists token decoded u,
       bearerToken req = Some token
       /\ token <> ""
       /\ jwt_verify L token (JWT_SECRET (config env)) (now env)
          = Some decoded
       /\ find (fun v => _id v =? id decoded) (users w) = Some u
       /\ passwordChangedAfter u (iat decoded) = false
       /\ currentUser = Some (loaded u).
Proof.
  intros Hrun.
  unfold protect, catchAsync, bind, verify, findById, ret, raise in Hrun.
  destruct (bearerToken req) as [token|]; [|discriminate].
  destruct (JS.truthy (Some token)) eqn:Htruthy; [|discriminate].
  cbn [negb] in Hrun. cbv beta iota in Hrun.
  destruct (jwt_verify L token (JWT_SECRET (config env)) (now env))
    as [decoded|] eqn:Hverify; [|discriminate].
  cbv beta iota in Hrun.
  destruct (find (fun v => _id v =? id decoded) (users w)) as [u|] eqn:Hfind;
    [|discriminate].
  cbn [option_map] in Hrun. cbv beta iota in Hrun.
  change (fields (loaded u)) with u in Hrun.
  destruct (passwordChangedAfter u (iat decoded)) eqn:Hchanged;
    [discriminate|].
  inversion Hrun; subst. split; [reflexivity|].
  destruct (truthy_some _ Htruthy) as (s & Hs & Hne).
  inversion Hs; subst s.
  exists token, decoded, u. repeat split; assumption.
Qed.

(** The errors of [protect] are the 401 error and the error of the
    codec. *)
Lemma protect_error (req : Req.Request) (w w' : World) (e : Error)
    (second : option Z) :
  protect L env req w = (NextError e second, w') ->
  (exists message, e = AppError message (Some 401))
  \/ e = JsonWebTokenError.
Proof.
  intros Hrun.
  unfold protect, catchAsync, bind, verify, findById, ret, raise in Hrun.
  split_run Hrun; inversion Hrun; subst; eauto.
Qed.

(** [protect] calls [next()] exactly for a request whose bearer token is
    not empty and verifies, whose payload names a stored user, and for
    whom [passwordChangedAfter] is false at the [iat] of the token; it
    leaves that stored user in [req.user] and the world as it was. *)
Theorem protect_passes_only_verified_users (req : Req.Request)
    (w w' : World) (currentUser : option Doc) :
  protect L env req w = (Next currentUser, w')
  <-> w' = w
      /\ exists token decoded u,
           bearerToken req = Some token
           /\ token <> ""
           /\ jwt_verify L token (JWT_SECRET (config env)) (now env)
              = Some decoded
           /\ find (fun v => _id v =? id decoded) (users w) = Some u
           /\ passwordChangedAfter u (iat decoded) = false
           /\ currentUser = Some (loaded u).
Proof.
  split; [apply protect_next|].
  intros (-> & token & decoded & u & Htoken & Hne & Hverify & Hfind
          & Hchanged & ->).
  rewrite (protect_verified L env req w token decoded u Htoken
             (truthy_nonempty token Hne) Hverify Hfind).
  rewrite Hchanged. reflexivity.
Qed.

(** A token that does not verify is answered with the error of the
    codec, handed to [next] as it is; a token that verifies to a user
    who is no longer stored is answered with the 401 error.  Neither
    changes the world. *)
Theorem protect_rejects_unverified_and_orphaned (req : Req.Request)
    (w : World) (token : string) :
  bearerToken req = Some token ->
  token <> "" ->
  (jwt_verify L token (JWT_SECRET (config env)) (now env) = None ->
   protect L env req w = (NextError JsonWebTokenError None, w))
  /\ (forall decoded,
        jwt_verify L token (JWT_SECRET (config env)) (now env)
        = Some decoded ->
        find (fun v => _id v =? id decoded) (users w) = None ->
        protect L env req w
        = (NextError
             (AppError
                "The user belonging to this token does no longer exsist."
                (Some 401)) None, w)).
Proof.
  intros Htoken Hne.
  pose proof (truthy_nonempty token Hne) as Htruthy.
  split.
  - intros Hverify.
    unfold protect, catchAsync, bind, verify, raise.
    rewrite Htoken, Htruthy, Hverify. reflexivity.
  - intros decoded Hverify Hfind.
    unfold protect, catchAsync, bind, verify, findById, ret.
    rewrite Htoken, Htruthy, Hverify. cbn [negb]. cbv beta iota.
    rewrite Hfind. reflexivity.
Qed.

(** The scheme of the [Authorization] header is tested by prefix only,
    and only the second piece of the header is read: a header
    [Bearer<suffix> <token>], with or without further pieces, is
    treated as [Bearer <token>] is. *)
Theorem protect_tests_scheme_by_prefix (req req' : Req.Request)
    (w : World) (suffix token rest : string) :
  JS.lacks JS.space suffix = true ->
  JS.lacks JS.space token = true ->
  rest = "" \/ (exists r, rest = String JS.space r) ->
  Req.authorization req
  = Some ("Bearer" ++ suffix ++ String JS.space (token ++ rest)) ->
  Req.authorization req' = Some ("Bearer " ++ token) ->
  bearerToken req = Some token
  /\ protect L env req w = protect L env req' w.
Proof.
  intros Hsuffix Htoken Hrest Hauth Hauth'.
  assert (Hbearer : bearerToken req = Some token).
  { unfold bearerToken. rewrite Hauth.
    replace (JS.truthy
               (Some ("Bearer" ++ suffix
                      ++ String JS.space (token ++ rest))))
      with true by reflexivity.
    rewrite startsWith_append.
    cbv beta iota. cbn [andb].
    rewrite append_associative.
    rewrite (split_piece JS.space ("Bearer" ++ suffix) (token ++ rest)).
    - destruct Hrest as [-> | [r ->]].
      + rewrite append_empty, (split_lacks _ _ Htoken). reflexivity.
      + rewrite (split_piece JS.space token r Htoken). reflexivity.
    - apply lacks_append; [reflexivity | exact Hsuffix]. }
  split; [exact Hbearer|].
  apply protect_reads_bearerToken.
  rewrite Hbearer. symmetry.
  apply (bearerToken_header req' token Hauth' Htoken).
Qed.

End Protect.

(** Amy's token of time 1000, presented at time 2000. *)
Lemma protect_passes_only_verified_users_witness :
  protect Demo.libs (M := Demo.model) (Demo.envAt 2000 true)
          (Demo.bearerRequest "1.1.secret") Demo.amyWorld
  = (Next (Some (loaded Demo.amy)), Demo.amyWorld).
Proof.
  apply (proj2 (@protect_passes_only_verified_users Demo.libs Demo.model
                  (Demo.envAt 2000 true)
                  (Demo.bearerRequest "1.1.secret") Demo.amyWorld
                  Demo.amyWorld (Some (loaded Demo.amy)))).
  split; [reflexivity|].
  exists "1.1.secret", (mkPayload 1 1), Demo.amy.
  repeat split; try discriminate; vm_compute; reflexivity.
Defined.

(** A token signed for the identifier 7, which the collection does not
    hold. *)
Lemma protect_rejects_unverified_and_orphaned_witness :
  protect Demo.libs (M := Demo.model) (Demo.envAt 2000 true)
          (Demo.bearerRequest "7.1.secret") Demo.amyWorld
  = (NextError
       (AppError "The user belonging to this token does no longer exsist."
                 (Some 401)) None, Demo.amyWorld).
Proof.
  assert (Htoken : bearerToken (Demo.bearerRequest "7.1.secret")
                   = Some "7.1.secret") by (vm_compute; reflexivity).
  assert (Hne : "7.1.secret" <> "") by discriminate.
  apply (proj2 (@protect_rejects_unverified_and_orphaned Demo.libs
                  Demo.model (Demo.envAt 2000 true)
                  (Demo.bearerRequest "7.1.secret") Demo.amyWorld
                  "7.1.secret" Htoken Hne) (mkPayload 7 1));
    vm_compute; reflexivity.
Defined.

(** The header [BearerX 1.1.secret extra]. *)
Lemma protect_tests_scheme_by_prefix_witness :
  bearerToken (Demo.headerRequest "BearerX 1.1.secret extra")
  = Some "1.1.secret"
  /\ protect Demo.libs (M := Demo.model) (Demo.envAt 2000 true)
             (Demo.headerRequest "BearerX 1.1.secret extra")
             Demo.amyWorld
     = protect Demo.libs (M := Demo.model) (Demo.envAt 2000 true)
               (Demo.bearerRequest "1.1.secret") Demo.amyWorld.
Proof.
  apply (@protect_tests_scheme_by_prefix Demo.libs Demo.model
           (Demo.envAt 2000 true)
           (Demo.headerRequest "BearerX 1.1.secret extra")
           (Demo.bearerRequest "1.1.secret") Demo.amyWorld
           "X" "1.1.secret" " extra");
    try reflexivity.
  right. exists "extra". reflexivity.
Defined.

(** ** [login], and what the middleware leaves alone *)

Section Readers.

Variable L : Libs.
Context {M : UserModel}.
Variable env : Env.

Lemma login_reads (req : Req.Request) (w : World) :
  snd (login L env req w) = w.
Proof.
  unfold login, catchAsync, bind, findOne, ret.
  destruct (negb (JS.truthy (Req.email (Req.body req)))
            || negb (JS.truthy (Req.password (Req.body req))));
    [reflexivity|].
  destruct (find (matches (ByEmail (Req.email (Req.body req))))
                 (users w)) as [u|]; [|reflexivity].
  cbn [option_map]. cbv beta iota.
  destruct (negb (correctPassword (Req.password (Req.body req))
                                  (password (fields (loaded u)))));
    reflexivity.
Qed.

Lemma protect_reads (req : Req.Request) (w : World) :
  snd (protect L env req w) = w.
Proof.
  unfold protect, catchAsync, bind, verify, findById, ret, raise.
  destruct (bearerToken req) as [token|]; [|reflexivity].
  destruct (negb (JS.truthy (Some token))); [reflexivity|].
  destruct (jwt_verify L token (JWT_SECRET (config env)) (now env))
    as [decoded|]; [|reflexivity].
  cbv beta iota.
  destruct (find (fun v => _id v =? id decoded) (users w)) as [u|];
    [|reflexivity].
  cbn [option_map]. cbv beta iota.
  destruct (passwordChangedAfter (fields (loaded u)) (iat decoded));
    reflexivity.
Qed.

Lemma restrictTo_reads (roles : list string) (req : Req.Request)
    (w : World) :
  snd (restrictTo roles req w) = w.
Proof.
  unfold restrictTo.
  destruct (Req.user req) as [d|]; [|reflexivity].
  destruct (role (fields d)) as [r|]; [|reflexivity].
  destruct (existsb (String.eqb r) roles); reflexivity.
Qed.

(** [login], [protect] and [restrictTo] only read: whatever the request
    and whatever they answer, the collection, the outbox and the
    identifier counter are as before. *)
Theorem login_protect_restrictTo_only_read (req : Req.Request)
    (w : World) :
  snd (login L env req w) = w
  /\ snd (protect L env req w) = w
  /\ forall roles, snd (restrictTo roles req w) = w.
Proof.
  split; [apply login_reads | split; [apply protect_reads |]].
  intros roles. apply restrictTo_reads.
Qed.

(** [login] for a request with an email and a password, when the lookup
    finds a user. *)
Lemma login_found (req : Req.Request) (w : World) (e p : string)
    (u : User) :
  Req.email (Req.body req) = Some e -> e <> "" ->
  Req.password (Req.body req) = Some p -> p <> "" ->
  find (matches (ByEmail (Some e))) (users w) = Some u ->
  login L env req w
  = (if correctPassword (Some p) (password u)
     then createAndSendToken L env (loaded u) 200
     else NextError (AppError "Incorrect email or password!" (Some 401))
                    None, w).
Proof.
  intros Hemail Hne Hpassword Hnp Hfind.
  unfold login, catchAsync, bind, findOne, ret.
  rewrite Hemail, Hpassword, !truthy_nonempty by assumption.
  cbn [negb orb]. cbv beta iota. rewrite Hfind.
  cbn [option_map]. cbv beta iota.
  change (password (fields (loaded u))) with (password u).
  destruct (correctPassword (Some p) (password u)); reflexivity.
Qed.

(** [login] answers with a session exactly when the body holds an email
    and a password that are not empty, the lookup by that email finds a
    stored user, and the hash comparison accepts the password for that
    user; the session is then the one of that user, with status 200. *)
Theorem login_answers_iff (req : Req.Request) (w w' : World)
    (r : Response) :
  login L env req w = (Sent r, w')
  <-> exists e p u,
        Req.email (Req.body req) = Some e /\ e <> ""
        /\ Req.password (Req.body req) = Some p /\ p <> ""
        /\ find (matches (ByEmail (Some e))) (users w) = Some u
        /\ correctPassword (Some p) (password u) = true
        /\ w' = w
        /\ Sent r = createAndSendToken L env (loaded u) 200.
Proof.
  split.
  - intros Hrun. unfold login, catchAsync, bind, findOne, ret in Hrun.
    destruct (JS.truthy (Req.email (Req.body req))) eqn:He;
      [|discriminate].
    destruct (JS.truthy (Req.password (Req.body req))) eqn:Hp;
      [|discriminate].
    cbn [negb orb] in Hrun. cbv beta iota in Hrun.
    destruct (truthy_some _ He) as (e & Hemail & Hne).
    destruct (truthy_some _ Hp) as (p & Hpassword & Hnp).
    rewrite Hemail, Hpassword in Hrun.
    destruct (find (matches (ByEmail (Some e))) (users w)) as [u|] eqn:Hfind;
      [|discriminate].
    cbn [option_map] in Hrun. cbv beta iota in Hrun.
    change (password (fields (loaded u))) with (password u) in Hrun.
    destruct (correctPassword (Some p) (password u)) eqn:Hcorrect;
      [|discriminate].
    cbn [negb] in Hrun. cbv beta iota in Hrun.
    pose proof (f_equal snd Hrun) as Hw. cbn [snd] in Hw. subst w'.
    pose proof (f_equal fst Hrun) as Hr. cbn [fst] in Hr.
    exists e, p, u.
    repeat (split; [assumption || reflexivity|]).
    symmetry. exact Hr.
  - intros (e & p & u & Hemail & Hne & Hpassword & Hnp & Hfind & Hcorrect
            & -> & Hsent).
    rewrite (login_found req w e p u Hemail Hne Hpassword Hnp Hfind).
    rewrite Hcorrect, Hsent. reflexivity.
Qed.

(** What a session answer looks like, whichever of the four endpoints
    sent it: status 201 from [signup] and 200 from the others; one
    cookie, named [jwt], [httpOnly], [secure] in production only, which
    expires [JWT_COOKIE_EXPIRES_IN] days after the clock; the cookie and
    the body carry the same token, signed for the identifier of the
    user that the body shows. *)
Theorem session_envelope (e : Endpoint) (req : Req.Request)
    (w w' : World) (r : Response) :
  endpoint L env e req w = (Sent r, w') ->
  statusCode r = match e with Signup => 201 | _ => 200 end
  /\ exists i user,
       cookies r
       = [mkCookie "jwt" (signToken L env i)
                   (now env
                    + JWT_COOKIE_EXPIRES_IN (config env)
                      * 24 * 60 * 60 * 1000)
                   true
                   (String.eqb (NODE_ENV (config env)) "production")]
       /\ json r = SessionBody "success" (signToken L env i) user
       /\ In ("_id", JNumber i) user.
Proof.
  assert (Hsent : forall d code,
             createAndSendToken L env d code = Sent r ->
             statusCode r = code
             /\ exists i user,
                  cookies r
                  = [mkCookie "jwt" (signToken L env i)
                              (now env
                               + JWT_COOKIE_EXPIRES_IN (config env)
                                 * 24 * 60 * 60 * 1000)
                              true
                              (String.eqb (NODE_ENV (config env))
                                          "production")]
                  /\ json r = SessionBody "success" (signToken L env i) user
                  /\ In ("_id", JNumber i) user).
  { intros d code H. rewrite createAndSendToken_sent in H.
    inversion H; subst r. split; [reflexivity|].
    exists (_id (fields d)), (toJSON (set_password None (fields d))).
    split; [reflexivity|]. split; [reflexivity|]. left. reflexivity. }
  destruct e; simpl; intros H.
  - rewrite signup_run in H. split_run H.
    exact (Hsent _ _ (f_equal fst H)).
  - unfold login, catchAsync, bind, findOne, ret in H. split_run H.
    exact (Hsent _ _ (f_equal fst H)).
  - unfold resetPassword, catchAsync, bind, findOne, ret in H.
    split_run H. exact (Hsent _ _ (f_equal fst H)).
  - unfold updatePassword, catchAsync, bind, findById, ret, raise in H.
    split_run H. exact (Hsent _ _ (f_equal fst H)).
Qed.

End Readers.

(** Amy logs in at time 2000. *)
Lemma login_answers_iff_witness :
  login Demo.libs (M := Demo.model) (Demo.envAt 2000 true)
        (Demo.loginRequest (Some "amy@x.com") (Some "password1"))
        Demo.amyWorld
  = (Sent (Demo.sent (fst Demo.afterLogin)), Demo.amyWorld).
Proof.
  apply (proj2 (@login_answers_iff Demo.libs Demo.model
                  (Demo.envAt 2000 true)
                  (Demo.loginRequest (Some "amy@x.com")
                                     (Some "password1"))
                  Demo.amyWorld Demo.amyWorld
                  (Demo.sent (fst Demo.afterLogin)))).
  exists "amy@x.com", "password1", Demo.amy.
  repeat split; try discriminate; vm_compute; reflexivity.
Defined.

Lemma session_envelope_witness :
  statusCode (Demo.sent (fst Demo.afterLogin)) = 200
  /\ exists i user,
       cookies (Demo.sent (fst Demo.afterLogin))
       = [mkCookie "jwt" (signToken Demo.libs (Demo.envAt 2000 true) i)
                   (2000 + 90 * 24 * 60 * 60 * 1000) true false]
       /\ json (Demo.sent (fst Demo.afterLogin))
          = SessionBody "success"
              (signToken Demo.libs (Demo.envAt 2000 true) i) user
       /\ In ("_id", JNumber i) user.
Proof.
  assert (Hrun : endpoint Demo.libs (M := Demo.model)
                   (Demo.envAt 2000 true) Login
                   (Demo.loginRequest (Some "amy@x.com")
                                      (Some "password1"))
                   Demo.amyWorld
                 = (Sent (Demo.sent (fst Demo.afterLogin)), Demo.amyWorld))
    by (vm_compute; reflexivity).
  exact (@session_envelope Demo.libs Demo.model (Demo.envAt 2000 true)
           Login _ _ _ _ Hrun).
Defined.

(** ** The schema, and what [signup] stores *)

Lemma sameValue_eq (a b : option string) : sameValue a b = true <-> a = b.
Proof.
  destruct a as [x|], b as [y|]; simpl; split; intros H;
    try discriminate; try reflexivity.
  - apply String.eqb_eq in H. now subst.
  - inversion H. apply String.eqb_refl.
Qed.

Lemma emailTaken_false (e : option string) (us : list User) :
  emailTaken e us = false <-> ~ In e (map email us).
Proof.
  unfold emailTaken. split.
  - intros H Hin. apply in_map_iff in Hin as [v [Hv Hin]].
    assert (Htrue : existsb (fun v => sameValue (email v) e) us = true).
    { apply existsb_exists. exists v. split; [exact Hin|].
      now apply sameValue_eq. }
    congruence.
  - intros H. apply not_true_is_false. intros Htrue.
    apply existsb_exists in Htrue as [v [Hin Hv]].
    apply sameValue_eq in Hv. apply H. apply in_map_iff. eauto.
Qed.

Section Schema.

Variable L : Libs.

(** What a document that passes the schema holds. *)
Lemma validateSync_passed (u : User) :
  validateSync L u = [] ->
  (exists n, name u = Some n /\ n <> "")
  /\ (exists e, email u = Some e /\ e <> "" /\ isEmail L e = true)
  /\ (exists p, password u = Some p /\ (8 <= String.length p)%nat)
  /\ (exists c, passwordConfirm u = Some c /\ c <> "").
Proof.
  intros H.
  assert (Hpath : forall t, In t (userSchema L) -> validatePath t u = [])
    by (intros t Ht; exact (flat_map_nil _ _ _ _ H t Ht)).
  assert (Hname := Hpath namePath (or_introl eq_refl)).
  assert (Hemail := Hpath (emailPath L) (or_intror (or_introl eq_refl))).
  assert (Hconfirm : validatePath passwordConfirmPath u = [])
    by (apply Hpath; unfold userSchema; simpl; tauto).
  destruct (validateSync_nil_password L u H) as (p & Hp & _ & Hlen).
  unfold validatePath, checkValue, checkMinlength, missing in *.
  simpl in Hname, Hemail, Hconfirm.
  destruct (JS.truthy (name u)) eqn:Tn; [|discriminate].
  destruct (JS.truthy (email u)) eqn:Te; [|discriminate].
  destruct (JS.truthy (passwordConfirm u)) eqn:Tc; [|discriminate].
  destruct (truthy_some _ Tn) as (n & Hn & Hn').
  destruct (truthy_some _ Te) as (e & He & He').
  destruct (truthy_some _ Tc) as (c & Hc & Hc').
  rewrite He in Hemail. simpl in Hemail.
  destruct (isEmail L e) eqn:Hmail; [|discriminate].
  repeat split; eauto.
Qed.

(** The schema accepts a document exactly when its name is not empty,
    its email is not empty and passes [isEmail], its password has eight
    characters or more, and its confirmation is not empty.  The photo is
    not looked at, and the confirmation is not compared with the
    password. *)
Theorem validateSync_accepts_iff (u : User) :
  validateSync L u = []
  <-> (exists n, name u = Some n /\ n <> "")
      /\ (exists e, email u = Some e /\ e <> "" /\ isEmail L e = true)
      /\ (exists p, password u = Some p /\ (8 <= String.length p)%nat)
      /\ (exists c, passwordConfirm u = Some c /\ c <> "").
Proof.
  split; [apply validateSync_passed|].
  intros ((n & Hn & Hn') & (e & He & He' & Hmail) & (p & Hp & Hlen)
          & (c & Hc & Hc')).
  exact (validateSync_nil L u n e p c Hn Hn' He He' Hmail Hp Hlen Hc Hc').
Qed.

End Schema.

Lemma validateSync_accepts_iff_witness :
  validateSync Demo.libs (signupObject Demo.mismatchBody) = [].
Proof.
  apply (proj2 (validateSync_accepts_iff Demo.libs
                  (signupObject Demo.mismatchBody))).
  split; [exists "Amy"; split; [reflexivity | discriminate]|].
  split; [exists "amy@x.com"; repeat split; discriminate|].
  split; [exists "password1"; split; [reflexivity | simpl; lia]|].
  exists "password2". split; [reflexivity | discriminate].
Defined.

Lemma replace_ids (i : Z) (u' : User) (us : list User) :
  _id u' = i -> map _id (replace i u' us) = map _id us.
Proof.
  intros Hid. unfold replace. rewrite map_map. apply map_ext_in.
  intros v _. destruct (_id v =? i) eqn:E; [|reflexivity].
  apply Z.eqb_eq in E. congruence.
Qed.

Lemma replace_emails (i : Z) (u' : User) (us : list User) :
  (forall v, In v us -> _id v = i -> email v = email u') ->
  map email (replace i u' us) = map email us.
Proof.
  intros H. unfold replace. rewrite map_map. apply map_ext_in.
  intros v Hin. destruct (_id v =? i) eqn:E; [|reflexivity].
  apply Z.eqb_eq in E. symmetry. exact (H v Hin E).
Qed.

Lemma distinct_ids_unique (us : list User) (u v : User) :
  NoDup (map _id us) -> In u us -> In v us -> _id u = _id v -> u = v.
Proof.
  induction us as [|x us IH]; simpl; intros Hnodup Hu Hv Hid;
    [contradiction|].
  apply NoDup_cons_iff in Hnodup as [Hx Hnodup].
  destruct Hu as [->|Hu], Hv as [->|Hv].
  - reflexivity.
  - exfalso. apply Hx. rewrite Hid. now apply in_map.
  - exfalso. apply Hx. rewrite <- Hid. now apply in_map.
  - exact (IH Hnodup Hu Hv Hid).
Qed.

Lemma sameKeys_refl (w : World) : sameKeys w w.
Proof. repeat split. Qed.

Lemma sameKeys_consistent (w w' : World) :
  sameKeys w w' -> Consistent w -> Consistent w'.
Proof.
  intros (Hids & Hemails & Hnext) [H1 H2 H3].
  constructor; rewrite ?Hids, ?Hemails, ?Hnext; assumption.
Qed.

Section Keys.

Variable L : Libs.
Context {M : UserModel}.
Variable env : Env.
Hypothesis lawful : Lawful M.

(** What [signup] stores: the document of the request under the next
    identifier, with the email folded to lower case and no pending
    reset, at the end of the collection; the email was held by no stored
    user, and no mail is sent. *)
Theorem signup_stores_folded_email (req : Req.Request) (w w' : World)
    (r : Response) :
  signup L env req w = (Sent r, w') ->
  exists u,
    users w' = (users w ++ [u])%list
    /\ _id u = nextId w
    /\ email u = option_map (toLowerCase L) (Req.email (Req.body req))
    /\ ~ In (email u) (map email (users w))
    /\ passwordResetToken u = None
    /\ passwordResetExpires u = None
    /\ nextId w' = nextId w + 1
    /\ outbox w' = outbox w.
Proof.
  intros Hrun. rewrite signup_run in Hrun.
  set (d := newDocument L (nextId w) (signupObject (Req.body req))).
  destruct (validateSync L (fields d)) as [|f fs] eqn:Hvalid.
  - rewrite (create_valid L env _ w Hvalid) in Hrun. cbv zeta in Hrun.
    fold d in Hrun.
    destruct (emailTaken (email (preSave (now env) d)) (users w))
      eqn:Htaken; [discriminate|].
    pose proof (f_equal snd Hrun) as Hw. cbn [snd] in Hw. subst w'.
    exists (preSave (now env) d). cbn [users outbox nextId].
    split; [reflexivity|].
    split; [rewrite (preSave_id M lawful); reflexivity|].
    split; [rewrite (preSave_email M lawful); reflexivity|].
    split; [now apply emailTaken_false|].
    split; [rewrite (preSave_resetToken M lawful); reflexivity|].
    split; [rewrite (preSave_resetExpires M lawful); reflexivity|].
    split; reflexivity.
  - rewrite (create_invalid L env _ w f fs Hvalid) in Hrun. discriminate.
Qed.

End Keys.

(** A signup that spells its email [Amy@X.COM]. *)
Lemma signup_stores_folded_email_witness :
  exists u,
    users (snd Demo.afterCapitalsSignup)
    = (users Demo.emptyWorld ++ [u])%list
    /\ _id u = nextId Demo.emptyWorld
    /\ email u = Some "amy@x.com"
    /\ ~ In (email u) (map email (users Demo.emptyWorld))
    /\ passwordResetToken u = None
    /\ passwordResetExpires u = None
    /\ nextId (snd Demo.afterCapitalsSignup)
       = nextId Demo.emptyWorld + 1
    /\ outbox (snd Demo.afterCapitalsSignup) = outbox Demo.emptyWorld.
Proof.
  assert (Hrun : signup Demo.libs (M := Demo.model) (Demo.envAt 1000 true)
                   (Demo.request Demo.capitalsBody) Demo.emptyWorld
                 = (Sent (Demo.sent (fst Demo.afterCapitalsSignup)),
                    snd Demo.afterCapitalsSignup))
    by (vm_compute; reflexivity).
  exact (@signup_stores_folded_email Demo.libs Demo.model
           (Demo.envAt 1000 true)
           (specModel_lawful Demo.libs Demo.hash Demo.compare)
           _ _ _ _ Hrun).
Defined.

(** ** The keys of the collection *)

Section Invariant.

Variable L : Libs.
Context {M : UserModel}.
Variable env : Env.
Hypothesis lawful : Lawful M.

(** [forgotPassword] for a stored user: the pending reset is stored,
    and then the mail goes out or the reset is taken back. *)
Lemma forgotPassword_found (req : Req.Request) (w : World) (u : User) :
  find (matches (ByEmail (Req.email (Req.body req)))) (users w) = Some u ->
  let u1 := preSave (now env) (snd (pendingReset env u)) in
  let u3 :=
    preSave (now env)
      (assign PPasswordResetExpires (set_passwordResetExpires None)
         (assign PPasswordResetToken (set_passwordResetToken None)
            (loaded u1))) in
  forgotPassword L env req w
  = if delivers env (resetMail env req u)
    then (Sent (mkResponse 200 []
                  (MessageBody "success" "Token sent to email!")),
          mkWorld (replace (_id u) u1 (users w))
                  (resetMail env req u :: outbox w) (nextId w))
    else (NextError
            (AppError
               "There was an error sending the email. Try again later "
               None)
            (Some 500),
          mkWorld (replace (_id u) u3 (replace (_id u) u1 (users w)))
                  (outbox w) (nextId w)).
Proof.
  intros Hfind. unfold resetMail, pendingReset.
  pose proof (reset_id M lawful (randomBytes env) (now env) (loaded u))
    as Hid1.
  pose proof (reset_email M lawful (randomBytes env) (now env) (loaded u))
    as Hmail1.
  pose proof (reset_isNew M lawful (randomBytes env) (now env) (loaded u))
    as Hnew1.
  destruct (createPasswordResetToken (randomBytes env) (now env)
                                     (loaded u)) as [resetToken d1] eqn:E.
  cbn [fst snd] in *. cbn [fields loaded isNew] in Hid1, Hnew1.
  change (isModified PEmail (loaded u)) with false in Hmail1.
  set (u1 := preSave (now env) d1).
  assert (Hid_u1 : _id u1 = _id u)
    by (unfold u1; rewrite (preSave_id M lawful); exact Hid1).
  unfold forgotPassword, catchAsync, bind, findOne. rewrite Hfind.
  cbn [option_map]. cbv beta iota. rewrite E.
  rewrite (save_loaded L env false d1 w Hnew1 Hmail1).
  cbv beta iota. fold u1.
  unfold tryCatch, bind, sendEmail.
  cbn [fields loaded users outbox nextId].
  destruct (delivers env
              (mkEmail (email u1)
                 "Your password resetToken (valid for 10 minutes)"
                 (resetMessage (resetURL req resetToken)))).
  - cbv beta iota. unfold ret. rewrite Hid1. reflexivity.
  - cbv beta iota zeta.
    match goal with
    | |- context [save L env false ?doc ?world] =>
        rewrite (save_loaded L env false doc world eq_refl eq_refl)
    end.
    cbv beta iota. cbn [users outbox nextId]. unfold ret.
    match goal with
    | |- context [replace (_id (fields ?doc)) _ (replace _ _ _)] =>
        change (_id (fields doc)) with (_id u1)
    end.
    rewrite Hid1, Hid_u1. reflexivity.
Qed.

(** [updatePassword] for a stored user whose current password is
    accepted. *)
Lemma updatePassword_found (req : Req.Request) (w : World)
    (reqUser : Doc) (u : User) :
  Req.user req = Some reqUser ->
  find (fun v => _id v =? _id (fields reqUser)) (users w) = Some u ->
  correctPassword (Req.passwordCurrent (Req.body req)) (password u)
  = true ->
  let d := updateDocument req u in
  updatePassword L env req w
  = match validateSync L (fields d) with
    | f :: fs => (NextError (ValidationError (f :: fs)) None, w)
    | [] =>
        (createAndSendToken L env (loaded (preSave (now env) d)) 200,
         mkWorld (replace (_id u) (preSave (now env) d) (users w))
                 (outbox w) (nextId w))
    end.
Proof.
  intros Huser Hfind Hcorrect d.
  unfold updatePassword, catchAsync, bind, findById, raise.
  rewrite Huser. cbv beta iota. rewrite Hfind.
  cbn [option_map]. cbv beta iota.
  change (password (fields (loaded u))) with (password u).
  rewrite Hcorrect. cbn [negb]. cbv beta iota zeta.
  match goal with
  | |- context [save L env true ?doc w] => change doc with d
  end.
  rewrite (save_loaded L env true d w eq_refl eq_refl). cbv iota.
  destruct (validateSync L (fields d)) as [|f fs]; reflexivity.
Qed.

Hypothesis keepsEmail : ResetKeepsEmail M.

Lemma forgotPassword_keeps_keys (req : Req.Request) (w : World) :
  NoDup (map _id (users w)) ->
  sameKeys w (snd (forgotPassword L env req w)).
Proof.
  intros Hnodup.
  destruct (find (matches (ByEmail (Req.email (Req.body req)))) (users w))
    as [u|] eqn:Hfind.
  - rewrite (forgotPassword_found req w u Hfind). cbv zeta.
    set (u1 := preSave (now env) (snd (pendingReset env u))).
    assert (Hid1 : _id u1 = _id u).
    { unfold u1, pendingReset.
      rewrite (preSave_id M lawful), (reset_id M lawful). reflexivity. }
    assert (Hmail1 : email u1 = email u).
    { unfold u1, pendingReset.
      rewrite (preSave_email M lawful), keepsEmail. reflexivity. }
    apply find_some in Hfind as [Hin _].
    assert (Hstep : map _id (replace (_id u) u1 (users w))
                    = map _id (users w)
                    /\ map email (replace (_id u) u1 (users w))
                       = map email (users w)).
    { split; [apply replace_ids; exact Hid1|].
      apply replace_emails. intros v Hv Hid.
      rewrite Hmail1. f_equal.
      exact (distinct_ids_unique _ v u Hnodup Hv Hin Hid). }
    destruct Hstep as [Hids Hemails].
    destruct (delivers env (resetMail env req u)); cbn [snd];
      unfold sameKeys; cbn [users nextId].
    + repeat split; assumption.
    + split; [|split; [|reflexivity]].
      * rewrite replace_ids; [exact Hids|].
        rewrite (preSave_id M lawful). exact Hid1.
      * rewrite replace_emails; [exact Hemails|].
        intros v Hv Hid. rewrite (preSave_email M lawful).
        apply in_replace in Hv as [->|[_ Hne]];
          [reflexivity | contradiction].
  - unfold forgotPassword, catchAsync, bind, findOne. rewrite Hfind.
    apply sameKeys_refl.
Qed.

Lemma resetPassword_keeps_keys (req : Req.Request) (w : World) :
  NoDup (map _id (users w)) ->
  sameKeys w (snd (resetPassword L env req w)).
Proof.
  intros Hnodup.
  destruct (find (matches (ByResetToken (sha256hex L (Req.token req))
                                        (now env))) (users w))
    as [u|] eqn:Hfind.
  - rewrite (resetPassword_found L env req w u Hfind). cbv zeta.
    destruct (validateSync L (fields (resetDocument req u)));
      [|apply sameKeys_refl].
    apply find_some in Hfind as [Hin _].
    cbn [snd]. unfold sameKeys. cbn [users nextId].
    split; [|split; [|reflexivity]].
    + apply replace_ids. rewrite (preSave_id M lawful). reflexivity.
    + apply replace_emails. intros v Hv Hid.
      rewrite (preSave_email M lawful).
      change (email (fields (resetDocument req u))) with (email u).
      f_equal. exact (distinct_ids_unique _ v u Hnodup Hv Hin Hid).
  - unfold resetPassword, catchAsync, bind, findOne. rewrite Hfind.
    apply sameKeys_refl.
Qed.

Lemma updatePassword_keeps_keys (req : Req.Request) (w : World) :
  NoDup (map _id (users w)) ->
  sameKeys w (snd (updatePassword L env req w)).
Proof.
  intros Hnodup.
  destruct (Req.user req) as [reqUser|] eqn:Huser.
  - destruct (find (fun v => _id v =? _id (fields reqUser)) (users w))
      as [u|] eqn:Hfind.
    + destruct (correctPassword (Req.passwordCurrent (Req.body req))
                                (password u)) eqn:Hcorrect.
      * rewrite (updatePassword_found req w reqUser u Huser Hfind
                   Hcorrect).
        cbv zeta.
        destruct (validateSync L (fields (updateDocument req u)));
          [|apply sameKeys_refl].
        apply find_some in Hfind as [Hin _].
        cbn [snd]. unfold sameKeys. cbn [users nextId].
        split; [|split; [|reflexivity]].
        -- apply replace_ids. rewrite (preSave_id M lawful). reflexivity.
        -- apply replace_emails. intros v Hv Hid.
           rewrite (preSave_email M lawful).
           change (email (fields (updateDocument req u))) with (email u).
           f_equal. exact (distinct_ids_unique _ v u Hnodup Hv Hin Hid).
      * unfold updatePassword, catchAsync, bind, findById.
        rewrite Huser. cbv beta iota. rewrite Hfind.
        cbn [option_map]. cbv beta iota.
        change (password (fields (loaded u))) with (password u).
        rewrite Hcorrect. apply sameKeys_refl.
    + unfold updatePassword, catchAsync, bind, findById, raise.
      rewrite Huser. cbv beta iota. rewrite Hfind. apply sameKeys_refl.
  - unfold updatePassword, catchAsync, raise. rewrite Huser.
    apply sameKeys_refl.
Qed.

(** Only [signup] adds a user or changes an email: every other handler
    of the controller, on every request, leaves the identifiers and the
    emails of the collection and the identifier counter as they were.
    (The save middleware keeps [_id] and [email], and so does
    [createPasswordResetToken]; the identifiers are distinct.) *)
Theorem only_signup_changes_the_keys (r : Route) (req : Req.Request)
    (w : World) :
  NoDup (map _id (users w)) ->
  signsUp r = false ->
  sameKeys w (snd (route L env r req w)).
Proof.
  intros Hnodup Hr. destruct r; try discriminate; simpl.
  - rewrite login_reads. apply sameKeys_refl.
  - rewrite protect_reads. apply sameKeys_refl.
  - rewrite restrictTo_reads. apply sameKeys_refl.
  - exact (forgotPassword_keeps_keys req w Hnodup).
  - exact (resetPassword_keeps_keys req w Hnodup).
  - exact (updatePassword_keeps_keys req w Hnodup).
Qed.

Lemma signup_keeps_consistent (req : Req.Request) (w : World) :
  Consistent w -> Consistent (snd (signup L env req w)).
Proof.
  intros [Hids Hemails Hgiven]. rewrite signup_run.
  set (d := newDocument L (nextId w) (signupObject (Req.body req))).
  assert (Hfailed : Consistent (mkWorld (users w) (outbox w)
                                        (nextId w + 1))).
  { constructor; cbn [users nextId]; try assumption.
    intros i Hi. specialize (Hgiven i Hi). lia. }
  destruct (validateSync L (fields d)) as [|f fs] eqn:Hvalid.
  - rewrite (create_valid L env _ w Hvalid). cbv zeta. fold d.
    destruct (emailTaken (email (preSave (now env) d)) (users w))
      eqn:Htaken; cbn [snd]; [exact Hfailed|].
    assert (Hid : _id (preSave (now env) d) = nextId w)
      by (rewrite (preSave_id M lawful); reflexivity).
    constructor; cbn [users nextId]; rewrite map_app; simpl.
    + apply NoDup_app; [exact Hids | repeat constructor; intros [] |].
      intros i Hi [<-|[]]. specialize (Hgiven _ Hi). lia.
    + apply NoDup_app; [exact Hemails | repeat constructor; intros [] |].
      intros e He [<-|[]]. apply emailTaken_false in Htaken. contradiction.
    + intros i Hi. apply in_app_or in Hi as [Hi|[<-|[]]].
      * specialize (Hgiven i Hi). lia.
      * lia.
  - rewrite (create_invalid L env _ w f fs Hvalid). exact Hfailed.
Qed.

(** The controller keeps the collection consistent: after any handler,
    on any request, no two stored users share an identifier or an
    email, and the identifier counter is above every stored identifier,
    if that was so before. *)
Theorem controller_keeps_collection_consistent (r : Route)
    (req : Req.Request) (w : World) :
  Consistent w -> Consistent (snd (route L env r req w)).
Proof.
  intros Hw.
  assert (Hkeys : forall h : Handler,
             sameKeys w (snd (h req w)) -> Consistent (snd (h req w)))
    by (intros h Hh; exact (sameKeys_consistent _ _ Hh Hw)).
  pose proof (distinct_ids _ Hw) as Hnodup.
  destruct r; simpl.
  - exact (signup_keeps_consistent req w Hw).
  - rewrite login_reads. exact Hw.
  - rewrite protect_reads. exact Hw.
  - rewrite restrictTo_reads. exact Hw.
  - apply Hkeys. exact (forgotPassword_keeps_keys req w Hnodup).
  - apply Hkeys. exact (resetPassword_keeps_keys req w Hnodup).
  - apply Hkeys. exact (updatePassword_keeps_keys req w Hnodup).
Qed.

End Invariant.

Lemma amyWorld_consistent : Consistent Demo.amyWorld.
Proof.
  constructor.
  - vm_compute. constructor; [intros [] | constructor].
  - vm_compute. constructor; [intros [] | constructor].
  - vm_compute. intros i [<-|[]]. reflexivity.
Qed.

(** Amy changes her password. *)
Lemma only_signup_changes_the_keys_witness :
  sameKeys Demo.amyWorld
    (snd (route Demo.libs (M := Demo.model) (Demo.envAt 6000 true)
            RUpdatePassword Demo.updateRequest Demo.amyWorld)).
Proof.
  exact (@only_signup_changes_the_keys Demo.libs Demo.model
           (Demo.envAt 6000 true)
           (specModel_lawful Demo.libs Demo.hash Demo.compare)
           (specModel_keeps_email Demo.libs Demo.hash Demo.compare)
           RUpdatePassword Demo.updateRequest Demo.amyWorld
           (distinct_ids _ amyWorld_consistent) eq_refl).
Defined.

(** Eve signs up after Amy. *)
Lemma controller_keeps_collection_consistent_witness :
  Consistent
    (snd (route Demo.libs (M := Demo.model) (Demo.envAt 2000 true)
            RSignup (Demo.request Demo.adminBody) Demo.amyWorld)).
Proof.
  exact (@controller_keeps_collection_consistent Demo.libs Demo.model
           (Demo.envAt 2000 true)
           (specModel_lawful Demo.libs Demo.hash Demo.compare)
           (specModel_keeps_email Demo.libs Demo.hash Demo.compare)
           RSignup (Demo.request Demo.adminBody) Demo.amyWorld
           amyWorld_consistent).
Defined.

(** ** The reset flow, from the mail to the new password *)

Lemma find_replaced (f : User -> bool) (i : Z) (u' : User)
    (us : list User) :
  f u' = true ->
  (exists v, In v us /\ _id v = i) ->
  (forall v, In v us -> _id v <> i -> f v = false) ->
  find f (replace i u' us) = Some u'.
Proof.
  intros Hu' [x [Hx Hid]] Hothers.
  induction us as [|v us IH]; simpl in *; [contradiction|].
  destruct (_id v =? i) eqn:E.
  - rewrite Hu'. reflexivity.
  - apply Z.eqb_neq in E.
    rewrite (Hothers v (or_introl eq_refl) E).
    destruct Hx as [->|Hx]; [contradiction|].
    apply IH; [exact Hx|]. intros y Hy. apply Hothers. now right.
Qed.

Lemma find_nothing (A : Type) (f : A -> bool) (l : list A) :
  (forall x, In x l -> f x = false) -> find f l = None.
Proof.
  intros H. destruct (find f l) as [x|] eqn:E; [|reflexivity].
  apply find_some in E as [Hin Hx]. rewrite (H x Hin) in Hx.
  discriminate.
Qed.

Section Reset.

Variable L : Libs.
Context {M : UserModel}.
Variable env : Env.
Hypothesis lawful : Lawful M.

(** [forgotPassword] answers exactly when the lookup by the email of
    the body finds a stored user and the mail for that user is
    delivered.  The answer is the fixed message, with no cookie and no
    token; the token is in the mail only, and the collection holds what
    the save middleware made of the document that
    [createPasswordResetToken] left. *)
Theorem forgotPassword_answers_iff (req : Req.Request) (w w' : World)
    (r : Response) :
  forgotPassword L env req w = (Sent r, w')
  <-> exists u,
        find (matches (ByEmail (Req.email (Req.body req)))) (users w)
        = Some u
        /\ delivers env (resetMail env req u) = true
        /\ r = mkResponse 200 []
                 (MessageBody "success" "Token sent to email!")
        /\ w' = mkWorld
                  (replace (_id u)
                     (preSave (now env) (snd (pendingReset env u)))
                     (users w))
                  (resetMail env req u :: outbox w) (nextId w).
Proof.
  split.
  - intros Hrun.
    destruct (find (matches (ByEmail (Req.email (Req.body req))))
                   (users w)) as [u|] eqn:Hfind.
    + rewrite (forgotPassword_found L env lawful req w u Hfind) in Hrun.
      cbv zeta in Hrun.
      destruct (delivers env (resetMail env req u)) eqn:Hsent;
        [|discriminate].
      inversion Hrun. exists u. repeat split. exact Hsent.
    + unfold forgotPassword, catchAsync, bind, findOne, ret in Hrun.
      rewrite Hfind in Hrun. discriminate.
  - intros (u & Hfind & Hsent & -> & ->).
    rewrite (forgotPassword_found L env lawful req w u Hfind).
    cbv zeta. rewrite Hsent. reflexivity.
Qed.

(** A reset token is spent by its use: when [resetPassword] has
    answered for a token, the same token is refused afterwards, at any
    time and with any body, if the stored documents that held its digest
    were documents of one identifier. *)
Theorem reset_token_is_single_use (env' : Env) (req req' : Req.Request)
    (w w' : World) (r : Response) :
  (forall v1 v2,
     In v1 (users w) -> In v2 (users w) ->
     passwordResetToken v1 = Some (sha256hex L (Req.token req)) ->
     passwordResetToken v2 = Some (sha256hex L (Req.token req)) ->
     _id v1 = _id v2) ->
  resetPassword L env req w = (Sent r, w') ->
  Req.token req' = Req.token req ->
  resetPassword L env' req' w'
  = (NextError (AppError "token is invalid or has expired" None)
               (Some 400), w').
Proof.
  intros Hone Hrun Htoken.
  set (hashed := sha256hex L (Req.token req)) in *.
  destruct (find (matches (ByResetToken hashed (now env))) (users w))
    as [u|] eqn:Hfind.
  - rewrite (resetPassword_found L env req w u Hfind) in Hrun.
    cbv zeta in Hrun.
    destruct (validateSync L (fields (resetDocument req u)));
      [|discriminate].
    pose proof (f_equal snd Hrun) as Hw. cbn [snd] in Hw. subst w'.
    clear Hrun. apply find_some in Hfind as [Hin Hm]. simpl in Hm.
    destruct (passwordResetToken u) as [h|] eqn:Hu; [|discriminate].
    destruct (passwordResetExpires u); [|discriminate].
    apply andb_true_iff in Hm as [Hh _]. apply String.eqb_eq in Hh.
    subst h.
    unfold resetPassword, catchAsync, bind, findOne.
    rewrite Htoken. fold hashed. cbn [users].
    rewrite find_nothing; [reflexivity|].
    intros v Hv. apply in_replace in Hv as [->|[Hv Hne]]; simpl.
    + rewrite (preSave_resetToken M lawful). reflexivity.
    + destruct (passwordResetToken v) as [h|] eqn:Hv'; [|reflexivity].
      destruct (passwordResetExpires v); [|reflexivity].
      destruct (String.eqb_spec h hashed) as [->|]; [|reflexivity].
      exfalso. apply Hne. exact (Hone v u Hv Hin Hv' Hu).
  - unfold resetPassword, catchAsync, bind, findOne, ret in Hrun.
    fold hashed in Hrun. rewrite Hfind in Hrun. discriminate.
Qed.

Hypothesis storesDigest : StoresDigest L M.

(** From the mail to the new password.  After [forgotPassword] has
    answered for a stored user, [resetPassword] with the token of the
    mail opens a session for that user while the expiry that
    [createPasswordResetToken] set is ahead of the clock (and the new
    password passes the validators), and refuses the token from the
    expiry on; no other stored user holds the digest of the token. *)
Theorem mailed_token_resets_password (env' : Env)
    (req req' : Req.Request) (w : World) (u : User) (expiry : Z) :
  find (matches (ByEmail (Req.email (Req.body req)))) (users w) = Some u ->
  delivers env (resetMail env req u) = true ->
  (forall v, In v (users w) -> _id v <> _id u ->
             passwordResetToken v
             <> Some (sha256hex L (fst (pendingReset env u)))) ->
  passwordResetExpires (fields (snd (pendingReset env u))) = Some expiry ->
  Req.token req' = fst (pendingReset env u) ->
  let w1 := snd (forgotPassword L env req w) in
  let u1 := preSave (now env) (snd (pendingReset env u)) in
  (now env' < expiry ->
   validateSync L (fields (resetDocument req' u1)) = [] ->
   exists r w2,
     resetPassword L env' req' w1 = (Sent r, w2)
     /\ statusCode r = 200
     /\ issuedToken (Sent r) = Some (signToken L env' (_id u)))
  /\ (expiry <= now env' ->
      resetPassword L env' req' w1
      = (NextError (AppError "token is invalid or has expired" None)
                   (Some 400), w1)).
Proof.
  intros Hfind Hsent Hothers Hexpiry Htoken w1 u1.
  set (hashed := sha256hex L (fst (pendingReset env u))) in *.
  assert (Hw1 : users w1 = replace (_id u) u1 (users w)).
  { unfold w1. rewrite (forgotPassword_found L env lawful req w u Hfind).
    cbv zeta. rewrite Hsent. reflexivity. }
  assert (Hid1 : _id u1 = _id u).
  { unfold u1, pendingReset.
    rewrite (preSave_id M lawful), (reset_id M lawful). reflexivity. }
  assert (Hdigest : passwordResetToken u1 = Some hashed).
  { unfold u1, hashed, pendingReset.
    rewrite (preSave_resetToken M lawful). apply storesDigest. }
  assert (Hexpires : passwordResetExpires u1 = Some expiry).
  { unfold u1. rewrite (preSave_resetExpires M lawful). exact Hexpiry. }
  assert (Hrest : forall clock v,
             In v (users w) -> _id v <> _id u ->
             matches (ByResetToken hashed clock) v = false).
  { intros clock v Hv Hne. simpl.
    destruct (passwordResetToken v) as [h|] eqn:Hv'; [|reflexivity].
    destruct (passwordResetExpires v); [|reflexivity].
    destruct (String.eqb_spec h hashed) as [->|]; [|reflexivity].
    exfalso. exact (Hothers v Hv Hne Hv'). }
  apply find_some in Hfind as [Hin _].
  split.
  - intros Hahead Hvalid.
    assert (Hfound :
      find (matches (ByResetToken (sha256hex L (Req.token req'))
                                  (now env'))) (users w1) = Some u1).
    { rewrite Htoken, Hw1. fold hashed. apply find_replaced.
      - simpl. rewrite Hdigest, Hexpires, String.eqb_refl.
        apply Z.ltb_lt. exact Hahead.
      - exists u. split; [exact Hin | reflexivity].
      - intros v Hv Hne. exact (Hrest (now env') v Hv Hne). }
    rewrite (resetPassword_found L env' req' w1 u1 Hfound). cbv zeta.
    rewrite Hvalid, createAndSendToken_sent.
    do 2 eexists. split; [reflexivity|]. split; [reflexivity|].
    simpl. rewrite (preSave_id M lawful). simpl. rewrite Hid1.
    reflexivity.
  - intros Hpast.
    unfold resetPassword, catchAsync, bind, findOne.
    rewrite Htoken, Hw1. fold hashed.
    rewrite find_nothing; [reflexivity|].
    intros v Hv. apply in_replace in Hv as [->|[Hv Hne]].
    + simpl. rewrite Hdigest, Hexpires, String.eqb_refl.
      apply Z.ltb_ge. exact Hpast.
    + exact (Hrest (now env') v Hv Hne).
Qed.

End Reset.

(** Amy's reset request at time 3000, with the mail transport up. *)
Lemma forgotPassword_answers_iff_witness :
  exists u,
    find (matches (ByEmail (Req.email (Req.body Demo.forgotRequest))))
         (users Demo.amyWorld) = Some u
    /\ delivers (Demo.envAt 3000 true)
                (resetMail (M := Demo.model) (Demo.envAt 3000 true)
                           Demo.forgotRequest u) = true
    /\ Demo.sent (fst (Demo.afterForgot true))
       = mkResponse 200 [] (MessageBody "success" "Token sent to email!")
    /\ snd (Demo.afterForgot true)
       = mkWorld
           (replace (_id u)
              (preSave (UserModel := Demo.model) 3000
                 (snd (pendingReset (M := Demo.model)
                         (Demo.envAt 3000 true) u)))
              (users Demo.amyWorld))
           (resetMail (M := Demo.model) (Demo.envAt 3000 true)
                      Demo.forgotRequest u :: outbox Demo.amyWorld)
           (nextId Demo.amyWorld).
Proof.
  apply (proj1 (@forgotPassword_answers_iff Demo.libs Demo.model
                  (Demo.envAt 3000 true)
                  (specModel_lawful Demo.libs Demo.hash Demo.compare)
                  Demo.forgotRequest Demo.amyWorld
                  (snd (Demo.afterForgot true))
                  (Demo.sent (fst (Demo.afterForgot true))))).
  vm_compute. reflexivity.
Defined.

(** Amy's token, presented again at time 5000. *)
Lemma reset_token_is_single_use_witness :
  resetPassword Demo.libs (M := Demo.model) (Demo.envAt 5000 true)
                Demo.resetRequest (snd Demo.afterReset)
  = (NextError (AppError "token is invalid or has expired" None)
               (Some 400), snd Demo.afterReset).
Proof.
  assert (Hrun : resetPassword Demo.libs (M := Demo.model)
                   (Demo.envAt 4000 true) Demo.resetRequest
                   (snd (Demo.afterForgot true))
                 = (Sent (Demo.sent (fst Demo.afterReset)),
                    snd Demo.afterReset))
    by (vm_compute; reflexivity).
  assert (Husers : users (snd (Demo.afterForgot true)) = [Demo.amyPending])
    by (vm_compute; reflexivity).
  apply (@reset_token_is_single_use Demo.libs Demo.model
           (Demo.envAt 4000 true)
           (specModel_lawful Demo.libs Demo.hash Demo.compare)
           (Demo.envAt 5000 true) Demo.resetRequest Demo.resetRequest
           (snd (Demo.afterForgot true)) (snd Demo.afterReset)
           (Demo.sent (fst Demo.afterReset))).
  - rewrite Husers. intros v1 v2 [<-|[]] [<-|[]] _ _. reflexivity.
  - exact Hrun.
  - reflexivity.
Defined.

(** Amy asks for a reset at time 3000 and presents the token of the mail
    at time 4000. *)
Lemma mailed_token_resets_password_witness :
  exists r w2,
    resetPassword Demo.libs (M := Demo.model) (Demo.envAt 4000 true)
                  Demo.resetRequest (snd (Demo.afterForgot true))
    = (Sent r, w2)
    /\ statusCode r = 200
    /\ issuedToken (Sent r)
       = Some (signToken Demo.libs (Demo.envAt 4000 true) (_id Demo.amy)).
Proof.
  assert (Hfind :
    find (matches (ByEmail (Req.email (Req.body Demo.forgotRequest))))
         (users Demo.amyWorld) = Some Demo.amy)
    by (vm_compute; reflexivity).
  assert (Husers : users Demo.amyWorld = [Demo.amy])
    by (vm_compute; reflexivity).
  assert (Hvalid :
    validateSync Demo.libs
      (fields (resetDocument Demo.resetRequest
                 (preSave (UserModel := Demo.model) 3000
                    (snd (pendingReset (M := Demo.model)
                            (Demo.envAt 3000 true) Demo.amy))))) = [])
    by (vm_compute; reflexivity).
  apply (proj1 (@mailed_token_resets_password Demo.libs Demo.model
                  (Demo.envAt 3000 true)
                  (specModel_lawful Demo.libs Demo.hash Demo.compare)
                  (specModel_stores_digest Demo.libs Demo.hash
                                           Demo.compare)
                  (Demo.envAt 4000 true) Demo.forgotRequest
                  Demo.resetRequest Demo.amyWorld Demo.amy 603000
                  Hfind eq_refl
                  ltac:(rewrite Husers; intros v [<-|[]] Hne _;
                        exact (Hne eq_refl))
                  eq_refl eq_refl)).
  - reflexivity.
  - exact Hvalid.
Defined.

(** ** [updatePassword], and the handlers one after another *)

Lemma prefix_common (p a b : string) :
  String.prefix (p ++ a) (p ++ b) = String.prefix a b.
Proof.
  induction p as [|c p IH]; simpl; [reflexivity|].
  destruct (ascii_dec c c) as [_|Hc]; [exact IH | congruence].
Qed.

Lemma find_last (A : Type) (f : A -> bool) (l : list A) (x : A) :
  (forall y, In y l -> f y = false) -> f x = true ->
  find f (l ++ [x]) = Some x.
Proof.
  intros Hl Hx. induction l as [|a l IH]; simpl.
  - rewrite Hx. reflexivity.
  - rewrite (Hl a (or_introl eq_refl)). apply IH.
    intros y Hy. apply Hl. now right.
Qed.

Section Chains.

Variable L : Libs.
Context {M : UserModel}.
Variable env : Env.

(** [updatePassword] answers exactly when [req.user] is set, the
    collection still holds a user of that identifier, the hash
    comparison accepts [passwordCurrent] for the password stored now,
    and that user with the new password and confirmation passes the
    schema; what the save middleware makes of it is stored in place of
    the user, and the session is the one of the stored document. *)
Theorem updatePassword_answers_iff (req : Req.Request) (w w' : World)
    (r : Response) :
  updatePassword L env req w = (Sent r, w')
  <-> exists reqUser u,
        Req.user req = Some reqUser
        /\ find (fun v => _id v =? _id (fields reqUser)) (users w) = Some u
        /\ correctPassword (Req.passwordCurrent (Req.body req))
                           (password u) = true
        /\ validateSync L (fields (updateDocument req u)) = []
        /\ w' = mkWorld
                  (replace (_id u)
                     (preSave (now env) (updateDocument req u)) (users w))
                  (outbox w) (nextId w)
        /\ Sent r
           = createAndSendToken L env
               (loaded (preSave (now env) (updateDocument req u))) 200.
Proof.
  split.
  - intros Hrun.
    destruct (updatePassword_sent L env req w w' r Hrun)
      as (reqUser & u & Huser & Hfind & Hcorrect & Hvalid & _ & Hsent).
    exists reqUser, u.
    rewrite (updatePassword_found L env req w reqUser u Huser Hfind
               Hcorrect) in Hrun.
    cbv zeta in Hrun. rewrite Hvalid in Hrun.
    pose proof (f_equal snd Hrun) as Hw. cbn [snd] in Hw.
    repeat (split; [assumption|]). split; [symmetry; exact Hw|].
    exact Hsent.
  - intros (reqUser & u & Huser & Hfind & Hcorrect & Hvalid & -> & Hsent).
    rewrite (updatePassword_found L env req w reqUser u Huser Hfind
               Hcorrect).
    cbv zeta. rewrite Hvalid, Hsent. reflexivity.
Qed.

(** [updatePassword] on a request that [protect] did not pass, or for a
    user who is no longer stored, throws a [TypeError], which goes to
    the error boundary as it is; nothing is stored. *)
Theorem updatePassword_without_stored_user (req : Req.Request)
    (w : World) :
  (forall reqUser,
     Req.user req = Some reqUser ->
     find (fun v => _id v =? _id (fields reqUser)) (users w) = None) ->
  exists message,
    updatePassword L env req w = (NextError (TypeError message) None, w).
Proof.
  intros Hgone. unfold updatePassword, catchAsync, bind, findById, raise.
  destruct (Req.user req) as [reqUser|]; [|eexists; reflexivity].
  cbv beta iota. rewrite (Hgone reqUser eq_refl).
  eexists. reflexivity.
Qed.

(** The link of the reset mail: the protocol of the request is followed
    by the two slashes at once, so the link never starts with
    [<protocol>://]. *)
Theorem resetURL_omits_the_colon (req : Req.Request) (token : string) :
  JS.startsWith (resetURL req token) (Req.protocol req ++ "//") = true
  /\ JS.startsWith (resetURL req token) (Req.protocol req ++ "://")
     = false.
Proof.
  unfold JS.startsWith, resetURL. rewrite !prefix_common. split.
  - apply (startsWith_append "//").
  - reflexivity.
Qed.

(** [protect] and [restrictTo(...roles)] in a row change nothing, call
    [next()] only with a stored user whose role is one of [roles], and
    never end in the [TypeError] of a missing [req.user]. *)
Theorem protectThenRestrictTo_grants_listed_roles (roles : list string)
    (req : Req.Request) (w : World) :
  snd (protectThenRestrictTo L env roles req w) = w
  /\ (forall d,
        fst (protectThenRestrictTo L env roles req w) = Next d ->
        exists u r,
          d = Some (loaded u) /\ In u (users w)
          /\ role u = Some r /\ In r roles)
  /\ (forall message second,
        fst (protectThenRestrictTo L env roles req w)
        <> NextError (TypeError message) second).
Proof.
  unfold protectThenRestrictTo.
  pose proof (protect_reads L env req w) as Hw.
  destruct (protect L env req w) as [out w0] eqn:Hrun.
  cbn [snd] in Hw. subst w0.
  destruct out as [r|currentUser|e second].
  - split; [reflexivity|]. split; [discriminate|]. discriminate.
  - destruct (protect_next L env req w w currentUser Hrun)
      as (_ & token & decoded & u & _ & _ & _ & Hfind & _ & ->).
    apply find_some in Hfind as [Hin _].
    unfold restrictTo, withUser. cbn [Req.user fields loaded].
    destruct (role u) as [r|] eqn:Hrole.
    + destruct (existsb (String.eqb r) roles) eqn:Hlisted.
      * split; [reflexivity|]. split; [|discriminate].
        intros d Hd. inversion Hd; subst d.
        apply existsb_exists in Hlisted as [x [Hx Heq]].
        apply String.eqb_eq in Heq. subst x.
        exists u, r. repeat split; assumption.
      * split; [reflexivity|]. split; discriminate.
    + split; [reflexivity|]. split; discriminate.
  - split; [reflexivity|]. split; [discriminate|].
    intros message second' H. cbn [fst] in H. inversion H; subst.
    destruct (protect_error L env req w w _ _ Hrun) as [[m Hm]|Hm];
      discriminate.
Qed.

Hypothesis lawful : Lawful M.
Hypothesis acceptsStored : AcceptsStored M.

(** A user who has signed up can log in: after [signup] has answered,
    [login] with the folded email and the password of the signup opens
    a 200 session for the new user, at any later time. *)
Theorem signup_then_login (env' : Env) (req req' : Req.Request)
    (w w' : World) (r : Response) :
  signup L env req w = (Sent r, w') ->
  Req.email (Req.body req')
  = option_map (toLowerCase L) (Req.email (Req.body req)) ->
  Req.password (Req.body req') = Req.password (Req.body req) ->
  exists r',
    login L env' req' w' = (Sent r', w')
    /\ statusCode r' = 200
    /\ issuedToken (Sent r') = Some (signToken L env' (nextId w)).
Proof.
  intros Hrun Hemail Hpassword.
  destruct (signup_sent L env req w w' r Hrun)
    as (Hvalid & Hfree & Husers & _).
  set (d := newDocument L (nextId w) (signupObject (Req.body req))) in *.
  set (u := preSave (now env) d) in *.
  destruct (validateSync_passed L (fields d) Hvalid)
    as (_ & (e & He & Hne & _) & (p & Hp & Hlen) & _).
  assert (Hnp : p <> "") by (intros ->; simpl in Hlen; lia).
  change (email (fields d))
    with (option_map (toLowerCase L) (Req.email (Req.body req))) in He.
  change (password (fields d)) with (Req.password (Req.body req)) in Hp.
  assert (Hmail : email u = Some e).
  { unfold u. rewrite (preSave_email M lawful).
    exact He. }
  assert (Hfind : find (matches (ByEmail (Some e))) (users w') = Some u).
  { rewrite Husers. apply find_last.
    - intros v Hv. simpl. rewrite <- Hmail.
      apply not_true_is_false. intros Hsame.
      apply sameValue_eq in Hsame.
      apply emailTaken_false in Hfree. apply Hfree.
      rewrite <- Hsame. now apply in_map.
    - simpl. apply sameValue_eq. exact Hmail. }
  assert (Hcorrect : correctPassword (Some p) (password u) = true).
  { unfold u. apply acceptsStored.
    - unfold isModified, d, newDocument. cbn [modified].
      apply (givenPaths_password _ p). exact Hp.
    - exact Hp. }
  rewrite He in Hemail. rewrite Hp in Hpassword.
  rewrite (login_found L env' req' w' e p u Hemail Hne Hpassword Hnp
             Hfind).
  rewrite Hcorrect, createAndSendToken_sent.
  eexists. split; [reflexivity|]. split; [reflexivity|].
  simpl. unfold u. rewrite (preSave_id M lawful). reflexivity.
Qed.

End Chains.

(** Amy changes her password at time 6000. *)
Lemma updatePassword_answers_iff_witness :
  exists reqUser u,
    Req.user Demo.updateRequest = Some reqUser
    /\ find (fun v => _id v =? _id (fields reqUser)) (users Demo.amyWorld)
       = Some u
    /\ correctPassword (UserModel := Demo.model)
         (Req.passwordCurrent (Req.body Demo.updateRequest)) (password u)
       = true
    /\ validateSync Demo.libs (fields (updateDocument Demo.updateRequest u))
       = []
    /\ snd Demo.afterUpdate
       = mkWorld
           (replace (_id u)
              (preSave (UserModel := Demo.model) 6000
                       (updateDocument Demo.updateRequest u))
              (users Demo.amyWorld))
           (outbox Demo.amyWorld) (nextId Demo.amyWorld)
    /\ Sent (Demo.sent (fst Demo.afterUpdate))
       = createAndSendToken Demo.libs (Demo.envAt 6000 true)
           (loaded (preSave (UserModel := Demo.model) 6000
                            (updateDocument Demo.updateRequest u))) 200.
Proof.
  apply (proj1 (@updatePassword_answers_iff Demo.libs Demo.model
                  (Demo.envAt 6000 true) Demo.updateRequest Demo.amyWorld
                  (snd Demo.afterUpdate)
                  (Demo.sent (fst Demo.afterUpdate)))).
  vm_compute. reflexivity.
Defined.

(** A request in the name of a user whom the collection does not hold. *)
Lemma updatePassword_without_stored_user_witness :
  exists message,
    updatePassword Demo.libs (M := Demo.model) (Demo.envAt 6000 true)
                   Demo.ghostRequest Demo.amyWorld
    = (NextError (TypeError message) None, Demo.amyWorld).
Proof.
  apply (@updatePassword_without_stored_user Demo.libs Demo.model
           (Demo.envAt 6000 true) Demo.ghostRequest Demo.amyWorld).
  intros reqUser Huser. inversion Huser; subst reqUser.
  vm_compute. reflexivity.
Defined.

(** Amy signs up at time 1000 and logs in at time 2000. *)
Lemma signup_then_login_witness :
  exists r',
    login Demo.libs (M := Demo.model) (Demo.envAt 2000 true)
          (Demo.loginRequest (Some "amy@x.com") (Some "password1"))
          Demo.amyWorld
    = (Sent r', Demo.amyWorld)
    /\ statusCode r' = 200
    /\ issuedToken (Sent r')
       = Some (signToken Demo.libs (Demo.envAt 2000 true)
                         (nextId Demo.emptyWorld)).
Proof.
  assert (Hrun : signup Demo.libs (M := Demo.model) (Demo.envAt 1000 true)
                   (Demo.request Demo.amyBody) Demo.emptyWorld
                 = (Sent (Demo.sent (fst Demo.afterSignup)), Demo.amyWorld))
    by (vm_compute; reflexivity).
  exact (@signup_then_login Demo.libs Demo.model (Demo.envAt 1000 true)
           (specModel_lawful Demo.libs Demo.hash Demo.compare)
           (specModel_accepts Demo.libs Demo.hash Demo.compare
              (fun p => String.eqb_refl (Demo.hash p)))
           (Demo.envAt 2000 true) (Demo.request Demo.amyBody)
           (Demo.loginRequest (Some "amy@x.com") (Some "password1"))
           Demo.emptyWorld Demo.amyWorld
           (Demo.sent (fst Demo.afterSignup)) Hrun eq_refl eq_refl).
Defined.

(** ** What the handlers never do *)

Section Never.

Variable L : Libs.
Context {M : UserModel}.
Variable env : Env.

(** [protect] sends no response of its own: it calls [next()], or hands
    on the 401 error or the error of the codec, each as the only
    argument of [next]. *)
Theorem protect_passes_or_forwards_401 (req : Req.Request) (w : World) :
  (exists currentUser, fst (protect L env req w) = Next currentUser)
  \/ (exists message,
        fst (protect L env req w)
        = NextError (AppError message (Some 401)) None)
  \/ fst (protect L env req w) = NextError JsonWebTokenError None.
Proof.
  unfold protect, catchAsync, bind, verify, findById, ret, raise.
  destruct (bearerToken req) as [token|]; [|right; left; eexists; reflexivity].
  destruct (negb (JS.truthy (Some token))); [right; left; eexists; reflexivity|].
  destruct (jwt_verify L token (JWT_SECRET (config env)) (now env))
    as [decoded|]; [|right; right; reflexivity].
  cbv beta iota.
  destruct (find (fun v => _id v =? id decoded) (users w)) as [u|];
    [|right; left; eexists; reflexivity].
  cbn [option_map]. cbv beta iota.
  destruct (passwordChangedAfter (fields (loaded u)) (iat decoded));
    [right; left; eexists; reflexivity | left; eexists; reflexivity].
Qed.

(** A new password that the schema refuses -- none, one of fewer than
    eight characters, or one without a confirmation -- changes nothing:
    [resetPassword] and [updatePassword] hand on the validation error,
    and the collection is as before, so a reset token is still
    pending. *)
Theorem refused_password_changes_nothing (req : Req.Request) (w : World)
    (u : User) :
  (forall p, Req.password (Req.body req) = Some p ->
             (String.length p < 8)%nat)
  \/ JS.truthy (Req.passwordConfirm (Req.body req)) = false ->
  (find (matches (ByResetToken (sha256hex L (Req.token req)) (now env)))
        (users w) = Some u ->
   exists f fs,
     resetPassword L env req w
     = (NextError (ValidationError (f :: fs)) None, w))
  /\ (forall reqUser,
        Req.user req = Some reqUser ->
        find (fun v => _id v =? _id (fields reqUser)) (users w) = Some u ->
        correctPassword (Req.passwordCurrent (Req.body req)) (password u)
        = true ->
        exists f fs,
          updatePassword L env req w
          = (NextError (ValidationError (f :: fs)) None, w)).
Proof.
  intros Hrefused.
  assert (Hfails : forall x,
             password x = Req.password (Req.body req) ->
             passwordConfirm x = Req.passwordConfirm (Req.body req) ->
             validateSync L x <> []).
  { intros x Hp Hc Hvalid.
    destruct (validateSync_passed L x Hvalid)
      as (_ & _ & (p & Hp' & Hlen) & (c & Hc' & Hne)).
    destruct Hrefused as [Hshort|Hmissing].
    - rewrite Hp in Hp'. specialize (Hshort p Hp'). lia.
    - rewrite Hc in Hc'. rewrite Hc' in Hmissing.
      rewrite (truthy_nonempty c Hne) in Hmissing. discriminate. }
  split.
  - intros Hfind.
    rewrite (resetPassword_found L env req w u Hfind). cbv zeta.
    destruct (validateSync L (fields (resetDocument req u)))
      as [|f fs] eqn:Hvalid; [|eauto].
    exfalso.
    exact (Hfails (fields (resetDocument req u)) eq_refl eq_refl Hvalid).
  - intros reqUser Huser Hfind Hcorrect.
    rewrite (updatePassword_found L env req w reqUser u Huser Hfind
               Hcorrect).
    cbv zeta.
    destruct (validateSync L (fields (updateDocument req u)))
      as [|f fs] eqn:Hvalid; [|eauto].
    exfalso.
    exact (Hfails (fields (updateDocument req u)) eq_refl eq_refl Hvalid).
Qed.

Hypothesis lawful : Lawful M.

(** Only [forgotPassword] sends mail, and one mail at most: every other
    handler leaves the outbox as it was, and [forgotPassword] adds
    nothing or the reset mail of a stored user. *)
Theorem only_forgotPassword_sends_mail (r : Route) (req : Req.Request)
    (w : World) :
  outbox (snd (route L env r req w)) = outbox w
  \/ (r = RForgotPassword
      /\ exists u,
           In u (users w)
           /\ outbox (snd (route L env r req w))
              = resetMail env req u :: outbox w).
Proof.
  destruct r; simpl.
  - left. rewrite signup_run.
    set (d := newDocument L (nextId w) (signupObject (Req.body req))).
    destruct (validateSync L (fields d)) as [|f fs] eqn:Hvalid.
    + rewrite (create_valid L env _ w Hvalid). cbv zeta. fold d.
      destruct (emailTaken (email (preSave (now env) d)) (users w));
        reflexivity.
    + rewrite (create_invalid L env _ w f fs Hvalid). reflexivity.
  - left. rewrite login_reads. reflexivity.
  - left. rewrite protect_reads. reflexivity.
  - left. rewrite restrictTo_reads. reflexivity.
  - destruct (find (matches (ByEmail (Req.email (Req.body req))))
                   (users w)) as [u|] eqn:Hfind.
    + rewrite (forgotPassword_found L env lawful req w u Hfind).
      cbv zeta.
      destruct (delivers env (resetMail env req u)).
      * right. split; [reflexivity|]. exists u.
        apply find_some in Hfind as [Hin _]. split; [exact Hin|].
        reflexivity.
      * left. reflexivity.
    + left. unfold forgotPassword, catchAsync, bind, findOne.
      rewrite Hfind. reflexivity.
  - left.
    destruct (find (matches (ByResetToken (sha256hex L (Req.token req))
                                          (now env))) (users w))
      as [u|] eqn:Hfind.
    + rewrite (resetPassword_found L env req w u Hfind). cbv zeta.
      destruct (validateSync L (fields (resetDocument req u)));
        reflexivity.
    + unfold resetPassword, catchAsync, bind, findOne. rewrite Hfind.
      reflexivity.
  - left.
    destruct (Req.user req) as [reqUser|] eqn:Huser.
    + destruct (find (fun v => _id v =? _id (fields reqUser)) (users w))
        as [u|] eqn:Hfind.
      * destruct (correctPassword (Req.passwordCurrent (Req.body req))
                                  (password u)) eqn:Hcorrect.
        -- rewrite (updatePassword_found L env req w reqUser u Huser
                      Hfind Hcorrect).
           cbv zeta.
           destruct (validateSync L (fields (updateDocument req u)));
             reflexivity.
        -- unfold updatePassword, catchAsync, bind, findById.
           rewrite Huser. cbv beta iota. rewrite Hfind.
           cbn [option_map]. cbv beta iota.
           change (password (fields (loaded u))) with (password u).
           rewrite Hcorrect. reflexivity.
      * unfold updatePassword, catchAsync, bind, findById, raise.
        rewrite Huser. cbv beta iota. rewrite Hfind. reflexivity.
    + unfold updatePassword, catchAsync, raise. rewrite Huser.
      reflexivity.
Qed.

End Never.

(** Amy presents her reset token with a password of five characters. *)
Lemma refused_password_changes_nothing_witness :
  exists f fs,
    resetPassword Demo.libs (M := Demo.model) (Demo.envAt 4000 true)
                  Demo.shortResetRequest (snd (Demo.afterForgot true))
    = (NextError (ValidationError (f :: fs)) None,
       snd (Demo.afterForgot true)).
Proof.
  assert (Hfind :
    find (matches (ByResetToken
                     (sha256hex Demo.libs (Req.token Demo.shortResetRequest))
                     (now (Demo.envAt 4000 true))))
         (users (snd (Demo.afterForgot true))) = Some Demo.amyPending)
    by (vm_compute; reflexivity).
  assert (Hshort : forall p,
             Req.password (Req.body Demo.shortResetRequest) = Some p ->
             (String.length p < 8)%nat).
  { intros p Hp. inversion Hp; subst p. simpl. lia. }
  apply (proj1 (@refused_password_changes_nothing Demo.libs Demo.model
                  (Demo.envAt 4000 true) Demo.shortResetRequest
                  (snd (Demo.afterForgot true)) Demo.amyPending
                  (or_introl Hshort))).
  exact Hfind.
Defined.

(** Amy's reset request is the one mail of the flow. *)
Lemma only_forgotPassword_sends_mail_witness :
  outbox (snd (route Demo.libs (M := Demo.model) (Demo.envAt 3000 true)
                 RForgotPassword Demo.forgotRequest Demo.amyWorld))
  = outbox Demo.amyWorld
  \/ (RForgotPassword = RForgotPassword
      /\ exists u,
           In u (users Demo.amyWorld)
           /\ outbox (snd (route Demo.libs (M := Demo.model)
                             (Demo.envAt 3000 true) RForgotPassword
                             Demo.forgotRequest Demo.amyWorld))
              = resetMail (M := Demo.model) (Demo.envAt 3000 true)
                          Demo.forgotRequest u
                :: outbox Demo.amyWorld).
Proof.
  exact (@only_forgotPassword_sends_mail Demo.libs Demo.model
           (Demo.envAt 3000 true)
           (specModel_lawful Demo.libs Demo.hash Demo.compare)
           RForgotPassword Demo.forgotRequest Demo.amyWorld).
Defined.

(** ** The new password is the one that logs in *)

Lemma distinct_key_unique (K : Type) (key : User -> K) (us : list User)
    (u v : User) :
  NoDup (map key us) -> In u us -> In v us -> key u = key v -> u = v.
Proof.
  induction us as [|x us IH]; simpl; intros Hnodup Hu Hv Hkey;
    [contradiction|].
  apply NoDup_cons_iff in Hnodup as [Hx Hnodup].
  destruct Hu as [->|Hu], Hv as [->|Hv].
  - reflexivity.
  - exfalso. apply Hx. rewrite Hkey. now apply in_map.
  - exfalso. apply Hx. rewrite <- Hkey. now apply in_map.
  - exact (IH Hnodup Hu Hv Hkey).
Qed.

Section NewPassword.

Variable L : Libs.
Context {M : UserModel}.
Variable env : Env.
Hypothesis lawful : Lawful M.
Hypothesis acceptsStored : AcceptsStored M.

(** The login of a user whose document was just saved with a password
    that was assigned to it. *)
Lemma login_after_save (env' : Env) (req' : Req.Request) (w : World)
    (u : User) (d : Doc) (p : string) :
  NoDup (map email (users w)) ->
  In u (users w) ->
  _id (fields d) = _id u -> email (fields d) = email u ->
  validateSync L (fields d) = [] ->
  isModified PPassword d = true ->
  password (fields d) = Some p ->
  Req.email (Req.body req') = email u ->
  Req.password (Req.body req') = Some p ->
  let w' := mkWorld (replace (_id u) (preSave (now env) d) (users w))
                    (outbox w) (nextId w) in
  exists r',
    login L env' req' w' = (Sent r', w')
    /\ statusCode r' = 200
    /\ issuedToken (Sent r') = Some (signToken L env' (_id u)).
Proof.
  intros Hnodup Hin Hid Hmail Hvalid Hmod Hp Hemail Hpassword w'.
  set (u' := preSave (now env) d) in *.
  destruct (validateSync_passed L (fields d) Hvalid)
    as (_ & (e & He & Hne & _) & (p' & Hp' & Hlen) & _).
  rewrite Hp in Hp'. inversion Hp'; subst p'. clear Hp'.
  assert (Hnp : p <> "") by (intros ->; simpl in Hlen; lia).
  assert (Hmail' : email u' = Some e)
    by (unfold u'; rewrite (preSave_email M lawful); exact He).
  assert (Hid' : _id u' = _id u)
    by (unfold u'; rewrite (preSave_id M lawful); exact Hid).
  assert (Hfind : find (matches (ByEmail (Some e))) (users w') = Some u').
  { unfold w'. cbn [users]. apply find_replaced.
    - simpl. apply sameValue_eq. exact Hmail'.
    - exists u. split; [exact Hin | reflexivity].
    - intros v Hv Hne'. simpl. apply not_true_is_false. intros Hsame.
      apply sameValue_eq in Hsame. apply Hne'. f_equal.
      apply (distinct_key_unique _ email (users w) v u Hnodup Hv Hin).
      rewrite Hsame, <- Hmail. symmetry. exact He. }
  assert (Hcorrect : correctPassword (Some p) (password u') = true)
    by (unfold u'; apply acceptsStored; assumption).
  rewrite <- Hmail, He in Hemail.
  rewrite (login_found L env' req' w' e p u' Hemail Hne Hpassword Hnp
             Hfind).
  rewrite Hcorrect, createAndSendToken_sent.
  eexists. split; [reflexivity|]. split; [reflexivity|].
  simpl. rewrite Hid'. reflexivity.
Qed.

(** After [resetPassword] or [updatePassword] has answered, [login]
    with the email of the user and the new password opens a session
    for that user, at any later time: the password that the handler
    stored is the one the hash comparison accepts.  (No two stored
    users share an email.) *)
Theorem new_password_logs_in (env' : Env) (e : Endpoint)
    (req req' : Req.Request) (w w' : World) (r : Response) :
  NoDup (map email (users w)) ->
  e = ResetPassword \/ e = UpdatePassword ->
  endpoint L env e req w = (Sent r, w') ->
  exists u,
    In u (users w)
    /\ issuedToken (Sent r) = Some (signToken L env (_id u))
    /\ (Req.email (Req.body req') = email u ->
        Req.password (Req.body req') = Req.password (Req.body req) ->
        exists r',
          login L env' req' w' = (Sent r', w')
          /\ statusCode r' = 200
          /\ issuedToken (Sent r') = Some (signToken L env' (_id u))).
Proof.
  intros Hnodup He Hrun.
  assert (Hsaved : forall u d,
             In u (users w) ->
             _id (fields d) = _id u -> email (fields d) = email u ->
             isModified PPassword d = true ->
             password (fields d) = Req.password (Req.body req) ->
             validateSync L (fields d) = [] ->
             (createAndSendToken L env (loaded (preSave (now env) d)) 200,
              mkWorld (replace (_id u) (preSave (now env) d) (users w))
                      (outbox w) (nextId w)) = (Sent r, w') ->
             exists u,
               In u (users w)
               /\ issuedToken (Sent r) = Some (signToken L env (_id u))
               /\ (Req.email (Req.body req') = email u ->
                   Req.password (Req.body req')
                   = Req.password (Req.body req) ->
                   exists r',
                     login L env' req' w' = (Sent r', w')
                     /\ statusCode r' = 200
                     /\ issuedToken (Sent r')
                        = Some (signToken L env' (_id u)))).
  { intros u d Hin Hid Hmail Hmod Hp Hvalid Hsent.
    pose proof (f_equal fst Hsent) as Hr. cbn [fst] in Hr.
    pose proof (f_equal snd Hsent) as Hw. cbn [snd] in Hw.
    exists u. split; [exact Hin|]. split.
    - rewrite <- Hr, createAndSendToken_sent. simpl.
      rewrite (preSave_id M lawful), Hid. reflexivity.
    - intros Hemail Hpassword.
      destruct (validateSync_nil_password L (fields d) Hvalid)
        as (p & Hp' & _).
      rewrite Hp in Hp'. rewrite Hp' in Hpassword. subst w'.
      exact (login_after_save env' req' w u d p Hnodup Hin Hid Hmail
               Hvalid Hmod (eq_trans Hp Hp') Hemail Hpassword). }
  destruct He as [-> | ->]; simpl in Hrun.
  - destruct (find (matches (ByResetToken (sha256hex L (Req.token req))
                                          (now env))) (users w))
      as [u|] eqn:Hfind.
    + rewrite (resetPassword_found L env req w u Hfind) in Hrun.
      cbv zeta in Hrun.
      destruct (validateSync L (fields (resetDocument req u)))
        as [|f fs] eqn:Hvalid; [|discriminate].
      apply find_some in Hfind as [Hin _].
      exact (Hsaved u (resetDocument req u) Hin eq_refl eq_refl eq_refl
               eq_refl Hvalid Hrun).
    + unfold resetPassword, catchAsync, bind, findOne, ret in Hrun.
      rewrite Hfind in Hrun. discriminate.
  - destruct (updatePassword_sent L env req w w' r Hrun)
      as (reqUser & u & Huser & Hfind & Hcorrect & Hvalid & _ & _).
    rewrite (updatePassword_found L env req w reqUser u Huser Hfind
               Hcorrect) in Hrun.
    cbv zeta in Hrun. rewrite Hvalid in Hrun.
    apply find_some in Hfind as [Hin _].
    exact (Hsaved u (updateDocument req u) Hin eq_refl eq_refl eq_refl
             eq_refl Hvalid Hrun).
Qed.

End NewPassword.

(** Amy changes her password at time 6000 and logs in with the new one
    at time 7000. *)
Lemma new_password_logs_in_witness :
  exists r',
    login Demo.libs (M := Demo.model) (Demo.envAt 7000 true)
          (Demo.loginRequest (Some "amy@x.com") (Some "password2"))
          (snd Demo.afterUpdate)
    = (Sent r', snd Demo.afterUpdate)
    /\ statusCode r' = 200
    /\ issuedToken (Sent r')
       = Some (signToken Demo.libs (Demo.envAt 7000 true) (_id Demo.amy)).
Proof.
  assert (Hrun : endpoint Demo.libs (M := Demo.model)
                   (Demo.envAt 6000 true) UpdatePassword
                   Demo.updateRequest Demo.amyWorld
                 = (Sent (Demo.sent (fst Demo.afterUpdate)),
                    snd Demo.afterUpdate))
    by (vm_compute; reflexivity).
  assert (Husers : users Demo.amyWorld = [Demo.amy])
    by (vm_compute; reflexivity).
  destruct (@new_password_logs_in Demo.libs Demo.model
              (Demo.envAt 6000 true)
              (specModel_lawful Demo.libs Demo.hash Demo.compare)
              (specModel_accepts Demo.libs Demo.hash Demo.compare
                 (fun p => String.eqb_refl (Demo.hash p)))
              (Demo.envAt 7000 true) UpdatePassword Demo.updateRequest
              (Demo.loginRequest (Some "amy@x.com") (Some "password2"))
              Demo.amyWorld (snd Demo.afterUpdate)
              (Demo.sent (fst Demo.afterUpdate))
              (distinct_emails _ amyWorld_consistent)
              (or_intror eq_refl) Hrun)
    as (u & Hin & _ & Hlogin).
  rewrite Husers in Hin. destruct Hin as [<-|[]].
  exact (Hlogin eq_refl eq_refl).
Defined.
